(** * httpgzip: on-the-fly gzip encoding of HTTP responses

  A shallow embedding of [httpgzip.go] (package [httpgzip]): the
  Accept-Encoding negotiator [allowsGzip], the content-type classifier
  [supportedContentType], the response-writer decorator [gRW] with its
  methods [init], [WriteHeader], [Write], [Flush] and [Close], the pool of
  gzip writers and the dispatcher [ServeHTTP].

  Go strings are byte strings and are modelled by [string] (one [ascii]
  per byte).  Functions of the Go standard library that the package calls
  are modelled by their documented behaviour ([strings.*], [http.Header])
  or, where they compute with floating point numbers, large tables or the
  runtime ([strconv.ParseFloat], [strconv.Atoi], [http.DetectContentType],
  the choice made by [sync.Pool.Get]), taken as parameters of the
  development. *)

From Stdlib Require Import ZArith String Ascii List Bool Lia.
From stdpp Require Import gmap strings.

Open Scope string_scope.
Open Scope list_scope.

#[local] Arguments append !_ _ / : simpl nomatch.

Set Default Proof Using "Type".

(** ** Package [strings] *)

Module strings.

(** [strings.HasPrefix(s, prefix)] *)
Fixpoint HasPrefix (s prefix : string) {struct prefix} : bool :=
  match prefix with
  | EmptyString => true
  | String a prefix' =>
      match s with
      | EmptyString => false
      | String b s' => Ascii.eqb a b && HasPrefix s' prefix'
      end
  end.

(** [strings.Contains(s, substr)] *)
Fixpoint Contains (s substr : string) : bool :=
  HasPrefix s substr ||
  match s with
  | EmptyString => false
  | String _ s' => Contains s' substr
  end.

(** [s[n:]] *)
Fixpoint drop (n : nat) (s : string) {struct n} : string :=
  match n, s with
  | O, _ => s
  | S n', String _ s' => drop n' s'
  | S _, EmptyString => EmptyString
  end.

(** [strings.TrimPrefix(s, prefix)] *)
Definition TrimPrefix (s prefix : string) : string :=
  if HasPrefix s prefix then drop (String.length prefix) s else s.

(** [strings.Cut(s, sep)] for a one-byte separator: the text before and
    after the first [sep], if there is one. *)
Fixpoint Cut (s : string) (sep : ascii) : option (string * string) :=
  match s with
  | EmptyString => None
  | String c s' =>
      if Ascii.eqb c sep then Some (EmptyString, s')
      else match Cut s' sep with
           | Some (before, after) => Some (String c before, after)
           | None => None
           end
  end.

(** [strings.Split(s, sep)] for a one-byte separator: never empty. *)
Fixpoint Split (s : string) (sep : ascii) : list string :=
  match s with
  | EmptyString => [EmptyString]
  | String c s' =>
      if Ascii.eqb c sep then EmptyString :: Split s' sep
      else match Split s' sep with
           | x :: xs => String c x :: xs
           | [] => [String c EmptyString]
           end
  end.

(** [strings.SplitN(s, sep, n)] for a one-byte separator: at most [n]
    pieces, the last one being the unsplit remainder; [nil] for [n = 0]. *)
Fixpoint SplitN (s : string) (sep : ascii) (n : nat) : list string :=
  match n with
  | O => []
  | S O => [s]
  | S n' =>
      match Cut s sep with
      | Some (before, after) => before :: SplitN after sep n'
      | None => [s]
      end
  end.

(** The six ASCII bytes of [asciiSpace]: tab, LF, VT, FF, CR, space. *)
Definition asciiSpace (c : ascii) : bool :=
  Ascii.eqb c "009" || Ascii.eqb c "010" || Ascii.eqb c "011" ||
  Ascii.eqb c "012" || Ascii.eqb c "013" || Ascii.eqb c "032".

(** UTF-8 encodings of the code points above U+007F for which
    [unicode.IsSpace] holds: U+0085, U+00A0 (two bytes) and U+1680,
    U+2000..U+200A, U+2028, U+2029, U+202F, U+205F, U+3000 (three). *)
Definition space2 (c1 c2 : ascii) : bool :=
  Ascii.eqb c1 "194" && (Ascii.eqb c2 "133" || Ascii.eqb c2 "160").

Definition space3 (c1 c2 c3 : ascii) : bool :=
  (Ascii.eqb c1 "225" && Ascii.eqb c2 "154" && Ascii.eqb c3 "128") ||
  (Ascii.eqb c1 "226" && Ascii.eqb c2 "128" &&
     ((N.leb 128 (N_of_ascii c3) && N.leb (N_of_ascii c3) 138) ||
      Ascii.eqb c3 "168" || Ascii.eqb c3 "169" || Ascii.eqb c3 "175")) ||
  (Ascii.eqb c1 "226" && Ascii.eqb c2 "129" && Ascii.eqb c3 "159") ||
  (Ascii.eqb c1 "227" && Ascii.eqb c2 "128" && Ascii.eqb c3 "128").

(** [strings.TrimLeftFunc(s, unicode.IsSpace)]: drop leading runes that
    are spaces.  A rune decoded at the front of [s] is a space exactly
    when [s] starts with one of the encodings above. *)
Fixpoint TrimLeftSpace (s : string) : string :=
  match s with
  | EmptyString => EmptyString
  | String c1 s1 =>
      if asciiSpace c1 then TrimLeftSpace s1
      else match s1 with
           | EmptyString => s
           | String c2 s2 =>
               if space2 c1 c2 then TrimLeftSpace s2
               else match s2 with
                    | EmptyString => s
                    | String c3 s3 =>
                        if space3 c1 c2 c3 then TrimLeftSpace s3 else s
                    end
           end
  end.

(** The same scan on the reversed string: the encodings are read last
    byte first, as [utf8.DecodeLastRuneInString] finds them. *)
Fixpoint TrimLeftSpaceRev (s : string) : string :=
  match s with
  | EmptyString => EmptyString
  | String c1 s1 =>
      if asciiSpace c1 then TrimLeftSpaceRev s1
      else match s1 with
           | EmptyString => s
           | String c2 s2 =>
               if space2 c2 c1 then TrimLeftSpaceRev s2
               else match s2 with
                    | EmptyString => s
                    | String c3 s3 =>
                        if space3 c3 c2 c1 then TrimLeftSpaceRev s3 else s
                    end
           end
  end.

Fixpoint rev_append (s acc : string) : string :=
  match s with
  | EmptyString => acc
  | String c s' => rev_append s' (String c acc)
  end.

Definition rev (s : string) : string := rev_append s EmptyString.

(** [strings.TrimRightFunc(s, unicode.IsSpace)] *)
Definition TrimRightSpace (s : string) : string :=
  rev (TrimLeftSpaceRev (rev s)).

(** [strings.TrimSpace(s)] *)
Definition TrimSpace (s : string) : string :=
  TrimRightSpace (TrimLeftSpace s).

End strings.

(** ** Results of code that can panic *)

Inductive result (A : Type) : Type :=
| Ok (a : A)
| Panic (msg : string).

Arguments Ok {A} a.
Arguments Panic {A} msg.

#[global] Instance result_ret : MRet result := fun A a => Ok a.
#[global] Instance result_bind : MBind result := fun A B f m =>
  match m with
  | Ok a => f a
  | Panic msg => Panic msg
  end.

(** ** [http.Header] *)

(** A header is a map from canonical keys to the values of that key.  The
    keys this package uses are constants in canonical form, on which
    [textproto.CanonicalMIMEHeaderKey] is the identity. *)
Abbreviation Header := (gmap string (list string)).

Definition hdrAcceptEncoding : string := "Accept-Encoding".
Definition hdrContentEncoding : string := "Content-Encoding".
Definition hdrContentType : string := "Content-Type".
Definition hdrContentLength : string := "Content-Length".
Definition hdrContentRange : string := "Content-Range".
Definition hdrVary : string := "Vary".

Definition compressThreshold : Z := 1000.

Definition StatusOK : Z := 200.
Definition StatusNoContent : Z := 204.
Definition StatusPartialContent : Z := 206.
Definition StatusNotModified : Z := 304.

(** [h.Values(key)] *)
Definition Header_Values (h : Header) (key : string) : list string :=
  default [] (h !! key).

(** [h.Get(key)]: the first value of the key, or the empty string. *)
Definition Header_Get (h : Header) (key : string) : string :=
  match h !! key with
  | Some (v :: _) => v
  | _ => ""
  end.

(** [h.Set(key, value)] *)
Definition Header_Set (h : Header) (key value : string) : Header :=
  <[key := [value]]> h.

(** [h.Add(key, value)] *)
Definition Header_Add (h : Header) (key value : string) : Header :=
  <[key := Header_Values h key ++ [value]]> h.

(** [h.Del(key)] *)
Definition Header_Del (h : Header) (key : string) : Header :=
  delete key h.

(** ** Package [compress/gzip] *)

Definition HuffmanOnly : Z := -2.
Definition BestSpeed : Z := 1.
Definition BestCompression : Z := 9.

(** A [*gzip.Writer]: its identity and the level it was made with.  What it
    compresses is outside this development. *)
Inductive Writer : Type :=
| GzipWriter (id : nat) (level : Z).

(** [gzip.NewWriterLevel(io.Discard, level)]: [None] when it returns an
    error; [id] names the new object. *)
Definition NewWriterLevel (id : nat) (level : Z) : option Writer :=
  if (level <? HuffmanOnly)%Z || (level >? BestCompression)%Z
  then None
  else Some (GzipWriter id level).

(** The error [gzip.NewWriterLevel] returns, as the value of a panic. *)
Definition invalidLevel : string := "gzip: invalid compression level".

(** ** Sample instances of the parameters *)

(** Closed examples need the parameters of the development at some value.
    These follow the Go documentation on the inputs the examples use. *)
Module Sample.

Definition digit (c : ascii) : option Z :=
  let n := Z.of_N (N_of_ascii c) in
  if (48 <=? n)%Z && (n <=? 57)%Z then Some (n - 48)%Z else None.

Fixpoint digits (s : string) (acc : Z) : option Z :=
  match s with
  | EmptyString => Some acc
  | String c s' =>
      match digit c with
      | Some d => digits s' (acc * 10 + d)%Z
      | None => None
      end
  end.

(** [strconv.Atoi] where [int] has 64 bits: an optional sign, then one or
    more decimal digits, the value within the range of [int]. *)
Definition Atoi (s : string) : option Z :=
  let signed :=
    match s with
    | String "-" r => (true, r)
    | String "+" r => (false, r)
    | _ => (false, s)
    end in
  match signed.2 with
  | EmptyString => None
  | body =>
      match digits body 0 with
      | Some n =>
          let v := if signed.1 then (- n)%Z else n in
          if (- 2 ^ 63 <=? v)%Z && (v <=? 2 ^ 63 - 1)%Z then Some v else None
      | None => None
      end
  end.

(** Exact unsigned decimal literals [digits] or [digits.digits] stand for
    [float64]: the digits as a number and how many follow the point.  Every
    other string is an error here. *)
Definition float64 : Type := Z * nat.

Definition ParseFloat (s : string) : option float64 :=
  match strings.Cut s "." with
  | None =>
      match s with
      | EmptyString => None
      | _ => n ← digits s 0; Some (n, O)
      end
  | Some (int, frac) =>
      match int, frac with
      | EmptyString, EmptyString => None
      | _, _ => n ← digits (int +:+ frac) 0; Some (n, String.length frac)
      end
  end.

Definition gt0 (q : float64) : bool := (0 <? q.1)%Z.

(** The last rules of [http.DetectContentType]: data without a byte that
    text never holds is plain text, other data is an octet stream.  The
    signatures tried before these rules are left out. *)
Definition binaryByte (c : ascii) : bool :=
  let n := N_of_ascii c in
  (n <=? 8)%N || (n =? 11)%N || ((14 <=? n)%N && (n <=? 26)%N) ||
  ((28 <=? n)%N && (n <=? 31)%N).

Fixpoint hasBinary (fuel : nat) (b : string) : bool :=
  match fuel, b with
  | S fuel', String c b' => binaryByte c || hasBinary fuel' b'
  | _, _ => false
  end.

Definition DetectContentType (b : string) : string :=
  if hasBinary 512 b then "application/octet-stream"
  else "text/plain; charset=utf-8".

(** A pool that hands out the writer put back last. *)
Definition pick (l : list Writer) : option (Writer * list Writer) :=
  match l with
  | zw :: rest => Some (zw, rest)
  | [] => None
  end.

End Sample.

(** ** The real response writer *)

(** What the package does to the real writer and to its collaborators, in
    program order.  Header changes the wrapped handler makes itself are not
    listed. *)
Inductive Event : Type :=
| EvHeaderAdd (key value : string)
| EvHeaderSet (key value : string)
| EvHeaderDel (key : string)
| EvWriteHeader (code : Z)
| EvWrite (b : string)
| EvFlush
| EvPoolGet (zw : Writer)
| EvPoolPut (zw : Writer)
| EvReset (zw : Writer)
| EvZWrite (zw : Writer) (b : string)
| EvZFlush (zw : Writer)
| EvZClose (zw : Writer).

(** An [http.ResponseWriter] received by [ServeHTTP]: which object it is,
    whether its dynamic type is an [http.Flusher], its header map, and the
    journal of the calls it and the other collaborators received. *)
Record ResponseWriter : Type := mkResponseWriter {
  ident : nat;
  isFlusher : bool;
  header : Header;
  journal : list Event
}.

Definition record (evs : list Event) (rw : ResponseWriter) : ResponseWriter :=
  mkResponseWriter (ident rw) (isFlusher rw) (header rw) (journal rw ++ evs).

Definition with_header (hd : Header) (rw : ResponseWriter) : ResponseWriter :=
  mkResponseWriter (ident rw) (isFlusher rw) hd (journal rw).

(** [if f, ok := w.(http.Flusher); ok { f.Flush() }] *)
Definition flush_if_Flusher (rw : ResponseWriter) : ResponseWriter :=
  if isFlusher rw then record [EvFlush] rw else rw.

(** ** The pool of gzip writers *)

(** [pool]: the level [New] uses, the idle writers, and how many writers
    [New] has made so far. *)
Record writerPool : Type := mkPool {
  level : Z;
  idle : list Writer;
  made : nat
}.

Definition newWriterPool (lvl : Z) : writerPool := mkPool lvl [] 0.

(** [p.Put(w)] *)
Definition pool_Put (p : writerPool) (zw : Writer) : writerPool :=
  mkPool (level p) (zw :: idle p) (made p).

(** A proof that a concrete level is one [gzip.NewWriterLevel] accepts. *)
Ltac level_ok := vm_compute; split; discriminate.

Section Httpgzip.

(** ** Parameters: the standard library and the runtime *)

(** [float64], [strconv.ParseFloat(s, 64)] ([None] when it returns an
    error) and the comparison [q > 0]. *)
Variable float64 : Type.
Variable ParseFloat : string -> option float64.
Variable gt0 : float64 -> bool.

(** [strconv.Atoi(s)], [None] when it returns an error. *)
Variable Atoi : string -> option Z.

(** [http.DetectContentType(data)] *)
Variable DetectContentType : string -> string.

(** The choice [sync.Pool.Get] makes among the idle items: one of them,
    taken out of the pool, or none at all (the pool may drop items at any
    time), in which case [New] is called. *)
Variable pick : list Writer -> option (Writer * list Writer).

(** ** The negotiator *)

(** One iteration of the loop of [allowsGzip] on the entry [ss]: [None]
    is [continue], [Some b] is [return b]. *)
Definition allowsGzip_entry (ss : string) : option bool :=
  let parts := strings.SplitN ss ";" 2 in
  let l := List.length parts in
  if Nat.eqb l 0 ||
     negb (String.eqb (strings.TrimSpace (nth 0 parts "")) "gzip")
  then None
  else if Nat.eqb l 1 then Some true
  else
    let p := strings.TrimSpace (nth 1 parts "") in
    let qv := strings.TrimPrefix p "q=" in
    if negb (String.eqb qv p) then
      match ParseFloat qv with
      | Some q => Some (gt0 q)
      | None => Some false
      end
    else Some false.

Fixpoint allowsGzip_loop (entries : list string) : bool :=
  match entries with
  | [] => false
  | ss :: rest =>
      match allowsGzip_entry ss with
      | Some b => b
      | None => allowsGzip_loop rest
      end
  end.

Definition allowsGzip (hdr : string) : bool :=
  if negb (strings.Contains hdr "gzip") then false
  else allowsGzip_loop (strings.Split hdr ",").

(** ** The content-type classifier *)

Definition supportedContentType (s : string) : bool :=
  if String.eqb s "" then false
  else if String.eqb s "image/svg+xml" || String.eqb s "font/woff" ||
          String.eqb s "font/woff2" then true
  else if strings.HasPrefix s "text/" then true
  else if strings.HasPrefix s "application/" &&
          (strings.Contains s "json" || strings.Contains s "javascript" ||
           strings.Contains s "xml") then true
  else false.

(** ** The pool, continued *)

(** [p.Get()]: an idle writer if [sync.Pool] hands one out, else a new one
    from [New], which panics when [gzip.NewWriterLevel] rejects the level. *)
Definition pool_Get (p : writerPool) : result (Writer * writerPool) :=
  match pick (idle p) with
  | Some (zw, rest) => Ok (zw, mkPool (level p) rest (made p))
  | None =>
      match NewWriterLevel (made p) (level p) with
      | Some zw => Ok (zw, mkPool (level p) (idle p) (S (made p)))
      | None => Panic invalidLevel
      end
  end.

(** ** The response-writer decorator *)

Record gRW : Type := mkgRW {
  w : ResponseWriter;
  z : option Writer;
  pool : writerPool;
  skip : bool;
  wroteHeader : bool
}.

Definition set_w (rw : ResponseWriter) (g : gRW) : gRW :=
  mkgRW rw (z g) (pool g) (skip g) (wroteHeader g).

Definition set_skip (g : gRW) : gRW :=
  mkgRW (w g) (z g) (pool g) true (wroteHeader g).

Definition set_wroteHeader (g : gRW) : gRW :=
  mkgRW (w g) (z g) (pool g) (skip g) true.

(** [g.w.Header().Get(key)] *)
Definition hget (g : gRW) (key : string) : string :=
  Header_Get (header (w g)) key.

(** [g.w.Header().Set(key, value)], done by the package *)
Definition w_Header_Set (key value : string) (rw : ResponseWriter) : ResponseWriter :=
  record [EvHeaderSet key value] (with_header (Header_Set (header rw) key value) rw).

(** [g.w.Header().Del(key)], done by the package *)
Definition w_Header_Del (key : string) (rw : ResponseWriter) : ResponseWriter :=
  record [EvHeaderDel key] (with_header (Header_Del (header rw) key) rw).

(** [w.Header().Add(key, value)], done by the package *)
Definition w_Header_Add (key value : string) (rw : ResponseWriter) : ResponseWriter :=
  record [EvHeaderAdd key value] (with_header (Header_Add (header rw) key value) rw).

(** The third rule of [init]: a Content-Length that [Atoi] parses to a
    number below the threshold. *)
Definition smallContentLength (g : gRW) : bool :=
  let cl := hget g hdrContentLength in
  negb (String.eqb cl "") &&
  match Atoi cl with
  | Some n => (n <? compressThreshold)%Z
  | None => false
  end.

(** The fourth rule of [init]: a non-empty Content-Type that is not
    supported. *)
Definition unsupportedContentType (g : gRW) : bool :=
  let ct := hget g hdrContentType in
  negb (String.eqb ct "") && negb (supportedContentType ct).

Definition init (g : gRW) : result gRW :=
  if skip g || bool_decide (z g ≠ None) then Ok g
  else if negb (String.eqb (hget g hdrContentRange) "") then Ok (set_skip g)
  else if negb (String.eqb (hget g hdrContentEncoding) "") then Ok (set_skip g)
  else if smallContentLength g then Ok (set_skip g)
  else if unsupportedContentType g then Ok (set_skip g)
  else
    got ← pool_Get (pool g);
    let zw := got.1 in
    let rw := record [EvPoolGet zw; EvReset zw] (w g) in
    let rw := w_Header_Set hdrContentEncoding "gzip" rw in
    let rw := w_Header_Del hdrContentLength rw in
    Ok (mkgRW rw (Some zw) got.2 (skip g) (wroteHeader g)).

(** [g.Header()] is [g.w.Header()]: the handler changes the header map of
    the real writer in place. *)
Definition gRW_Header (g : gRW) : Header := header (w g).

Definition WriteHeader (code : Z) (g : gRW) : result gRW :=
  let g := set_wroteHeader g in
  g ← (if bool_decide (z g = None) &&
          negb (code =? StatusNoContent)%Z &&
          negb (code =? StatusNotModified)%Z &&
          negb (code =? StatusPartialContent)%Z
       then init g else Ok g);
  Ok (set_w (record [EvWriteHeader code] (w g)) g).

Definition Write (b : string) (g : gRW) : result gRW :=
  g ← (if negb (wroteHeader g) then
         let g :=
           if String.eqb (hget g hdrContentType) ""
           then set_w (w_Header_Set hdrContentType (DetectContentType b) (w g)) g
           else g in
         WriteHeader StatusOK g
       else Ok g);
  (* if g.skip || g.z == nil { return g.w.Write(b) }; return g.z.Write(b) *)
  match z g with
  | Some zw =>
      if skip g then Ok (set_w (record [EvWrite b] (w g)) g)
      else Ok (set_w (record [EvZWrite zw b] (w g)) g)
  | None => Ok (set_w (record [EvWrite b] (w g)) g)
  end.

Definition Flush (g : gRW) : gRW :=
  let g :=
    match z g with
    | Some zw => set_w (record [EvZFlush zw] (w g)) g
    | None => g
    end in
  set_w (flush_if_Flusher (w g)) g.

Definition Close (g : gRW) : gRW :=
  match z g with
  | None => g
  | Some zw =>
      let rw := record [EvZClose zw] (w g) in
      let rw := flush_if_Flusher rw in
      let rw := record [EvPoolPut zw] rw in
      mkgRW rw None (pool_Put (pool g) zw) (skip g) (wroteHeader g)
  end.

(** Modelled from the spec: the method [Unwrap] of [gRW], which
    [Test_gRWUnwrap] calls and which [httpgzip.go] as given does not
    define.  The spec has it expose the wrapped real writer. *)
Definition Unwrap (g : gRW) : ResponseWriter := w g.

(** ** Handlers *)

(** What a handler does with the [http.ResponseWriter] it is given, call by
    call.  The header operations act on the map [Header()] returns, at a
    canonical key. *)
Inductive Action : Type :=
| DoHeaderSet (key value : string)
| DoHeaderAdd (key value : string)
| DoHeaderDel (key : string)
| DoWriteHeader (code : Z)
| DoWrite (b : string)
| DoFlush.

Definition Handler : Type := list Action.

Definition header_action (a : Action) (hd : Header) : Header :=
  match a with
  | DoHeaderSet k v => Header_Set hd k v
  | DoHeaderAdd k v => Header_Add hd k v
  | DoHeaderDel k => Header_Del hd k
  | _ => hd
  end.

(** One call on the decorator. *)
Definition gRW_step (a : Action) (g : gRW) : result gRW :=
  match a with
  | DoWriteHeader code => WriteHeader code g
  | DoWrite b => Write b g
  | DoFlush => Ok (Flush g)
  | _ => Ok (set_w (with_header (header_action a (gRW_Header g)) (w g)) g)
  end.

Fixpoint gRW_run (acts : Handler) (g : gRW) : result gRW :=
  match acts with
  | [] => Ok g
  | a :: rest => g' ← gRW_step a g; gRW_run rest g'
  end.

(** One call on the real writer, when the handler is given it undecorated. *)
Definition rw_step (a : Action) (rw : ResponseWriter) : ResponseWriter :=
  match a with
  | DoWriteHeader code => record [EvWriteHeader code] rw
  | DoWrite b => record [EvWrite b] rw
  | DoFlush => flush_if_Flusher rw
  | _ => with_header (header_action a (header rw)) rw
  end.

Definition rw_run (acts : Handler) (rw : ResponseWriter) : ResponseWriter :=
  fold_left (fun rw a => rw_step a rw) acts rw.

(** ** The dispatcher *)

Record Request : Type := mkRequest { req_header : Header }.

Record gzipHandler : Type := mkgzipHandler {
  gh_h : Handler;
  gh_writerPool : writerPool
}.

Definition Option : Type := gzipHandler -> gzipHandler.

Definition WithLevel (lvl : Z) : result Option :=
  match NewWriterLevel 0 lvl with
  | None => Panic invalidLevel
  | Some _ => Ok (fun g => mkgzipHandler (gh_h g) (newWriterPool lvl))
  end.

Definition New (h : Handler) (options : list Option) : gzipHandler :=
  fold_left (fun g fn => fn g) options (mkgzipHandler h (newWriterPool BestSpeed)).

Definition acceptsGzip (r : Request) : bool :=
  allowsGzip (Header_Get (req_header r) hdrAcceptEncoding).

(** The decorator [ServeHTTP] makes around the real writer. *)
Definition wrap (rw : ResponseWriter) (p : writerPool) : gRW :=
  mkgRW rw None p false false.

(** [ServeHTTP] returns the real writer as the request left it and the
    handler with its pool as the request left it.  The deferred [Close]
    also runs when the handler panics; the panic then goes on to the
    caller. *)
Definition ServeHTTP (gh : gzipHandler) (rw : ResponseWriter) (r : Request)
  : result (ResponseWriter * gzipHandler) :=
  let rw := w_Header_Add hdrVary hdrAcceptEncoding rw in
  if negb (acceptsGzip r) then Ok (rw_run (gh_h gh) rw, gh)
  else
    g ← gRW_run (gh_h gh) (wrap rw (gh_writerPool gh));
    let g := Close g in
    Ok (w g, mkgzipHandler (gh_h gh) (pool g)).

(** Requests served one after the other by the same handler, each on its
    own real writer; the pool is carried from one to the next. *)
Fixpoint serve_all (gh : gzipHandler) (reqs : list (ResponseWriter * Request))
  : result gzipHandler :=
  match reqs with
  | [] => Ok gh
  | (rw, r) :: rest =>
      res ← ServeHTTP gh rw r;
      serve_all res.2 rest
  end.

(** ** Notions of the specification *)

(** The decision state of a decorator, read off its fields. *)
Inductive Decision : Type :=
| Undecided
| Skipping
| Compressing (zw : Writer).

Definition decision (g : gRW) : Decision :=
  if skip g then Skipping
  else match z g with
       | Some zw => Compressing zw
       | None => Undecided
       end.

(** The levels [gzip.NewWriterLevel] accepts. *)
Definition valid_level (lvl : Z) : Prop :=
  (HuffmanOnly <= lvl <= BestCompression)%Z.

(** An entry of the Accept-Encoding list: its token is the trimmed text
    before the first semicolon, its parameter the text after it. *)
Definition entry_token (e : string) : string :=
  strings.TrimSpace
    match strings.Cut e ";" with
    | Some (tok, _) => tok
    | None => e
    end.

Definition entry_param (e : string) : option string :=
  match strings.Cut e ";" with
  | Some (_, p) => Some p
  | None => None
  end.

(** [t] occurs in [s]. *)
Definition substring_of (t s : string) : Prop :=
  exists a b, s = a +:+ t +:+ b.

(** The state [init] leaves when it chooses to compress with the writer
    [zw], the pool then being [p]. *)
Definition compressing_state (g : gRW) (zw : Writer) (p : writerPool) : gRW :=
  mkgRW
    (mkResponseWriter (ident (w g)) (isFlusher (w g))
       (Header_Del (Header_Set (header (w g)) hdrContentEncoding "gzip")
          hdrContentLength)
       (journal (w g) ++
          [EvPoolGet zw; EvReset zw; EvHeaderSet hdrContentEncoding "gzip";
           EvHeaderDel hdrContentLength]))
    (Some zw) p (skip g) (wroteHeader g).

(** Events by which the package changes Content-Encoding or
    Content-Length. *)
Definition signals (e : Event) : bool :=
  match e with
  | EvHeaderSet k _ | EvHeaderAdd k _ | EvHeaderDel k =>
      String.eqb k hdrContentEncoding || String.eqb k hdrContentLength
  | _ => false
  end.

(** Events that can put bytes of the body on the real writer: a write to
    it, and a write to, a flush of or the closing of the gzip writer bound
    to it. *)
Definition carries_body (e : Event) : bool :=
  match e with
  | EvWrite _ | EvZWrite _ _ | EvZFlush _ | EvZClose _ => true
  | _ => false
  end.

Definition pool_event (e : Event) : bool :=
  match e with
  | EvPoolGet _ | EvPoolPut _ => true
  | _ => false
  end.

(** In the journal [j], nothing that carries body comes before a change of
    the compression-signalling headers. *)
Definition signals_before_body (j : list Event) : Prop :=
  forall j1 e j2, j = j1 ++ e :: j2 -> signals e = true ->
    Forall (fun x => carries_body x = false) j1.

Definition is_commit (a : Action) : bool :=
  match a with
  | DoWriteHeader _ => true
  | _ => false
  end.

Definition is_write (a : Action) : bool :=
  match a with
  | DoWrite _ => true
  | _ => false
  end.

(** The handler commits no status code once it has written body bytes. *)
Fixpoint no_commit_after_write (acts : Handler) : bool :=
  match acts with
  | [] => true
  | a :: rest =>
      (if is_write a then forallb (fun x => negb (is_commit x)) rest else true)
      && no_commit_after_write rest
  end.

(** The handler changes the header [key] itself. *)
Definition touches (key : string) (a : Action) : bool :=
  match a with
  | DoHeaderSet k _ | DoHeaderAdd k _ | DoHeaderDel k => String.eqb k key
  | _ => false
  end.

(** The status codes on which [WriteHeader] leaves the decision open. *)
Definition bodiless (code : Z) : Prop :=
  code = StatusNoContent \/ code = StatusNotModified \/
  code = StatusPartialContent.

(** The test [WriteHeader] makes of the status code. *)
Definition bodilessb (code : Z) : bool :=
  (code =? StatusNoContent)%Z || (code =? StatusNotModified)%Z ||
  (code =? StatusPartialContent)%Z.

(** The calls [acts] take the decision late: the first of them to take it
    is a commit of a status code, and body bytes were written before that
    commit.  [wh] tells whether a status code was committed before [acts]
    with the decision left open, [seen] whether body bytes were written
    before [acts].  A write with no status code committed takes the
    decision itself, before its bytes. *)
Fixpoint late_decision_from (wh seen : bool) (acts : Handler) : bool :=
  match acts with
  | [] => false
  | DoWriteHeader code :: rest =>
      if bodilessb code then late_decision_from true seen rest else seen
  | DoWrite _ :: rest =>
      if wh then late_decision_from true true rest else false
  | _ :: rest => late_decision_from wh seen rest
  end.

Definition late_decision (acts : Handler) : bool :=
  late_decision_from false false acts.

(** The reading of the spec under which a body write that follows a
    commit of a bodiless status code still evaluates the skip predicate:
    the decision after the write is the one [init] takes on the state the
    write found. *)
Definition evaluated_at_write (g : gRW) (code : Z) (b : string) : Prop :=
  exists g1 g2 gi,
    WriteHeader code g = Ok g1 /\ Write b g1 = Ok g2 /\
    init g1 = Ok gi /\ decision g2 = decision gi.

(** The four skip rules of [init], in its order. *)
Definition must_skip (g : gRW) : bool :=
  negb (String.eqb (hget g hdrContentRange) "") ||
  negb (String.eqb (hget g hdrContentEncoding) "") ||
  smallContentLength g ||
  unsupportedContentType g.

(** The real writer is told the status code. *)
Definition committed (code : Z) (g : gRW) : gRW :=
  set_w (record [EvWriteHeader code] (w g)) g.

(** The bytes [b] go to the gzip writer when there is one and the
    decorator does not skip, else to the real writer. *)
Definition forwarded (b : string) (g : gRW) : gRW :=
  match decision g with
  | Compressing zw => set_w (record [EvZWrite zw b] (w g)) g
  | _ => set_w (record [EvWrite b] (w g)) g
  end.

(** The Content-Type is set from the first bytes if it was empty. *)
Definition sniffed (b : string) (g : gRW) : gRW :=
  if String.eqb (hget g hdrContentType) ""
  then set_w (w_Header_Set hdrContentType (DetectContentType b) (w g)) g
  else g.

(** States the decorator can be in: it never skips while it holds a gzip
    writer, and it decides only when a status code is committed. *)
Definition coherent (g : gRW) : Prop :=
  (skip g = true -> z g = None) /\
  (decision g <> Undecided -> wroteHeader g = true).

(** The pool events and the header signals of a stretch of the journal
    over which the decision went from [d] to [d']. *)
Definition acquired (d d' : Decision) : list Event :=
  match d, d' with
  | Undecided, Compressing zw => [EvPoolGet zw]
  | _, _ => []
  end.

Definition signalled (d d' : Decision) : list Event :=
  match d, d' with
  | Undecided, Compressing _ =>
      [EvHeaderSet hdrContentEncoding "gzip"; EvHeaderDel hdrContentLength]
  | _, _ => []
  end.

(** [signals_before_body], computed; [seen] tells whether body was
    carried before the journal [j] starts. *)
Fixpoint ordered (seen : bool) (j : list Event) : bool :=
  match j with
  | [] => true
  | e :: j' =>
      negb (signals e && seen) && ordered (seen || carries_body e) j'
  end.

(** What one call, or a run of calls, on the decorator [g] does when it
    leaves it as [g'], having added [ev] to the journal: the real writer
    and the level of the pool stay the same, a decision once taken stays,
    and the pool is asked and the signalling headers are changed exactly
    where the decision goes from open to compressing. *)
Definition advances (g : gRW) (ev : list Event) (g' : gRW) : Prop :=
  journal (w g') = journal (w g) ++ ev /\
  ident (w g') = ident (w g) /\
  isFlusher (w g') = isFlusher (w g) /\
  level (pool g') = level (pool g) /\
  (decision g <> Undecided -> decision g' = decision g) /\
  List.filter pool_event ev = acquired (decision g) (decision g') /\
  List.filter signals ev = signalled (decision g) (decision g') /\
  (wroteHeader g = true -> wroteHeader g' = true) /\
  coherent g'.

(** How the events [ev] of the single call [a] lie with respect to body
    bytes. *)
Definition well_timed (a : Action) (g : gRW) (ev : list Event) (g' : gRW)
  : Prop :=
  ordered false ev = true /\
  (existsb signals ev = true ->
   decision g = Undecided /\ (is_commit a = true \/ wroteHeader g = false)) /\
  (existsb carries_body ev = true ->
   wroteHeader g' = true /\
   (is_write a = true \/ decision g' <> Undecided)).

(** ** The earlier iterations of the package *)

(** [gzip.go] and the second part of [httpgzip.go] (package
    [gziphandler]) are earlier iterations of the same code.  What differs
    from the first part of [httpgzip.go] is modelled here, under the names
    of the source with the file in front. *)

(** The comparison [q != 0] of [gziphandler]. *)
Variable ne0 : float64 -> bool.

(** [allowsGzip] of [gziphandler]: as above, but for [return q != 0]. *)
Definition gziphandler_allowsGzip_entry (ss : string) : option bool :=
  let parts := strings.SplitN ss ";" 2 in
  let l := List.length parts in
  if Nat.eqb l 0 ||
     negb (String.eqb (strings.TrimSpace (nth 0 parts "")) "gzip")
  then None
  else if Nat.eqb l 1 then Some true
  else
    let p := strings.TrimSpace (nth 1 parts "") in
    let qv := strings.TrimPrefix p "q=" in
    if negb (String.eqb qv p) then
      match ParseFloat qv with
      | Some q => Some (ne0 q)
      | None => Some false
      end
    else Some false.

Fixpoint gziphandler_allowsGzip_loop (entries : list string) : bool :=
  match entries with
  | [] => false
  | ss :: rest =>
      match gziphandler_allowsGzip_entry ss with
      | Some b => b
      | None => gziphandler_allowsGzip_loop rest
      end
  end.

Definition gziphandler_allowsGzip (hdr : string) : bool :=
  if negb (strings.Contains hdr "gzip") then false
  else gziphandler_allowsGzip_loop (strings.Split hdr ",").

(** [supportedContentType] of [gzip.go] and of [gziphandler]: no list of
    single types. *)
Definition gzipgo_supportedContentType (s : string) : bool :=
  if String.eqb s "" then false
  else if strings.HasPrefix s "text/" then true
  else if strings.HasPrefix s "application/" &&
          (strings.Contains s "json" || strings.Contains s "javascript" ||
           strings.Contains s "xml") then true
  else false.

Definition DefaultCompression : Z := -1.

(** [gRW] of [gzip.go]; [ct] tells whether the Content-Type was looked
    after.  The pool is the package variable [pool], kept with the state. *)
Record gzipgo_gRW : Type := mk_gzipgo_gRW {
  gg_w : ResponseWriter;
  gg_z : option Writer;
  gg_skip : bool;
  gg_ct : bool;
  gg_pool : writerPool
}.

(** [pool.Get()] of [gzip.go], asserted to be a gzip writer: [New] is
    [gzip.NewWriter], which makes a writer of the default level and cannot
    fail. *)
Definition gzipgo_pool_Get (p : writerPool) : Writer * writerPool :=
  match pick (idle p) with
  | Some (zw, rest) => (zw, mkPool (level p) rest (made p))
  | None =>
      (GzipWriter (made p) DefaultCompression,
       mkPool (level p) (idle p) (S (made p)))
  end.

Definition gzipgo_set_skip (g : gzipgo_gRW) : gzipgo_gRW :=
  mk_gzipgo_gRW (gg_w g) (gg_z g) true (gg_ct g) (gg_pool g).

Definition gzipgo_set_w (rw : ResponseWriter) (g : gzipgo_gRW) : gzipgo_gRW :=
  mk_gzipgo_gRW rw (gg_z g) (gg_skip g) (gg_ct g) (gg_pool g).

Definition gzipgo_init (g : gzipgo_gRW) : gzipgo_gRW :=
  let hd := header (gg_w g) in
  if gg_skip g || bool_decide (gg_z g <> None) then g
  else if negb (String.eqb (Header_Get hd hdrContentRange) "")
  then gzipgo_set_skip g
  else if negb (String.eqb (Header_Get hd hdrContentEncoding) "")
  then gzipgo_set_skip g
  else if (let cl := Header_Get hd hdrContentLength in
           negb (String.eqb cl "") &&
           match Atoi cl with
           | Some n => (n <? compressThreshold)%Z
           | None => false
           end)
  then gzipgo_set_skip g
  else if negb (gzipgo_supportedContentType (Header_Get hd hdrContentType))
  then gzipgo_set_skip g
  else
    let got := gzipgo_pool_Get (gg_pool g) in
    let zw := got.1 in
    let rw := record [EvPoolGet zw; EvReset zw] (gg_w g) in
    let rw := w_Header_Set hdrContentEncoding "gzip" rw in
    let rw := w_Header_Del hdrContentLength rw in
    mk_gzipgo_gRW rw (Some zw) (gg_skip g) (gg_ct g) got.2.

Definition gzipgo_WriteHeader (code : Z) (g : gzipgo_gRW) : gzipgo_gRW :=
  let g :=
    if bool_decide (gg_z g = None) &&
       negb (code =? StatusNoContent)%Z &&
       negb (code =? StatusNotModified)%Z &&
       negb (code =? StatusPartialContent)%Z
    then gzipgo_init g else g in
  gzipgo_set_w (record [EvWriteHeader code] (gg_w g)) g.

(** [Write] of [gzip.go].  [g.z.Write] on a nil writer would panic; [init]
    leaves no state that skips not and holds no writer. *)
Definition gzipgo_Write (b : string) (g : gzipgo_gRW) : result gzipgo_gRW :=
  let g := if bool_decide (gg_z g = None) then gzipgo_init g else g in
  if gg_skip g then Ok (gzipgo_set_w (record [EvWrite b] (gg_w g)) g)
  else
    let g :=
      if negb (gg_ct g) then
        let g := mk_gzipgo_gRW (gg_w g) (gg_z g) (gg_skip g) true (gg_pool g) in
        if String.eqb (Header_Get (header (gg_w g)) hdrContentType) ""
        then gzipgo_set_w
               (w_Header_Set hdrContentType (DetectContentType b) (gg_w g)) g
        else g
      else g in
    match gg_z g with
    | Some zw => Ok (gzipgo_set_w (record [EvZWrite zw b] (gg_w g)) g)
    | None => Panic "invalid memory address or nil pointer dereference"
    end.

(** The decision state of a decorator of [gzip.go]. *)
Definition gzipgo_decision (g : gzipgo_gRW) : Decision :=
  if gg_skip g then Skipping
  else match gg_z g with
       | Some zw => Compressing zw
       | None => Undecided
       end.

(** ** Reading a journal *)

(** The body bytes an event hands on, to the real writer or to the gzip
    writer. *)
Definition payload (e : Event) : option string :=
  match e with
  | EvWrite b | EvZWrite _ b => Some b
  | _ => None
  end.

(** The body bytes a call of the handler writes. *)
Definition written (a : Action) : option string :=
  match a with
  | DoWrite b => Some b
  | _ => None
  end.

(** The status code an event gives the real writer. *)
Definition commit_code (e : Event) : option Z :=
  match e with
  | EvWriteHeader code => Some code
  | _ => None
  end.

(** The status codes the calls [acts] make the decorator commit: those
    the handler commits itself, and 200 before the first write when no
    code was committed before it ([wrote] tells whether one was). *)
Fixpoint commits (wrote : bool) (acts : Handler) : list Z :=
  match acts with
  | [] => []
  | DoWriteHeader code :: rest => code :: commits true rest
  | DoWrite _ :: rest =>
      (if wrote then [] else [StatusOK]) ++ commits true rest
  | _ :: rest => commits wrote rest
  end.

Definition is_flush (a : Action) : bool :=
  match a with
  | DoFlush => true
  | _ => false
  end.

Definition is_EvFlush (e : Event) : bool :=
  match e with
  | EvFlush => true
  | _ => false
  end.

(** Bytes written to the real writer as they are. *)
Definition is_raw (e : Event) : bool :=
  match e with
  | EvWrite _ => true
  | _ => false
  end.

(** Calls on a gzip writer that is bound to the real writer. *)
Definition is_gz (e : Event) : bool :=
  match e with
  | EvZWrite _ _ | EvZFlush _ | EvZClose _ => true
  | _ => false
  end.

Definition is_EvZClose (e : Event) : bool :=
  match e with
  | EvZClose _ => true
  | _ => false
  end.

(** The gzip writer an event is about. *)
Definition names (e : Event) : option Writer :=
  match e with
  | EvPoolGet zw | EvPoolPut zw | EvReset zw
  | EvZWrite zw _ | EvZFlush zw | EvZClose zw => Some zw
  | _ => None
  end.

(** What the journal entries [ev] of the single call [a] hold. *)
Definition step_events (a : Action) (g : gRW) (ev : list Event) (g' : gRW)
  : Prop :=
  omap payload ev = option_list (written a) /\
  omap commit_code ev =
    match a with
    | DoWriteHeader code => [code]
    | DoWrite _ => if wroteHeader g then [] else [StatusOK]
    | _ => []
    end /\
  wroteHeader g' = wroteHeader g || is_commit a || is_write a /\
  List.filter is_EvFlush ev =
    (if is_flush a && isFlusher (w g) then [EvFlush] else []) /\
  Forall (fun zw => decision g' = Compressing zw) (omap names ev) /\
  (existsb is_raw ev = true -> forall zw, decision g' <> Compressing zw) /\
  (existsb is_gz ev = true -> exists zw, decision g' = Compressing zw) /\
  (decision g' <> decision g ->
   is_commit a = true \/ wroteHeader g = false) /\
  List.filter is_EvZClose ev = [].

(** ** The pool and the levels *)

Definition writer_level (zw : Writer) : Z :=
  match zw with
  | GzipWriter _ lvl => lvl
  end.

(** Every idle writer of the pool was made with the level of the pool. *)
Definition pool_levels (p : writerPool) : Prop :=
  Forall (fun zw => writer_level zw = level p) (idle p).

(** [sync.Pool.Get] hands out items that were put in, each at most once:
    what [pick] returns and what it leaves were among the idle items. *)
Definition pick_sound : Prop :=
  forall l zw rest,
    pick l = Some (zw, rest) -> In zw l /\ incl rest l.

(** ** Sample values *)

(** A real writer like [httptest.NewRecorder()], with the headers [hd]
    already set by the handler. *)
Definition recorder (hd : Header) : ResponseWriter :=
  mkResponseWriter 0 true hd [].

Definition gzipRequest : Request :=
  mkRequest (Header_Set ∅ hdrAcceptEncoding "gzip").

Definition plainRequest : Request := mkRequest ∅.

(** ** Tactics *)

(** Case analysis on the fields of a decorator leaves goals about explicit
    records and journals; these tactics unfold the model by stages and
    close them. *)
(** Proofs start by forgetting the parameters their statement does not
    mention, so that no tactic picks them up. *)
Ltac forget_params :=
  repeat match goal with
         | x : _ |- _ => clear x
         end.

Ltac unfold_writer :=
  simpl in *;
  unfold advances, well_timed, coherent in *; simpl in *;
  unfold forwarded, decision in *; simpl in *;
  unfold committed in *; simpl in *;
  unfold set_skip, set_wroteHeader in *; simpl in *;
  unfold sniffed in *; simpl in *;
  unfold Flush, flush_if_Flusher in *; simpl in *;
  unfold set_w, compressing_state in *; simpl in *;
  unfold w_Header_Set, w_Header_Del in *; simpl in *;
  unfold record, with_header, gRW_Header, hget in *; simpl in *.

Ltac journal_eq :=
  rewrite <- ?List.app_assoc; simpl;
  first [ reflexivity | symmetry; apply List.app_nil_r ].

Ltac leaf :=
  unfold_writer;
  repeat match goal with
         | |- _ /\ _ => split
         end;
  try journal_eq; try done; try (intros; discriminate);
  try (intuition (discriminate || congruence)).

Ltac leaf_events :=
  unfold step_events; unfold_writer;
  repeat match goal with
         | |- _ /\ _ => split
         end;
  try journal_eq;
  try done; try (intros; discriminate); try (repeat constructor; done);
  try (intros; eexists; reflexivity);
  try (intuition (discriminate || congruence)).

(** The header map is never computed with: its operations are used
    through their lemmas. *)
#[local] Arguments Header_Get : simpl never.
#[local] Arguments Header_Values : simpl never.
#[local] Arguments Header_Set : simpl never.
#[local] Arguments Header_Add : simpl never.
#[local] Arguments Header_Del : simpl never.

(** * Facts about the strings package *)

Lemma append_assoc (a b c : string) : (a +:+ b) +:+ c = a +:+ (b +:+ c).
Proof. induction a as [|x a IH]; simpl; [done | by rewrite IH]. Qed.

Lemma append_nil_r (a : string) : a +:+ "" = a.
Proof. induction a as [|x a IH]; simpl; [done | by rewrite IH]. Qed.

Lemma ascii_eqb_true (a b : ascii) : Ascii.eqb a b = true <-> a = b.
Proof. apply Ascii.eqb_eq. Qed.

Lemma HasPrefix_spec (s p : string) :
  strings.HasPrefix s p = true <-> exists r, s = p +:+ r.
Proof.
  revert s. induction p as [|a p IH]; intros s; simpl.
  - split; [intros _; by exists s | done].
  - destruct s as [|b s].
    + split; [done | intros [r Hr]; discriminate].
    + rewrite andb_true_iff, ascii_eqb_true, IH. split.
      * intros [-> [r ->]]. by exists r.
      * intros [r Hr]. injection Hr as -> ->. eauto.
Qed.

Lemma Contains_spec (s t : string) :
  strings.Contains s t = true <-> substring_of t s.
Proof.
  unfold substring_of. induction s as [|c s IH].
  - simpl. rewrite orb_false_r, HasPrefix_spec. split.
    + intros [r Hr]. by exists "", r.
    + intros [a [b Hab]]. destruct a; [by exists b | discriminate].
  - cbn [strings.Contains]. rewrite orb_true_iff, HasPrefix_spec, IH. split.
    + intros [[r Hr] | [a [b Hab]]].
      * by exists "", r.
      * exists (String c a), b. simpl. by rewrite Hab.
    + intros [a [b Hab]]. destruct a as [|x a].
      * left. by exists b.
      * right. injection Hab as -> ->. by exists a, b.
Qed.

Lemma substring_of_refl (s : string) : substring_of s s.
Proof. exists "", "". simpl. by rewrite append_nil_r. Qed.

Lemma substring_of_trans (r s t : string) :
  substring_of r s -> substring_of s t -> substring_of r t.
Proof.
  intros [a [b ->]] [c [d ->]]. exists (c +:+ a), (b +:+ d).
  by rewrite !append_assoc.
Qed.

Lemma substring_of_suffix (a s : string) : substring_of s (a +:+ s).
Proof. exists a, "". by rewrite append_nil_r. Qed.

Lemma substring_of_prefix (s b : string) : substring_of s (s +:+ b).
Proof. by exists "", b. Qed.

Lemma rev_append_spec (s acc : string) :
  strings.rev_append s acc = strings.rev s +:+ acc.
Proof.
  unfold strings.rev. revert acc. induction s as [|c s IH]; intros acc; simpl.
  - done.
  - rewrite IH, (IH (String c "")), append_assoc. done.
Qed.

Lemma rev_cons (c : ascii) (s : string) :
  strings.rev (String c s) = strings.rev s +:+ String c "".
Proof. unfold strings.rev at 1. simpl. apply rev_append_spec. Qed.

Lemma rev_app (a b : string) :
  strings.rev (a +:+ b) = strings.rev b +:+ strings.rev a.
Proof.
  induction a as [|c a IH]; simpl.
  - by rewrite append_nil_r.
  - by rewrite !rev_cons, IH, append_assoc.
Qed.

Lemma rev_involutive (s : string) : strings.rev (strings.rev s) = s.
Proof.
  induction s as [|c s IH]; [done|].
  by rewrite rev_cons, rev_app, IH.
Qed.

Lemma substring_of_rev (t s : string) :
  substring_of t (strings.rev s) -> substring_of (strings.rev t) s.
Proof.
  intros [a [b Hab]]. exists (strings.rev b), (strings.rev a).
  rewrite <- (rev_involutive s), Hab, !rev_app, append_assoc. done.
Qed.

Lemma substring_of_cons (c : ascii) (t s : string) :
  substring_of t s -> substring_of t (String c s).
Proof. intros [a [b ->]]. by exists (String c a), b. Qed.

Lemma TrimLeftSpace_within (s : string) :
  substring_of (strings.TrimLeftSpace s) s.
Proof.
  assert (H : forall n s, String.length s <= n ->
              substring_of (strings.TrimLeftSpace s) s).
  { clear s. induction n as [|n IH]; intros s Hn.
    - destruct s; [apply substring_of_refl | simpl in Hn; lia].
    - destruct s as [|c1 s1]; [apply substring_of_refl|].
      simpl in Hn. simpl. destruct (strings.asciiSpace c1).
      { apply substring_of_cons, IH. lia. }
      destruct s1 as [|c2 s2]; [apply substring_of_refl|].
      simpl in Hn. destruct (strings.space2 c1 c2).
      { do 2 apply substring_of_cons. apply IH. lia. }
      destruct s2 as [|c3 s3]; [apply substring_of_refl|].
      simpl in Hn. destruct (strings.space3 c1 c2 c3).
      { do 3 apply substring_of_cons. apply IH. lia. }
      apply substring_of_refl. }
  by apply (H (String.length s)).
Qed.

Lemma TrimLeftSpaceRev_within (s : string) :
  substring_of (strings.TrimLeftSpaceRev s) s.
Proof.
  assert (H : forall n s, String.length s <= n ->
              substring_of (strings.TrimLeftSpaceRev s) s).
  { clear s. induction n as [|n IH]; intros s Hn.
    - destruct s; [apply substring_of_refl | simpl in Hn; lia].
    - destruct s as [|c1 s1]; [apply substring_of_refl|].
      simpl in Hn. simpl. destruct (strings.asciiSpace c1).
      { apply substring_of_cons, IH. lia. }
      destruct s1 as [|c2 s2]; [apply substring_of_refl|].
      simpl in Hn. destruct (strings.space2 c2 c1).
      { do 2 apply substring_of_cons. apply IH. lia. }
      destruct s2 as [|c3 s3]; [apply substring_of_refl|].
      simpl in Hn. destruct (strings.space3 c3 c2 c1).
      { do 3 apply substring_of_cons. apply IH. lia. }
      apply substring_of_refl. }
  by apply (H (String.length s)).
Qed.

Lemma TrimSpace_within (s : string) : substring_of (strings.TrimSpace s) s.
Proof.
  unfold strings.TrimSpace, strings.TrimRightSpace.
  eapply substring_of_trans; [|apply TrimLeftSpace_within].
  apply substring_of_rev, TrimLeftSpaceRev_within.
Qed.

Lemma Cut_Some (s : string) (c : ascii) (a b : string) :
  strings.Cut s c = Some (a, b) -> s = a +:+ String c b.
Proof.
  revert a. induction s as [|x s IH]; intros a; simpl; [done|].
  destruct (Ascii.eqb_spec x c) as [->|Hne].
  - intros [= <- <-]. done.
  - destruct (strings.Cut s c) as [[a' b']|]; [|done].
    intros [= <- <-]. simpl. by rewrite <- (IH a').
Qed.

Lemma Split_within (s : string) (c : ascii) (e : string) :
  In e (strings.Split s c) -> substring_of e s.
Proof.
  revert e. induction s as [|x s IH]; intros e; simpl.
  - intros [<-|[]]. apply substring_of_refl.
  - destruct (Ascii.eqb x c).
    + intros [<-|Hin].
      * by exists "", (String x s).
      * by apply substring_of_cons, IH.
    + destruct (strings.Split s c) as [|y ys] eqn:Hs.
      * intros [<-|[]]. exists "", s. done.
      * intros [<-|Hin].
        -- destruct (IH y (or_introl eq_refl)) as [a [b Hab]].
           (* [y] is the first piece, so it is a prefix of [s] *)
           clear IH.
           assert (Hpre : exists r, s = y +:+ r).
           { clear Hab a b. revert y ys Hs.
             induction s as [|x' s' IH']; intros y ys; simpl.
             - intros [= <- <-]. by exists "".
             - destruct (Ascii.eqb x' c).
               + intros [= <- <-]. by exists (String x' s').
               + destruct (strings.Split s' c) as [|y' ys'] eqn:Hs'.
                 * intros [= <- <-]. by exists s'.
                 * intros [= <- <-].
                   destruct (IH' y' ys' eq_refl) as [r ->]. by exists r. }
           destruct Hpre as [r ->]. by exists "", r.
        -- apply substring_of_cons, IH. by right.
Qed.

Lemma SplitN_2 (s : string) (c : ascii) :
  strings.SplitN s c 2 =
  match strings.Cut s c with
  | Some (a, b) => [a; b]
  | None => [s]
  end.
Proof. simpl. by destruct (strings.Cut s c) as [[a b]|]. Qed.

Lemma entry_token_within (e : string) : substring_of (entry_token e) e.
Proof.
  unfold entry_token. destruct (strings.Cut e ";") as [[a b]|] eqn:Hc.
  - apply Cut_Some in Hc as ->.
    eapply substring_of_trans; [apply TrimSpace_within|].
    apply substring_of_prefix.
  - apply TrimSpace_within.
Qed.

Lemma string_eqb_false (a b : string) : a <> b -> String.eqb a b = false.
Proof. by intros H; apply String.eqb_neq. Qed.

Lemma append_length (a b : string) :
  String.length (a +:+ b) = String.length a + String.length b.
Proof. induction a as [|c a IH]; simpl; [done | by rewrite IH]. Qed.

Lemma TrimPrefix_present (p q : string) :
  strings.TrimPrefix (p +:+ q) p = q.
Proof.
  unfold strings.TrimPrefix.
  replace (strings.HasPrefix (p +:+ q) p) with true
    by (symmetry; apply HasPrefix_spec; by exists q).
  induction p as [|c p IH]; simpl; [by destruct q | done].
Qed.

Lemma TrimPrefix_absent (s p : string) :
  (forall q, s <> p +:+ q) -> strings.TrimPrefix s p = s.
Proof.
  intros H. unfold strings.TrimPrefix.
  destruct (strings.HasPrefix s p) eqn:Hp; [|done].
  apply HasPrefix_spec in Hp as [q ->]. by destruct (H q).
Qed.

Lemma append_neq (p q : string) : p <> "" -> q <> p +:+ q.
Proof.
  intros Hp Heq. apply (f_equal String.length) in Heq.
  rewrite append_length in Heq. destruct p; [done | simpl in Heq; lia].
Qed.

(** * The negotiator *)

Lemma allowsGzip_entry_other (e : string) :
  entry_token e <> "gzip" -> allowsGzip_entry e = None.
Proof.
  unfold allowsGzip_entry, entry_token. rewrite SplitN_2.
  destruct (strings.Cut e ";") as [[a b]|]; simpl; intros H;
    by rewrite (string_eqb_false _ _ H).
Qed.

Lemma allowsGzip_entry_gzip (e : string) :
  entry_token e = "gzip" ->
  allowsGzip_entry e =
  match entry_param e with
  | None => Some true
  | Some p =>
      let p := strings.TrimSpace p in
      let qv := strings.TrimPrefix p "q=" in
      if negb (String.eqb qv p) then
        match ParseFloat qv with
        | Some q => Some (gt0 q)
        | None => Some false
        end
      else Some false
  end.
Proof.
  unfold allowsGzip_entry, entry_token, entry_param. rewrite SplitN_2.
  destruct (strings.Cut e ";") as [[a b]|]; simpl; intros ->; done.
Qed.

Lemma allowsGzip_loop_skip (before rest : list string) :
  Forall (fun x => entry_token x <> "gzip") before ->
  allowsGzip_loop (before ++ rest) = allowsGzip_loop rest.
Proof.
  induction 1 as [|x before Hx _ IH]; simpl; [done|].
  by rewrite (allowsGzip_entry_other x Hx).
Qed.

Lemma allowsGzip_loop_Contains (hdr : string) :
  strings.Contains hdr "gzip" = false ->
  allowsGzip_loop (strings.Split hdr ",") = false.
Proof.
  intros Hc.
  assert (H : forall l, (forall e, In e l -> In e (strings.Split hdr ",")) ->
              allowsGzip_loop l = false).
  { induction l as [|e l IH]; intros Hl; simpl; [done|].
    rewrite allowsGzip_entry_other; [apply IH; intros; apply Hl; by right|].
    intros Htok. enough (strings.Contains hdr "gzip" = true) by congruence.
    apply Contains_spec. eapply substring_of_trans.
    - rewrite <- Htok. apply entry_token_within.
    - apply Split_within with (c := ","%char). apply Hl. by left. }
  by apply H.
Qed.

Lemma allowsGzip_is_loop (hdr : string) :
  allowsGzip hdr = allowsGzip_loop (strings.Split hdr ",").
Proof.
  unfold allowsGzip. destruct (strings.Contains hdr "gzip") eqn:Hc; simpl.
  - done.
  - by rewrite allowsGzip_loop_Contains.
Qed.

(** C1.  [allowsGzip] is decided by the first entry of the comma-separated
    header whose token (the trimmed text before the first semicolon) is
    exactly "gzip"; the entries after it play no part.  Without a
    parameter the entry accepts; with a parameter "q=<number>" that
    [ParseFloat] parses it accepts exactly when the value is above zero;
    with a number that does not parse, or a parameter that does not start
    with "q=", it rejects.  A header without the substring "gzip", or
    without an entry whose token is "gzip", is rejected.  The examples of
    the specification follow, those with a quality value under the
    assumption that [ParseFloat] reads "1.0" as a value above zero, "0.0" as
    a value that is not, and fails on "X". *)
Theorem allowsGzip_first_gzip_entry :
  (forall hdr before e after,
     strings.Split hdr "," = before ++ e :: after ->
     Forall (fun x => entry_token x <> "gzip") before ->
     entry_token e = "gzip" ->
     (entry_param e = None -> allowsGzip hdr = true) /\
     (forall p qv q,
        entry_param e = Some p -> strings.TrimSpace p = "q=" +:+ qv ->
        ParseFloat qv = Some q -> allowsGzip hdr = gt0 q) /\
     (forall p qv,
        entry_param e = Some p -> strings.TrimSpace p = "q=" +:+ qv ->
        ParseFloat qv = None -> allowsGzip hdr = false) /\
     (forall p,
        entry_param e = Some p ->
        (forall qv, strings.TrimSpace p <> "q=" +:+ qv) ->
        allowsGzip hdr = false)) /\
  (forall hdr, ~ substring_of "gzip" hdr -> allowsGzip hdr = false) /\
  (forall hdr,
     Forall (fun x => entry_token x <> "gzip") (strings.Split hdr ",") ->
     allowsGzip hdr = false) /\
  allowsGzip "compress, gzip" = true /\
  allowsGzip "" = false /\
  allowsGzip "*" = false /\
  (forall one, ParseFloat "1.0" = Some one -> gt0 one = true ->
     allowsGzip "compress;q=0.5, gzip;q=1.0" = true /\
     allowsGzip "gzip;q=1.0, identity;q=0.5, *;q=0" = true) /\
  (forall zero, ParseFloat "0.0" = Some zero -> gt0 zero = false ->
     allowsGzip "gzip;q=0.0, *;q=0" = false) /\
  allowsGzip "gzip;BAD" = false /\
  (ParseFloat "X" = None -> allowsGzip "gzip;q=X" = false).
Proof.
  split; [|split; [|split]].
  - intros hdr before e after Hsplit Hbefore Htok.
    assert (Hloop : allowsGzip hdr =
                    match allowsGzip_entry e with
                    | Some b => b
                    | None => allowsGzip_loop after
                    end).
    { rewrite allowsGzip_is_loop, Hsplit.
      by rewrite (allowsGzip_loop_skip before (e :: after) Hbefore). }
    rewrite (allowsGzip_entry_gzip e Htok) in Hloop.
    repeat split.
    + intros Hp. by rewrite Hloop, Hp.
    + intros p qv q Hp Hq Hparse. rewrite Hloop, Hp. cbv zeta.
      rewrite Hq, TrimPrefix_present.
      rewrite (string_eqb_false qv ("q=" +:+ qv)) by (by apply append_neq).
      simpl. by rewrite Hparse.
    + intros p qv Hp Hq Hparse. rewrite Hloop, Hp. cbv zeta.
      rewrite Hq, TrimPrefix_present.
      rewrite (string_eqb_false qv ("q=" +:+ qv)) by (by apply append_neq).
      simpl. by rewrite Hparse.
    + intros p Hp Hq. rewrite Hloop, Hp. cbv zeta.
      rewrite (TrimPrefix_absent _ _ Hq), String.eqb_refl. done.
  - intros hdr Hno. unfold allowsGzip.
    destruct (strings.Contains hdr "gzip") eqn:Hc; [|done].
    apply Contains_spec in Hc. by destruct Hno.
  - intros hdr Hall. rewrite allowsGzip_is_loop.
    rewrite <- (app_nil_r (strings.Split hdr ",")).
    by rewrite (allowsGzip_loop_skip _ [] Hall).
  - do 3 (split; [by vm_compute|]).
    split; [|split; [|split; [by vm_compute|]]].
    + intros one Hone Hpos. split; vm_compute; by rewrite Hone.
    + intros zero Hzero Hpos. vm_compute. by rewrite Hzero.
    + intros HX. vm_compute. by rewrite HX.
Qed.

(** * The content-type classifier *)

(** C8.  [supportedContentType] holds exactly of the strings that start
    with "text/", of those that start with "application/" and contain
    "json", "javascript" or "xml", and of the three strings "image/svg+xml",
    "font/woff" and "font/woff2".  The empty string, and these three media
    types followed by parameters, are not supported. *)
Theorem supportedContentType_exact :
  (forall s,
     supportedContentType s = true <->
     (exists r, s = "text/" +:+ r) \/
     ((exists r, s = "application/" +:+ r) /\
      (substring_of "json" s \/ substring_of "javascript" s \/
       substring_of "xml" s)) \/
     s = "image/svg+xml" \/ s = "font/woff" \/ s = "font/woff2") /\
  supportedContentType "" = false /\
  supportedContentType "image/svg+xml; charset=utf-8" = false /\
  supportedContentType "font/woff; v=1" = false /\
  supportedContentType "font/woff2;v=1" = false.
Proof. forget_params.
  split; [|by vm_compute].
  intros s. unfold supportedContentType.
  rewrite <- !Contains_spec, <- !HasPrefix_spec.
  destruct (String.eqb_spec s "") as [->|Hne].
  { split; [done|]. vm_compute.
    intros [H|[[H _]|[H|[H|H]]]]; discriminate. }
  destruct (String.eqb_spec s "image/svg+xml") as [->|Hsvg]; cbn [orb].
  { split; [intros _; tauto | reflexivity]. }
  destruct (String.eqb_spec s "font/woff") as [->|Hwoff]; cbn [orb].
  { split; [intros _; tauto | reflexivity]. }
  destruct (String.eqb_spec s "font/woff2") as [->|Hwoff2]; cbn [orb].
  { split; [intros _; tauto | reflexivity]. }
  destruct (strings.HasPrefix s "text/"),
    (strings.HasPrefix s "application/"), (strings.Contains s "json"),
    (strings.Contains s "javascript"), (strings.Contains s "xml");
    cbn [orb andb]; split; intros H; try reflexivity; try tauto;
    try discriminate; exfalso; intuition congruence.
Qed.

(** * The decorator: one call *)

Lemma decision_Undecided (g : gRW) :
  decision g = Undecided <-> skip g = false /\ z g = None.
Proof.
  unfold decision. destruct (skip g), (z g); split; try done;
    intros [? ?]; done.
Qed.

Lemma decision_Skipping (g : gRW) : decision g = Skipping <-> skip g = true.
Proof. unfold decision. destruct (skip g), (z g); split; done. Qed.

Lemma init_decided (g : gRW) : decision g <> Undecided -> init g = Ok g.
Proof.
  unfold decision, init. destruct (skip g); [done|].
  destruct (z g); [done|]. intros H; by destruct H.
Qed.

Lemma init_undecided (g : gRW) :
  decision g = Undecided ->
  init g =
  if must_skip g then Ok (set_skip g)
  else got ← pool_Get (pool g); Ok (compressing_state g got.1 got.2).
Proof.
  intros [Hs Hz]%decision_Undecided. unfold init, must_skip.
  rewrite Hs, Hz. simpl.
  destruct (negb (hget g hdrContentRange =? "")%string); [done|].
  destruct (negb (hget g hdrContentEncoding =? "")%string); [done|].
  destruct (smallContentLength g); [done|].
  destruct (unsupportedContentType g); [done|]. simpl.
  destruct (pool_Get (pool g)) as [[zw p']|msg]; [|done].
  unfold compressing_state, w_Header_Del, w_Header_Set, record, with_header.
  simpl. by rewrite Hs, <- !List.app_assoc.
Qed.

Lemma pool_Get_valid (p : writerPool) :
  valid_level (level p) ->
  exists zw p', pool_Get p = Ok (zw, p') /\ level p' = level p.
Proof.
  intros [Hlo Hhi]. unfold pool_Get.
  destruct (pick (idle p)) as [[zw rest]|]; [by eexists _, _|].
  unfold NewWriterLevel.
  destruct (Z.ltb_spec (level p) HuffmanOnly); [lia|].
  destruct (Z.gtb_spec (level p) BestCompression); [lia|].
  simpl. by eexists _, _.
Qed.

Lemma init_total (g : gRW) :
  valid_level (level (pool g)) ->
  exists g', init g = Ok g' /\ decision g' <> Undecided /\
             level (pool g') = level (pool g).
Proof.
  intros Hv. destruct (decision g) eqn:Hd.
  - rewrite (init_undecided g Hd). destruct (must_skip g).
    + exists (set_skip g). by repeat split.
    + destruct (pool_Get_valid _ Hv) as (zw & p' & -> & Hl). simpl.
      apply decision_Undecided in Hd as [Hs _].
      eexists; split; [done|]. split; [|done].
      unfold decision. simpl. by rewrite Hs.
  - exists g. rewrite init_decided; by rewrite Hd.
  - exists g. rewrite init_decided; by rewrite Hd.
Qed.

Lemma WriteHeader_bodiless (code : Z) (g : gRW) :
  bodiless code ->
  WriteHeader code g = Ok (committed code (set_wroteHeader g)).
Proof.
  unfold WriteHeader, bodiless, StatusNoContent, StatusNotModified,
    StatusPartialContent.
  intros [-> | [-> | ->]]; simpl; by rewrite ?andb_false_r.
Qed.

Lemma WriteHeader_decided (code : Z) (g : gRW) :
  decision g <> Undecided ->
  WriteHeader code g = Ok (committed code (set_wroteHeader g)).
Proof.
  intros Hd. unfold WriteHeader.
  assert (Hi : init (set_wroteHeader g) = Ok (set_wroteHeader g))
    by (apply init_decided; exact Hd).
  rewrite Hi. by destruct (_ && _).
Qed.

Lemma WriteHeader_deciding (code : Z) (g : gRW) :
  decision g = Undecided -> ~ bodiless code ->
  WriteHeader code g =
  g1 ← init (set_wroteHeader g); Ok (committed code g1).
Proof.
  intros [_ Hz]%decision_Undecided Hb. unfold WriteHeader. simpl.
  rewrite Hz. unfold bodiless in Hb.
  destruct (Z.eqb_spec code StatusNoContent); [tauto|].
  destruct (Z.eqb_spec code StatusNotModified); [tauto|].
  destruct (Z.eqb_spec code StatusPartialContent); [tauto|].
  done.
Qed.

Lemma Write_eq (b : string) (g : gRW) :
  Write b g =
  g1 ← (if wroteHeader g then Ok g else WriteHeader StatusOK (sniffed b g));
  Ok (forwarded b g1).
Proof.
  unfold Write, sniffed, forwarded.
  destruct (wroteHeader g); simpl.
  - unfold decision. by destruct (z g), (skip g).
  - destruct (WriteHeader _ _) as [g1|]; [|done]. simpl.
    unfold decision. by destruct (z g1), (skip g1).
Qed.

Lemma bodiless_dec (code : Z) : {bodiless code} + {~ bodiless code}.
Proof.
  unfold bodiless.
  destruct (Z.eq_dec code StatusNoContent); [by left; left|].
  destruct (Z.eq_dec code StatusNotModified); [by left; right; left|].
  destruct (Z.eq_dec code StatusPartialContent); [by left; right; right|].
  right. tauto.
Qed.

Lemma header_action_advances (a : Action) (g : gRW) :
  coherent g -> is_commit a = false -> is_write a = false ->
  let g' := set_w (with_header (header_action a (gRW_Header g)) (w g)) g in
  advances g [] g' /\ well_timed a g [] g'.
Proof.
  intros Hc _ _. destruct g as [[id fl hd j] zz p sk wh]. destruct sk, zz; leaf.
Qed.

Lemma Flush_advances (g : gRW) :
  coherent g ->
  exists ev, advances g ev (Flush g) /\ well_timed DoFlush g ev (Flush g).
Proof.
  intros Hc. destruct g as [[id fl hd j] zz p sk wh].
  destruct zz as [zw0|], fl, sk; eexists; leaf.
Qed.

Lemma WriteHeader_advances (code : Z) (g : gRW) :
  coherent g -> valid_level (level (pool g)) ->
  exists g' ev,
    WriteHeader code g = Ok g' /\ advances g ev g' /\
    well_timed (DoWriteHeader code) g ev g' /\
    wroteHeader g' = true /\ existsb carries_body ev = false.
Proof.
  intros Hc Hv.
  destruct (pool_Get_valid _ Hv) as (zw & p' & Hget & Hl).
  destruct (bodiless_dec code) as [Hb|Hb].
  { rewrite (WriteHeader_bodiless code g Hb). eexists _, _.
    split; [reflexivity|]. clear Hget.
    destruct g as [[id fl hd j] zz p sk wh]. destruct sk, zz; leaf. }
  destruct (decision g) eqn:Hd.
  - rewrite (WriteHeader_deciding code g Hd Hb).
    rewrite (init_undecided (set_wroteHeader g)) by exact Hd.
    destruct (must_skip (set_wroteHeader g)).
    + eexists _, _. split; [reflexivity|]. clear Hget.
      destruct g as [[id fl hd j] zz p sk wh]. destruct sk, zz; leaf.
    + simpl. simpl in Hget. rewrite Hget. eexists _, _.
      split; [reflexivity|]. clear Hget.
      destruct g as [[id fl hd j] zz p sk wh]. destruct sk, zz; leaf.
  - rewrite (WriteHeader_decided code g) by (by rewrite Hd).
    eexists _, _. split; [reflexivity|]. clear Hget.
    destruct g as [[id fl hd j] zz p sk wh]. destruct sk, zz; leaf.
  - rewrite (WriteHeader_decided code g) by (by rewrite Hd).
    eexists _, _. split; [reflexivity|]. clear Hget.
    destruct g as [[id fl hd j] zz p sk wh]. destruct sk, zz; leaf.
Qed.

Lemma Write_advances (b : string) (g : gRW) :
  coherent g -> valid_level (level (pool g)) ->
  exists g' ev,
    Write b g = Ok g' /\ advances g ev g' /\ well_timed (DoWrite b) g ev g'.
Proof. forget_params.
  intros Hc Hv. rewrite Write_eq.
  destruct (pool_Get_valid _ Hv) as (zw & p' & Hget & Hl).
  destruct (wroteHeader g) eqn:Hw.
  { simpl. clear Hget.
    destruct g as [[id fl hd j] zz p sk wh]. simpl in Hw. subst wh.
    destruct sk, zz; (eexists _, _; split; [reflexivity|]); leaf. }
  assert (Hd : decision g = Undecided).
  { destruct Hc as [_ Hc]. destruct (decision g); try done;
      rewrite Hc in Hw; done. }
  assert (Hds : decision (sniffed b g) = Undecided).
  { unfold sniffed. by destruct (String.eqb _ _). }
  rewrite (WriteHeader_deciding StatusOK (sniffed b g) Hds)
    by (unfold bodiless, StatusOK, StatusNoContent, StatusNotModified,
          StatusPartialContent; lia).
  rewrite (init_undecided (set_wroteHeader (sniffed b g))) by exact Hds.
  assert (Hp : pool (sniffed b g) = pool g).
  { unfold sniffed. by destruct (String.eqb _ _). }
  destruct (must_skip (set_wroteHeader (sniffed b g))).
  - simpl. clear Hget Hp Hds. unfold sniffed.
    destruct g as [[id fl hd j] zz p sk wh]. simpl in Hw. subst wh.
    destruct (String.eqb _ _), sk, zz;
      (eexists _, _; split; [reflexivity|]); leaf.
  - simpl. rewrite Hp, Hget. simpl. clear Hget Hp Hds. unfold sniffed.
    destruct g as [[id fl hd j] zz p sk wh]. simpl in Hw. subst wh.
    destruct (String.eqb _ _), sk, zz;
      (eexists _, _; split; [reflexivity|]); leaf.
Qed.

Lemma gRW_step_advances (a : Action) (g : gRW) :
  coherent g -> valid_level (level (pool g)) ->
  exists g' ev,
    gRW_step a g = Ok g' /\ advances g ev g' /\ well_timed a g ev g'.
Proof.
  intros Hc Hv. destruct a as [k v|k v|k|code|b|].
  - eexists _, []. split; [reflexivity|].
    by apply (header_action_advances (DoHeaderSet k v)).
  - eexists _, []. split; [reflexivity|].
    by apply (header_action_advances (DoHeaderAdd k v)).
  - eexists _, []. split; [reflexivity|].
    by apply (header_action_advances (DoHeaderDel k)).
  - destruct (WriteHeader_advances code g Hc Hv)
      as (g' & ev & He & Ha & Ht & _). by exists g', ev.
  - by apply Write_advances.
  - destruct (Flush_advances g Hc) as (ev & Ha & Ht).
    by exists (Flush g), ev.
Qed.

(** * The decorator: a whole handler *)

Lemma advances_refl (g : gRW) : coherent g -> advances g [] g.
Proof.
  intros Hc. unfold advances. rewrite List.app_nil_r. simpl.
  do 5 (split; [done|]).
  split; [by destruct (decision g)|]. split; [by destruct (decision g)|].
  by split.
Qed.

Lemma decision_chain (d d' d'' : Decision) :
  (d <> Undecided -> d' = d) -> (d' <> Undecided -> d'' = d') ->
  (d = Undecided /\ d' = Undecided) \/ d'' = d'.
Proof.
  intros H1 H2. destruct d'; [|right; by apply H2|right; by apply H2].
  destruct d; [by left | |]; by specialize (H1 ltac:(done)).
Qed.

Lemma acquired_trans (d d' d'' : Decision) :
  (d <> Undecided -> d' = d) -> (d' <> Undecided -> d'' = d') ->
  acquired d d' ++ acquired d' d'' = acquired d d''.
Proof.
  intros H1 H2. destruct (decision_chain d d' d'' H1 H2) as [[-> ->]| ->].
  - done.
  - destruct d, d'; simpl; try done; by specialize (H1 ltac:(done)).
Qed.

Lemma signalled_trans (d d' d'' : Decision) :
  (d <> Undecided -> d' = d) -> (d' <> Undecided -> d'' = d') ->
  signalled d d' ++ signalled d' d'' = signalled d d''.
Proof.
  intros H1 H2. destruct (decision_chain d d' d'' H1 H2) as [[-> ->]| ->].
  - done.
  - destruct d, d'; simpl; try done; by specialize (H1 ltac:(done)).
Qed.

Lemma advances_trans (g g' g'' : gRW) (ev ev' : list Event) :
  advances g ev g' -> advances g' ev' g'' -> advances g (ev ++ ev') g''.
Proof.
  intros (Hj & Hi & Hf & Hl & Hd & Hp & Hs & Hw & _)
         (Hj' & Hi' & Hf' & Hl' & Hd' & Hp' & Hs' & Hw' & Hc').
  unfold advances. rewrite !List.filter_app, Hp, Hp', Hs, Hs'.
  split; [by rewrite Hj', Hj, <- List.app_assoc|].
  split; [congruence|]. split; [congruence|]. split; [congruence|].
  split.
  { intros H. rewrite Hd', Hd; try done. by rewrite Hd. }
  split; [by apply acquired_trans|]. split; [by apply signalled_trans|].
  split; [auto | exact Hc'].
Qed.

Lemma gRW_run_app (pre post : Handler) (g : gRW) :
  gRW_run (pre ++ post) g = (gp ← gRW_run pre g; gRW_run post gp).
Proof.
  revert g. induction pre as [|a pre IH]; intros g; simpl; [done|].
  destruct (gRW_step a g) as [g1|]; simpl; [apply IH | done].
Qed.

Lemma gRW_run_advances (acts : Handler) (g : gRW) :
  coherent g -> valid_level (level (pool g)) ->
  exists g' ev, gRW_run acts g = Ok g' /\ advances g ev g'.
Proof.
  revert g. induction acts as [|a acts IH]; intros g Hc Hv; simpl.
  - exists g, []. split; [done | by apply advances_refl].
  - destruct (gRW_step_advances a g Hc Hv) as (g1 & ev1 & -> & Ha1 & _).
    simpl.
    assert (Hc1 : coherent g1) by apply Ha1.
    assert (Hv1 : valid_level (level (pool g1))).
    { destruct Ha1 as (_ & _ & _ & -> & _). done. }
    destruct (IH g1 Hc1 Hv1) as (g' & ev & -> & Ha).
    exists g', (ev1 ++ ev). split; [done|]. by eapply advances_trans.
Qed.

Lemma coherent_wrap (rw : ResponseWriter) (p : writerPool) :
  coherent (wrap rw p).
Proof. by split. Qed.

Lemma ordered_app (seen : bool) (j1 j2 : list Event) :
  ordered seen (j1 ++ j2) =
  ordered seen j1 && ordered (seen || existsb carries_body j1) j2.
Proof.
  revert seen. induction j1 as [|e j1 IH]; intros seen; simpl.
  - by rewrite orb_false_r.
  - by rewrite IH, andb_assoc, orb_assoc.
Qed.

Lemma ordered_no_signals (seen : bool) (j : list Event) :
  existsb signals j = false -> ordered seen j = true.
Proof.
  revert seen. induction j as [|e j IH]; intros seen; simpl; [done|].
  intros [-> H]%orb_false_iff. simpl. by apply IH.
Qed.

Lemma ordered_sound (j : list Event) :
  ordered false j = true -> signals_before_body j.
Proof.
  intros Ho j1 e j2 -> He. rewrite ordered_app in Ho. simpl in Ho.
  rewrite He in Ho. simpl in Ho.
  apply andb_true_iff in Ho as [_ Ho]. apply andb_true_iff in Ho as [Ho _].
  apply negb_true_iff in Ho.
  clear -Ho. induction j1 as [|x j1 IH]; [constructor|].
  simpl in Ho. apply orb_false_iff in Ho as [Hx Ho].
  constructor; [done | by apply IH].
Qed.

(** C2.  [init] evaluates the skip predicate only while the decision is
    open and leaves it taken, so a second call changes nothing and the
    predicate is evaluated at most once.  While the decision is open the
    rules apply in this order, the first that matches deciding: a
    non-empty Content-Range skips; a non-empty Content-Encoding skips; a
    non-empty Content-Length that [Atoi] parses to a number below 1000
    skips, and an empty Content-Length never does; a non-empty
    Content-Type that is not supported skips, and an empty one does not;
    otherwise a gzip writer is taken from the pool and the decision is to
    compress.  Once the decision is taken no call of the handler takes it
    again: the pool is not asked and the signalling headers are not
    changed any more. *)
Theorem init_skip_predicate (g : gRW) :
  (decision g <> Undecided -> init g = Ok g) /\
  (forall g', init g = Ok g' -> decision g' <> Undecided /\ init g' = Ok g') /\
  (decision g = Undecided ->
   (hget g hdrContentRange <> "" -> init g = Ok (set_skip g)) /\
   (hget g hdrContentRange = "" ->
    (hget g hdrContentEncoding <> "" -> init g = Ok (set_skip g)) /\
    (hget g hdrContentEncoding = "" ->
     (forall n,
        hget g hdrContentLength <> "" ->
        Atoi (hget g hdrContentLength) = Some n -> (n < 1000)%Z ->
        init g = Ok (set_skip g)) /\
     (hget g hdrContentLength = "" \/
      Atoi (hget g hdrContentLength) = None \/
      (exists n, Atoi (hget g hdrContentLength) = Some n /\ (1000 <= n)%Z) ->
      (hget g hdrContentType <> "" ->
       supportedContentType (hget g hdrContentType) = false ->
       init g = Ok (set_skip g)) /\
      (hget g hdrContentType = "" \/
       supportedContentType (hget g hdrContentType) = true ->
       valid_level (level (pool g)) ->
       exists zw p',
         pool_Get (pool g) = Ok (zw, p') /\
         init g = Ok (compressing_state g zw p') /\
         decision (compressing_state g zw p') = Compressing zw))))) /\
  (forall acts,
     coherent g -> valid_level (level (pool g)) ->
     decision g <> Undecided ->
     exists g' ev,
       gRW_run acts g = Ok g' /\ decision g' = decision g /\
       journal (w g') = journal (w g) ++ ev /\
       List.filter pool_event ev = [] /\ List.filter signals ev = []).
Proof.
  split; [apply init_decided|]. split; [|split]; cycle 2.
  { intros acts Hc Hv Hd.
    destruct (gRW_run_advances acts g Hc Hv)
      as (g' & ev & Hrun & Hj & _ & _ & _ & Hst & Hp & Hs & _).
    exists g', ev. rewrite Hp, Hs, (Hst Hd).
    repeat split; try done; by destruct (decision g). }
  { intros g' Hi. destruct (decision g) eqn:Hd.
    - rewrite (init_undecided g Hd) in Hi.
      assert (Hs : skip g = false) by by apply decision_Undecided in Hd as [? ?].
      destruct (must_skip g).
      + injection Hi as <-. split; [done|]. by apply init_decided.
      + destruct (pool_Get (pool g)) as [[zw p']|]; [|done].
        injection Hi as <-.
        assert (Hc : decision (compressing_state g zw p') <> Undecided)
          by (unfold decision; simpl; by rewrite Hs).
        split; [done | by apply init_decided].
    - rewrite init_decided in Hi by by rewrite Hd.
      injection Hi as <-. split; [by rewrite Hd|].
      apply init_decided. by rewrite Hd.
    - rewrite init_decided in Hi by by rewrite Hd.
      injection Hi as <-. split; [by rewrite Hd|].
      apply init_decided. by rewrite Hd. }
  intros Hd. rewrite (init_undecided g Hd). unfold must_skip.
  split.
  { intros H. by rewrite (string_eqb_false _ _ H). }
  intros ->. split.
  { intros H. by rewrite (string_eqb_false _ _ H). }
  intros ->. rewrite String.eqb_refl. cbn [negb orb]. split.
  { intros n Hne Hn Hlt. unfold smallContentLength.
    rewrite (string_eqb_false _ _ Hne), Hn. cbn [negb andb].
    by destruct (Z.ltb_spec n compressThreshold);
      [|unfold compressThreshold in *; lia]. }
  intros Hcl.
  assert (Hsmall : smallContentLength g = false).
  { unfold smallContentLength. destruct Hcl as [->|[->|(n & -> & Hn)]].
    - done.
    - by rewrite andb_false_r.
    - destruct (Z.ltb_spec n compressThreshold);
        [unfold compressThreshold in *; lia | by rewrite andb_false_r]. }
  rewrite Hsmall. cbn [orb]. unfold unsupportedContentType. split.
  { intros Hne Hun. by rewrite (string_eqb_false _ _ Hne), Hun. }
  intros Hct Hv.
  assert (Hok : (negb (hget g hdrContentType =? "")%string &&
                 negb (supportedContentType (hget g hdrContentType))) = false).
  { destruct Hct as [->| ->]; [done | by rewrite andb_false_r]. }
  rewrite Hok. destruct (pool_Get_valid _ Hv) as (zw & p' & Hget & _).
  exists zw, p'. rewrite Hget. repeat split.
  apply decision_Undecided in Hd as [Hs _].
  unfold decision. simpl. by rewrite Hs.
Qed.

(** * When the decision comes after body bytes *)

Lemma bodilessb_spec (code : Z) : bodilessb code = true <-> bodiless code.
Proof.
  unfold bodilessb, bodiless. rewrite !orb_true_iff, !Z.eqb_eq. tauto.
Qed.

Lemma filter_nil_existsb {A : Type} (f : A -> bool) (l : list A) :
  List.filter f l = [] -> existsb f l = false.
Proof.
  induction l as [|x l IH]; simpl; [done|].
  destruct (f x); [done | exact IH].
Qed.

Lemma ordered_spec (j : list Event) (seen : bool) :
  ordered seen j = true <->
  forall j1 e j2, j = j1 ++ e :: j2 -> signals e = true ->
    seen = false /\ Forall (fun x => carries_body x = false) j1.
Proof.
  revert seen. induction j as [|x j IH]; intros seen; simpl.
  - split; [|done]. intros _ j1 e j2 H. by destruct j1.
  - rewrite andb_true_iff, negb_true_iff, IH. split.
    + intros [Hx Hj] j1 e j2 Heq He. destruct j1 as [|y j1].
      * injection Heq as -> ->. rewrite He in Hx. split; [exact Hx|constructor].
      * injection Heq as -> ->.
        destruct (Hj j1 e j2 eq_refl He) as [Hor Hall].
        apply orb_false_iff in Hor as [-> Hy]. split; [done|].
        by constructor.
    + intros H. split.
      * destruct (signals x) eqn:Hx; [|done].
        by destruct (H [] x j eq_refl Hx) as [-> _].
      * intros j1 e j2 -> He.
        destruct (H (x :: j1) e j2 eq_refl He) as [-> Hall].
        inversion Hall as [|? ? Hx Hall']. subst. rewrite Hx. done.
Qed.

Lemma ordered_complete (j : list Event) :
  signals_before_body j -> ordered false j = true.
Proof.
  intros H. apply ordered_spec. intros j1 e j2 Heq He.
  split; [done | by apply (H j1 e j2)].
Qed.

Lemma ordered_skip (seen : bool) (j1 j2 : list Event) :
  existsb signals j1 = false -> existsb carries_body j1 = false ->
  ordered seen (j1 ++ j2) = ordered seen j2.
Proof.
  intros Hs Hb. by rewrite ordered_app, (ordered_no_signals _ _ Hs), Hb,
    orb_false_r.
Qed.

Lemma gRW_run_decided (acts : Handler) (g : gRW) (seen : bool) :
  coherent g -> valid_level (level (pool g)) -> decision g <> Undecided ->
  exists g' ev,
    gRW_run acts g = Ok g' /\ journal (w g') = journal (w g) ++ ev /\
    decision g' = decision g /\ ordered seen ev = true.
Proof. forget_params.
  intros Hc Hv Hd.
  destruct (gRW_run_advances acts g Hc Hv)
    as (g' & ev & Hrun & Hj & _ & _ & _ & Hst & _ & Hs & _).
  exists g', ev. split; [done|]. split; [done|]. split; [by apply Hst|].
  apply ordered_no_signals, filter_nil_existsb. rewrite Hs.
  by destruct (decision g).
Qed.

Lemma gRW_run_late (acts : Handler) :
  forall (g : gRW) (seen : bool),
    coherent g -> valid_level (level (pool g)) -> decision g = Undecided ->
    (seen = true -> wroteHeader g = true) ->
    exists g' ev,
      gRW_run acts g = Ok g' /\ journal (w g') = journal (w g) ++ ev /\
      (ordered seen ev = true <->
       late_decision_from (wroteHeader g) seen acts = false \/
       forall zw, decision g' <> Compressing zw).
Proof. forget_params.
  induction acts as [|a acts IH]; intros g seen Hc Hv Hd Hseen.
  { exists g, []. split; [done|]. split; [by rewrite List.app_nil_r|].
    simpl. tauto. }
  destruct (gRW_step_advances a g Hc Hv) as (g1 & ev1 & Hstep & Ha1 & Ho1 & _).
  destruct Ha1 as (Hj1 & _ & _ & Hl1 & _ & _ & _ & _ & Hc1).
  assert (Hv1 : valid_level (level (pool g1))) by by rewrite Hl1.
  cbn [gRW_run]. rewrite Hstep.
  change (exists g' ev,
            gRW_run acts g1 = Ok g' /\
            journal (w g') = journal (w g) ++ ev /\
            (ordered seen ev = true <->
             late_decision_from (wroteHeader g) seen (a :: acts) = false \/
             forall zw, decision g' <> Compressing zw)).
  assert (Hstay : forall seen',
            decision g1 = Undecided ->
            (seen' = true -> wroteHeader g1 = true) ->
            (forall ev, ordered seen (ev1 ++ ev) = ordered seen' ev) ->
            late_decision_from (wroteHeader g) seen (a :: acts) =
              late_decision_from (wroteHeader g1) seen' acts ->
            exists g' ev,
              gRW_run acts g1 = Ok g' /\
              journal (w g') = journal (w g) ++ ev /\
              (ordered seen ev = true <->
               late_decision_from (wroteHeader g) seen (a :: acts) = false \/
               forall zw, decision g' <> Compressing zw)).
  { intros seen' Hd1 Hseen' Hord Hlate.
    destruct (IH g1 seen' Hc1 Hv1 Hd1 Hseen') as (g' & ev & Hrun & Hj & Hiff).
    exists g', (ev1 ++ ev). split; [done|].
    split; [by rewrite Hj, Hj1, List.app_assoc|].
    by rewrite Hord, Hlate. }
  assert (Hdone : decision g1 <> Undecided ->
            (ordered seen ev1 = true <->
             late_decision_from (wroteHeader g) seen (a :: acts) = false \/
             forall zw, decision g1 <> Compressing zw) ->
            exists g' ev,
              gRW_run acts g1 = Ok g' /\
              journal (w g') = journal (w g) ++ ev /\
              (ordered seen ev = true <->
               late_decision_from (wroteHeader g) seen (a :: acts) = false \/
               forall zw, decision g' <> Compressing zw)).
  { intros Hd1 Hiff.
    destruct (gRW_run_decided acts g1 (seen || existsb carries_body ev1)
                Hc1 Hv1 Hd1) as (g' & ev & Hrun & Hj & Hsame & Hord).
    exists g', (ev1 ++ ev). split; [done|].
    split; [by rewrite Hj, Hj1, List.app_assoc|].
    by rewrite ordered_app, Hord, andb_true_r, Hsame. }
  clear IH.
  destruct a as [k v|k v|k|code|b|]; cbn [gRW_step] in Hstep.
  - injection Hstep as <-. simpl in Hj1.
    assert (ev1 = []) as ->
      by (apply (List.app_inv_head (journal (w g))); by rewrite List.app_nil_r).
    by apply (Hstay seen).
  - injection Hstep as <-. simpl in Hj1.
    assert (ev1 = []) as ->
      by (apply (List.app_inv_head (journal (w g))); by rewrite List.app_nil_r).
    by apply (Hstay seen).
  - injection Hstep as <-. simpl in Hj1.
    assert (ev1 = []) as ->
      by (apply (List.app_inv_head (journal (w g))); by rewrite List.app_nil_r).
    by apply (Hstay seen).
  - destruct (bodilessb code) eqn:Hb.
    + assert (Hb' : bodiless code) by by apply bodilessb_spec.
      rewrite (WriteHeader_bodiless code g Hb') in Hstep.
      injection Hstep as <-.
      assert (ev1 = [EvWriteHeader code]) as ->
        by by apply (List.app_inv_head (journal (w g))).
      apply (Hstay seen); [exact Hd | done | |].
      * intros ev. simpl. by destruct seen.
      * simpl. by rewrite Hb.
    + assert (Hb' : ~ bodiless code).
      { intros H%bodilessb_spec. congruence. }
      assert (Hd0 : decision (set_wroteHeader g) = Undecided) by exact Hd.
      rewrite (WriteHeader_deciding code g Hd Hb'),
        (init_undecided _ Hd0) in Hstep.
      apply decision_Undecided in Hd as [Hsk Hz].
      destruct (must_skip (set_wroteHeader g)).
      * injection Hstep as <-.
        assert (ev1 = [EvWriteHeader code]) as ->
          by by apply (List.app_inv_head (journal (w g))).
        apply Hdone; [done|]. simpl. split; [|by destruct seen].
        intros _. by right.
      * destruct (pool_Get_valid _ Hv) as (zw & p' & Hget & _).
        simpl in Hget. simpl in Hstep. rewrite Hget in Hstep.
        injection Hstep as <-.
        assert (ev1 = [EvPoolGet zw; EvReset zw;
                       EvHeaderSet hdrContentEncoding "gzip";
                       EvHeaderDel hdrContentLength; EvWriteHeader code]) as ->.
        { apply (List.app_inv_head (journal (w g))). rewrite <- Hj1.
          simpl. by rewrite <- !List.app_assoc. }
        apply Hdone.
        { unfold decision. simpl. by rewrite Hsk. }
        unfold decision. simpl. rewrite Hsk, Hb. destruct seen; simpl.
        -- split; [done|]. intros [?|H]; [done|]. by destruct (H zw).
        -- split; [by left | done].
  - rewrite Write_eq in Hstep. destruct (wroteHeader g) eqn:Hwh.
    + simpl in Hstep. injection Hstep as <-.
      unfold forwarded in *. rewrite Hd in *.
      assert (ev1 = [EvWrite b]) as ->
        by by apply (List.app_inv_head (journal (w g))).
      apply (Hstay true); [exact Hd | done | |].
      * intros ev. simpl. by destruct seen.
      * simpl. by rewrite Hwh.
    + assert (seen = false) as ->.
      { destruct seen; [|done]. by specialize (Hseen eq_refl). }
      apply Hdone.
      * assert (Hd0 : decision (sniffed b g) = Undecided).
        { unfold sniffed. by destruct (String.eqb _ _). }
        assert (H200 : ~ bodiless StatusOK).
        { unfold bodiless, StatusOK, StatusNoContent, StatusNotModified,
            StatusPartialContent. lia. }
        rewrite (WriteHeader_deciding _ _ Hd0 H200) in Hstep.
        destruct (init_total (set_wroteHeader (sniffed b g)))
          as (gi & Hi & Hdi & _).
        { unfold sniffed. by destruct (String.eqb _ _). }
        rewrite Hi in Hstep. simpl in Hstep. injection Hstep as <-.
        assert (Hsame : decision (forwarded b (committed StatusOK gi)) =
                        decision gi).
        { clear. destruct gi as [rwi zi pi ski whi].
          unfold forwarded, committed, decision. simpl.
          by destruct ski, zi. }
        by rewrite Hsame.
      * rewrite Ho1. simpl. split; [by left | done].
  - injection Hstep as <-.
    pose proof Hd as [Hsk Hz]%decision_Undecided.
    unfold Flush in *. rewrite Hz in *. unfold flush_if_Flusher in *.
    destruct (isFlusher (w g)); simpl in *.
    + assert (ev1 = [EvFlush]) as ->
        by by apply (List.app_inv_head (journal (w g))).
      apply (Hstay seen); [exact Hd | done | | done].
      intros ev. simpl. by destruct seen.
    + assert (ev1 = []) as ->.
      { apply (List.app_inv_head (journal (w g))).
        by rewrite List.app_nil_r. }
      apply (Hstay seen); [exact Hd | done | done | done].
Qed.

(** X16.  Whatever the handler calls on the decorator, a decision once
    taken is kept to the end; the package sets Content-Encoding to "gzip"
    and deletes Content-Length exactly once when the decision is to
    compress, and never changes either header otherwise; the pool is asked
    for a gzip writer once in that case and not at all otherwise.  The
    header changes come before everything that carries body to the real
    writer, but for one kind of response: one that is compressed on a
    decision taken late, by a commit of a status code other than 204, 304
    and 206 that follows a write of body bytes. *)
Theorem decision_made_once
    (rw : ResponseWriter) (p : writerPool) (acts : Handler) :
  valid_level (level p) ->
  exists g ev,
    gRW_run acts (wrap rw p) = Ok g /\
    journal (w g) = journal rw ++ ev /\
    (forall pre post gp,
       acts = pre ++ post -> gRW_run pre (wrap rw p) = Ok gp ->
       decision gp <> Undecided -> decision g = decision gp) /\
    List.filter signals ev =
      match decision g with
      | Compressing _ =>
          [EvHeaderSet hdrContentEncoding "gzip";
           EvHeaderDel hdrContentLength]
      | _ => []
      end /\
    List.filter pool_event ev =
      match decision g with
      | Compressing zw => [EvPoolGet zw]
      | _ => []
      end /\
    (signals_before_body ev <->
     late_decision acts = false \/ forall zw, decision g <> Compressing zw).
Proof.
  intros Hv.
  destruct (gRW_run_advances acts (wrap rw p) (coherent_wrap rw p) Hv)
    as (g & ev & Hrun & Ha).
  exists g, ev. split; [done|].
  destruct Ha as (Hj & _ & _ & _ & _ & Hp & Hs & _).
  split; [done|]. split; [|split; [|split]].
  - intros pre post gp -> Hpre Hd. rewrite gRW_run_app, Hpre in Hrun.
    simpl in Hrun.
    destruct (gRW_run_advances pre (wrap rw p) (coherent_wrap rw p) Hv)
      as (gp' & evp & Hpre' & Hap).
    rewrite Hpre in Hpre'. injection Hpre' as <-.
    assert (Hcp : coherent gp) by apply Hap.
    assert (Hvp : valid_level (level (pool gp))).
    { destruct Hap as (_ & _ & _ & -> & _). done. }
    destruct (gRW_run_advances post gp Hcp Hvp) as (g' & ev' & Hpost & Ha').
    rewrite Hrun in Hpost. injection Hpost as <-.
    destruct Ha' as (_ & _ & _ & _ & Hst & _). by apply Hst.
  - rewrite Hs. by destruct (decision g).
  - rewrite Hp. by destruct (decision g).
  - destruct (gRW_run_late acts (wrap rw p) false (coherent_wrap rw p) Hv
                eq_refl) as (g' & ev' & Hrun' & Hj' & Hiff).
    { done. }
    rewrite Hrun in Hrun'. injection Hrun' as <-.
    rewrite Hj in Hj'. apply List.app_inv_head in Hj' as ->.
    rewrite <- Hiff. split; [apply ordered_complete | apply ordered_sound].
Qed.

(** C4 (amended).  When the decision is open and the handler commits 204,
    304 or 206, the decision stays open, the headers are left as they are
    and the code goes to the real writer unchanged.  Body bytes written
    after that go to the real writer as they are; the skip predicate is not
    evaluated and the decision stays open. *)
Theorem bodiless_commit_defers (g : gRW) (code : Z) (b : string) :
  decision g = Undecided -> bodiless code ->
  let g1 := committed code (set_wroteHeader g) in
  let g2 := forwarded b g1 in
  WriteHeader code g = Ok g1 /\
  decision g1 = Undecided /\
  header (w g1) = header (w g) /\
  journal (w g1) = journal (w g) ++ [EvWriteHeader code] /\
  Write b g1 = Ok g2 /\
  decision g2 = Undecided /\
  header (w g2) = header (w g) /\
  journal (w g2) = journal (w g) ++ [EvWriteHeader code; EvWrite b].
Proof.
  intros Hd Hb g1 g2.
  assert (Hd1 : decision g1 = Undecided) by exact Hd.
  assert (Hg2 : g2 = set_w (record [EvWrite b] (w g1)) g1).
  { unfold g2, forwarded. by rewrite Hd1. }
  split; [by apply WriteHeader_bodiless|]. split; [done|].
  split; [done|]. split; [done|]. split; [by rewrite Write_eq|].
  rewrite Hg2. split; [exact Hd|]. split; [done|].
  unfold g1, committed, set_w, record. simpl.
  by rewrite <- List.app_assoc.
Qed.

Lemma Header_Get_Set (hd : Header) (k v : string) :
  Header_Get (Header_Set hd k v) k = v.
Proof. unfold Header_Get, Header_Set. by rewrite lookup_insert_eq. Qed.

Lemma init_header_other (g g' : gRW) (k : string) :
  init g = Ok g' -> k <> hdrContentEncoding -> k <> hdrContentLength ->
  header (w g') !! k = header (w g) !! k.
Proof.
  intros Hi Hce Hcl. destruct (decision g) eqn:Hd.
  - rewrite (init_undecided g Hd) in Hi. destruct (must_skip g).
    + by injection Hi as <-.
    + destruct (pool_Get (pool g)) as [[zw p']|]; [|done].
      injection Hi as <-. simpl. unfold Header_Del, Header_Set.
      by rewrite lookup_delete_ne, lookup_insert_ne.
  - rewrite init_decided in Hi by (by rewrite Hd). by injection Hi as <-.
  - rewrite init_decided in Hi by (by rewrite Hd). by injection Hi as <-.
Qed.

Lemma init_journal (g g' : gRW) :
  init g = Ok g' ->
  journal (w g') =
  journal (w g) ++
  match decision g, decision g' with
  | Undecided, Compressing zw =>
      [EvPoolGet zw; EvReset zw; EvHeaderSet hdrContentEncoding "gzip";
       EvHeaderDel hdrContentLength]
  | _, _ => []
  end.
Proof.
  intros Hi. destruct (decision g) eqn:Hd.
  - rewrite (init_undecided g Hd) in Hi.
    apply decision_Undecided in Hd as [Hs Hz]. destruct (must_skip g).
    + injection Hi as <-. unfold decision. simpl. by rewrite List.app_nil_r.
    + destruct (pool_Get (pool g)) as [[zw p']|]; [|done].
      injection Hi as <-. unfold decision. simpl. by rewrite Hs.
  - rewrite init_decided in Hi by (by rewrite Hd). injection Hi as <-.
    by rewrite List.app_nil_r.
  - rewrite init_decided in Hi by (by rewrite Hd). injection Hi as <-.
    by rewrite List.app_nil_r.
Qed.

(** C5.  A handler that has only changed headers and flushed has committed
    no status code and left the decision open.  A body write in that state
    sets the Content-Type from [DetectContentType] of the bytes written if
    [Get] finds it empty, and leaves a non-empty Content-Type as it is;
    then [init] runs on the headers so prepared, so that its content-type
    rule tests the sniffed type; then the status 200 goes to the real
    writer; then the bytes are forwarded. *)
Theorem first_write_sniffs :
  (forall rw p pre,
     Forall (fun a => is_commit a = false /\ is_write a = false) pre ->
     exists gp,
       gRW_run pre (wrap rw p) = Ok gp /\
       wroteHeader gp = false /\ decision gp = Undecided /\ pool gp = p) /\
  (forall g b,
     wroteHeader g = false -> decision g = Undecided ->
     valid_level (level (pool g)) ->
     let gs := sniffed b g in
     exists gi,
       init (set_wroteHeader gs) = Ok gi /\
       Write b g = Ok (forwarded b (committed StatusOK gi)) /\
       (hget g hdrContentType = "" ->
        header (w gs) =
          Header_Set (header (w g)) hdrContentType (DetectContentType b) /\
        journal (w gs) =
          journal (w g) ++
          [EvHeaderSet hdrContentType (DetectContentType b)] /\
        hget (set_wroteHeader gs) hdrContentType = DetectContentType b /\
        unsupportedContentType (set_wroteHeader gs) =
          negb (String.eqb (DetectContentType b) "") &&
          negb (supportedContentType (DetectContentType b))) /\
       (hget g hdrContentType <> "" ->
        gs = g /\
        header (w (forwarded b (committed StatusOK gi))) !! hdrContentType =
          header (w g) !! hdrContentType) /\
       journal (w (forwarded b (committed StatusOK gi))) =
         journal (w gi) ++
         [EvWriteHeader StatusOK;
          match decision gi with
          | Compressing zw => EvZWrite zw b
          | _ => EvWrite b
          end]).
Proof.
  split.
  - intros rw p pre Hpre.
    assert (H : forall g, wroteHeader g = false -> decision g = Undecided ->
                exists gp, gRW_run pre g = Ok gp /\ wroteHeader gp = false /\
                           decision gp = Undecided /\ pool gp = pool g).
    { induction Hpre as [|a pre [Hc Hw] _ IH]; intros g Hwh Hd; simpl.
      - by exists g.
      - assert (exists g1, gRW_step a g = Ok g1 /\ wroteHeader g1 = false /\
                           decision g1 = Undecided /\ pool g1 = pool g)
          as (g1 & -> & Hwh1 & Hd1 & Hp1).
        { destruct a; try discriminate; simpl; eexists; split; try reflexivity;
            try done.
          apply decision_Undecided in Hd as [Hs Hz].
          unfold Flush, decision. rewrite Hz. simpl. by rewrite Hs, Hz. }
        simpl. destruct (IH g1 Hwh1 Hd1) as (gp & Hrun & ? & ? & Hp).
        exists gp. by rewrite Hrun, Hp, Hp1. }
    by apply (H (wrap rw p)).
  - intros g b Hwh Hd Hv gs.
    assert (Hds : decision (set_wroteHeader gs) = Undecided).
    { unfold gs, sniffed. by destruct (String.eqb _ _). }
    assert (Hps : pool (set_wroteHeader gs) = pool g).
    { unfold gs, sniffed. by destruct (String.eqb _ _). }
    destruct (init_total (set_wroteHeader gs)) as (gi & Hi & Hdi & _).
    { by rewrite Hps. }
    exists gi. split; [done|]. split; [|split; [|split]].
    + rewrite Write_eq, Hwh. fold gs.
      rewrite (WriteHeader_deciding StatusOK gs) by
        (try exact Hds;
         unfold bodiless, StatusOK, StatusNoContent, StatusNotModified,
           StatusPartialContent; lia).
      by rewrite Hi.
    + intros Hct. unfold gs, sniffed. rewrite Hct, String.eqb_refl.
      assert (Hget : hget (set_wroteHeader
                       (set_w (w_Header_Set hdrContentType
                                 (DetectContentType b) (w g)) g))
                       hdrContentType = DetectContentType b)
        by apply Header_Get_Set.
      split; [done|]. split; [done|]. split; [done|].
      unfold unsupportedContentType. by rewrite Hget.
    + intros Hct.
      assert (Hgs : gs = g).
      { unfold gs, sniffed. by rewrite (string_eqb_false _ _ Hct). }
      split; [done|].
      replace (header (w (forwarded b (committed StatusOK gi))))
        with (header (w gi))
        by (unfold forwarded; by destruct (decision (committed StatusOK gi))).
      rewrite (init_header_other _ _ hdrContentType Hi) by done.
      by rewrite Hgs.
    + unfold forwarded.
      replace (decision (committed StatusOK gi)) with (decision gi) by done.
      destruct (decision gi); simpl; by rewrite <- List.app_assoc.
Qed.

(** C6.  The decorator made around a real writer hands that writer back
    through [Unwrap]: at once, and after any calls of the handler, when it
    is the same object, of the same dynamic type, holding the header map
    the handler sees through the decorator. *)
Theorem Unwrap_recovers_writer
    (rw : ResponseWriter) (p : writerPool) (acts : Handler) :
  valid_level (level p) ->
  Unwrap (wrap rw p) = rw /\
  exists g,
    gRW_run acts (wrap rw p) = Ok g /\
    ident (Unwrap g) = ident rw /\
    isFlusher (Unwrap g) = isFlusher rw /\
    header (Unwrap g) = gRW_Header g.
Proof.
  intros Hv. split; [done|].
  destruct (gRW_run_advances acts (wrap rw p) (coherent_wrap rw p) Hv)
    as (g & ev & Hrun & _ & Hi & Hf & _).
  by exists g.
Qed.

(** * Headers the package leaves alone *)

Lemma header_action_other (a : Action) (hd : Header) (k : string) :
  touches k a = false -> header_action a hd !! k = hd !! k.
Proof.
  destruct a as [k' v|k' v|k'| | |]; simpl; try done;
    intros Hk%String.eqb_neq; unfold Header_Set, Header_Add, Header_Del.
  - by rewrite lookup_insert_ne.
  - by rewrite lookup_insert_ne.
  - by rewrite lookup_delete_ne.
Qed.

Lemma WriteHeader_header_other (code : Z) (g g' : gRW) (k : string) :
  WriteHeader code g = Ok g' ->
  k <> hdrContentEncoding -> k <> hdrContentLength ->
  header (w g') !! k = header (w g) !! k.
Proof.
  unfold WriteHeader. intros H Hce Hcl.
  destruct (_ && _) in H.
  - destruct (init (set_wroteHeader g)) as [g1|] eqn:Hi; [|done].
    injection H as <-. simpl.
    by rewrite (init_header_other _ _ k Hi).
  - by injection H as <-.
Qed.

Lemma gRW_step_header_other (a : Action) (g g' : gRW) (k : string) :
  gRW_step a g = Ok g' -> touches k a = false ->
  k <> hdrContentType -> k <> hdrContentEncoding -> k <> hdrContentLength ->
  header (w g') !! k = header (w g) !! k.
Proof.
  intros Hstep Ht Hct Hce Hcl.
  destruct a as [k' v|k' v|k'|code|b|]; simpl in Hstep.
  - injection Hstep as <-. by apply (header_action_other (DoHeaderSet k' v)).
  - injection Hstep as <-. by apply (header_action_other (DoHeaderAdd k' v)).
  - injection Hstep as <-. by apply (header_action_other (DoHeaderDel k')).
  - by apply (WriteHeader_header_other code).
  - rewrite Write_eq in Hstep.
    assert (Hf : forall g1, header (w (forwarded b g1)) = header (w g1)).
    { intros g1. unfold forwarded. by destruct (decision g1). }
    destruct (wroteHeader g).
    + injection Hstep as <-. by rewrite Hf.
    + destruct (WriteHeader StatusOK (sniffed b g)) as [g1|] eqn:Hw; [|done].
      injection Hstep as <-.
      rewrite Hf, (WriteHeader_header_other _ _ _ k Hw) by done.
      unfold sniffed. destruct (String.eqb _ _); [|done]. simpl.
      unfold Header_Set. by rewrite lookup_insert_ne.
  - injection Hstep as <-. unfold Flush, flush_if_Flusher.
    by destruct (z g), (isFlusher _).
Qed.

Lemma gRW_run_header_other (acts : Handler) (g g' : gRW) (k : string) :
  gRW_run acts g = Ok g' ->
  forallb (fun a => negb (touches k a)) acts = true ->
  k <> hdrContentType -> k <> hdrContentEncoding -> k <> hdrContentLength ->
  header (w g') !! k = header (w g) !! k.
Proof.
  intros Hrun Ht Hct Hce Hcl. revert g Hrun Ht.
  induction acts as [|a acts IH]; intros g Hrun Ht; simpl in *.
  - by injection Hrun as <-.
  - apply andb_true_iff in Ht as [Ha%negb_true_iff Ht].
    destruct (gRW_step a g) as [g1|] eqn:Hs; [|done]. simpl in Hrun.
    rewrite (IH g1 Hrun Ht).
    by apply (gRW_step_header_other a).
Qed.

Lemma rw_run_spec (acts : Handler) (rw : ResponseWriter) :
  exists ev,
    journal (rw_run acts rw) = journal rw ++ ev /\
    List.filter pool_event ev = [] /\
    ident (rw_run acts rw) = ident rw /\
    forall k, forallb (fun a => negb (touches k a)) acts = true ->
              header (rw_run acts rw) !! k = header rw !! k.
Proof.
  unfold rw_run. revert rw. induction acts as [|a acts IH]; intros rw; simpl.
  - exists []. by rewrite List.app_nil_r.
  - destruct (IH (rw_step a rw)) as (ev & Hj & Hp & Hi & Hh).
    assert (exists ev1, journal (rw_step a rw) = journal rw ++ ev1 /\
                        List.filter pool_event ev1 = [] /\
                        ident (rw_step a rw) = ident rw /\
                        forall k, touches k a = false ->
                          header (rw_step a rw) !! k = header rw !! k)
      as (ev1 & Hj1 & Hp1 & Hi1 & Hh1).
    { destruct a as [k' v|k' v|k'|code|b|]; simpl.
      - exists []. rewrite List.app_nil_r. repeat split.
        intros k. by apply (header_action_other (DoHeaderSet k' v)).
      - exists []. rewrite List.app_nil_r. repeat split.
        intros k. by apply (header_action_other (DoHeaderAdd k' v)).
      - exists []. rewrite List.app_nil_r. repeat split.
        intros k. by apply (header_action_other (DoHeaderDel k')).
      - by eexists.
      - by eexists.
      - unfold flush_if_Flusher. destruct (isFlusher rw).
        + by eexists.
        + exists []. by rewrite List.app_nil_r. }
    exists (ev1 ++ ev). rewrite Hj, Hj1, List.app_assoc, List.filter_app.
    rewrite Hp, Hp1, Hi, Hi1. repeat split.
    intros k [Ha%negb_true_iff Ht]%andb_true_iff.
    by rewrite (Hh k Ht), (Hh1 k Ha).
Qed.

Lemma Close_spec (g : gRW) :
  coherent g ->
  exists ev,
    journal (w (Close g)) = journal (w g) ++ ev /\
    List.filter pool_event ev =
      match decision g with
      | Compressing zw => [EvPoolPut zw]
      | _ => []
      end /\
    level (pool (Close g)) = level (pool g) /\
    ident (w (Close g)) = ident (w g) /\
    header (w (Close g)) = header (w g) /\
    z (Close g) = None.
Proof.
  intros [Hc _]. unfold Close, decision.
  destruct (z g) as [zw|] eqn:Hz.
  - destruct (skip g); [by specialize (Hc eq_refl)|].
    unfold flush_if_Flusher. simpl.
    destruct (isFlusher (w g)); simpl; eexists;
      (split; [rewrite <- ?List.app_assoc; reflexivity | done]).
  - exists []. rewrite List.app_nil_r, Hz. by destruct (skip g).
Qed.

(** Every request runs to its end when the level of the pool is valid. *)
Lemma ServeHTTP_spec (gh : gzipHandler) (rw : ResponseWriter) (r : Request) :
  valid_level (level (gh_writerPool gh)) ->
  exists rw' gh' ev,
    ServeHTTP gh rw r = Ok (rw', gh') /\
    gh_h gh' = gh_h gh /\
    level (gh_writerPool gh') = level (gh_writerPool gh) /\
    ident rw' = ident rw /\
    journal rw' = journal rw ++ EvHeaderAdd hdrVary hdrAcceptEncoding :: ev /\
    (List.filter pool_event ev = [] \/
     exists zw, List.filter pool_event ev = [EvPoolGet zw; EvPoolPut zw]) /\
    (forallb (fun a => negb (touches hdrVary a)) (gh_h gh) = true ->
     Header_Values (header rw') hdrVary =
     Header_Values (header rw) hdrVary ++ [hdrAcceptEncoding]).
Proof.
  intros Hv. unfold ServeHTTP.
  set (rw1 := w_Header_Add hdrVary hdrAcceptEncoding rw).
  assert (Hvary : Header_Values (header rw1) hdrVary =
                  Header_Values (header rw) hdrVary ++ [hdrAcceptEncoding]).
  { unfold rw1, w_Header_Add, Header_Add. simpl.
    unfold Header_Values at 1. by rewrite lookup_insert_eq. }
  assert (Hj1 : journal rw1 =
                journal rw ++ [EvHeaderAdd hdrVary hdrAcceptEncoding]) by done.
  destruct (acceptsGzip r); simpl.
  - destruct (gRW_run_advances (gh_h gh) (wrap rw1 (gh_writerPool gh))
                (coherent_wrap _ _) Hv) as (g & ev & Hrun & Ha).
    rewrite Hrun. simpl.
    destruct Ha as (Hj & Hi & _ & Hl & _ & Hp & _ & _ & Hc).
    destruct (Close_spec g Hc) as (evc & Hjc & Hpc & Hlc & Hic & Hhc & _).
    exists (w (Close g)), (mkgzipHandler (gh_h gh) (pool (Close g))),
      (ev ++ evc).
    split; [done|]. split; [done|]. split; [simpl; by rewrite Hlc, Hl|].
    split; [by rewrite Hic, Hi|]. split; [|split].
    + rewrite Hjc, Hj. unfold wrap. cbn [w]. by rewrite Hj1, <- !List.app_assoc.
    + rewrite List.filter_app, Hp, Hpc. simpl.
      destruct (decision g); [by left | by left | right; by eexists].
    + intros Ht. rewrite Hhc. unfold Header_Values at 1.
      rewrite (gRW_run_header_other _ _ _ hdrVary Hrun Ht) by done.
      exact Hvary.
  - destruct (rw_run_spec (gh_h gh) rw1) as (ev & Hj & Hp & Hi & Hh).
    exists (rw_run (gh_h gh) rw1), gh, ev.
    split; [done|]. split; [done|]. split; [done|]. split; [done|].
    split; [|split].
    + rewrite Hj, Hj1, <- List.app_assoc. done.
    + by left.
    + intros Ht. unfold Header_Values at 1. rewrite (Hh _ Ht). exact Hvary.
Qed.

(** * Setting up the handler *)

Lemma WithLevel_Ok (lvl : Z) (opt : Option) :
  WithLevel lvl = Ok opt ->
  valid_level lvl /\
  opt = (fun g => mkgzipHandler (gh_h g) (newWriterPool lvl)).
Proof.
  unfold WithLevel, NewWriterLevel, valid_level.
  destruct (Z.ltb_spec lvl HuffmanOnly); [done|].
  destruct (Z.gtb_spec lvl BestCompression); [done|].
  simpl. intros [= <-]. split; [lia | done].
Qed.

Lemma New_level (h : Handler) (lvls : list Z) (opts : list Option) :
  Forall2 (fun lvl opt => WithLevel lvl = Ok opt) lvls opts ->
  valid_level (level (gh_writerPool (New h opts))).
Proof.
  unfold New. intros Hall.
  assert (H : forall gh, valid_level (level (gh_writerPool gh)) ->
              valid_level
                (level (gh_writerPool (fold_left (fun g fn => fn g) opts gh)))).
  { induction Hall as [|lvl opt lvls opts Hopt _ IH]; intros gh Hv; simpl.
    - done.
    - apply IH. apply WithLevel_Ok in Hopt as [Hl ->]. done. }
  apply H. unfold valid_level, HuffmanOnly, BestSpeed, BestCompression.
  simpl. lia.
Qed.

Lemma serve_all_Ok (gh : gzipHandler) (reqs : list (ResponseWriter * Request)) :
  valid_level (level (gh_writerPool gh)) ->
  exists gh', serve_all gh reqs = Ok gh'.
Proof.
  revert gh. induction reqs as [|[rw r] reqs IH]; intros gh Hv; simpl.
  - by exists gh.
  - destruct (ServeHTTP_spec gh rw r Hv) as (rw' & gh' & ev & -> & _ & Hl & _).
    simpl. apply IH. by rewrite Hl.
Qed.

(** C7.  [WithLevel] panics, when it is called, for every level that
    [gzip.NewWriterLevel] rejects, and for every level it accepts returns
    the option that gives the handler a pool of that level.  A handler set
    up by [New] with options that [WithLevel] returned serves every
    sequence of requests without a panic. *)
Theorem WithLevel_faults_at_setup :
  (forall lvl, ~ valid_level lvl -> exists msg, WithLevel lvl = Panic msg) /\
  (forall lvl, valid_level lvl ->
     exists opt,
       WithLevel lvl = Ok opt /\
       forall gh, opt gh = mkgzipHandler (gh_h gh) (newWriterPool lvl)) /\
  (forall h lvls opts reqs,
     Forall2 (fun lvl opt => WithLevel lvl = Ok opt) lvls opts ->
     exists gh', serve_all (New h opts) reqs = Ok gh').
Proof.
  split; [|split].
  - intros lvl Hn. unfold WithLevel, NewWriterLevel, valid_level in *.
    destruct (Z.ltb_spec lvl HuffmanOnly); [by eexists|].
    destruct (Z.gtb_spec lvl BestCompression); [by eexists|]. lia.
  - intros lvl [Hlo Hhi]. unfold WithLevel, NewWriterLevel.
    destruct (Z.ltb_spec lvl HuffmanOnly); [lia|].
    destruct (Z.gtb_spec lvl BestCompression); [lia|].
    simpl. by eexists.
  - intros h lvls opts reqs Hall.
    apply serve_all_Ok. by apply (New_level h lvls).
Qed.

(** * The dispatcher *)

(** C9.  [ServeHTTP] adds the value "Accept-Encoding" to the Vary header
    of the response before anything else, whether or not the request
    accepts gzip: it is the first entry the request adds to the journal,
    the values Vary had are kept, and the response of a handler that does
    not change Vary itself carries it.  A request that does not accept
    gzip is handed to the handler with the real writer so prepared. *)
Theorem ServeHTTP_adds_Vary
    (gh : gzipHandler) (rw : ResponseWriter) (r : Request) :
  (acceptsGzip r = false ->
   ServeHTTP gh rw r =
   Ok (rw_run (gh_h gh) (w_Header_Add hdrVary hdrAcceptEncoding rw), gh)) /\
  (valid_level (level (gh_writerPool gh)) \/ acceptsGzip r = false ->
   exists rw' gh' ev,
     ServeHTTP gh rw r = Ok (rw', gh') /\
     journal rw' = journal rw ++ EvHeaderAdd hdrVary hdrAcceptEncoding :: ev /\
     (forallb (fun a => negb (touches hdrVary a)) (gh_h gh) = true ->
      Header_Values (header rw') hdrVary =
      Header_Values (header rw) hdrVary ++ [hdrAcceptEncoding])).
Proof.
  assert (Hno : acceptsGzip r = false ->
                ServeHTTP gh rw r =
                Ok (rw_run (gh_h gh)
                      (w_Header_Add hdrVary hdrAcceptEncoding rw), gh)).
  { intros H. unfold ServeHTTP. by rewrite H. }
  split; [done|].
  intros [Hv|Hr].
  - destruct (ServeHTTP_spec gh rw r Hv)
      as (rw' & gh' & ev & Hs & _ & _ & _ & Hj & _ & Hvary).
    by exists rw', gh', ev.
  - rewrite (Hno Hr).
    set (rw1 := w_Header_Add hdrVary hdrAcceptEncoding rw).
    destruct (rw_run_spec (gh_h gh) rw1) as (ev & Hj & _ & _ & Hh).
    exists (rw_run (gh_h gh) rw1), gh, ev. split; [done|]. split.
    + rewrite Hj. unfold rw1. simpl. by rewrite <- List.app_assoc.
    + intros Ht. unfold Header_Values at 1. rewrite (Hh _ Ht).
      unfold rw1, w_Header_Add, Header_Add. simpl.
      by rewrite lookup_insert_eq.
Qed.

(** * Closing the decorator *)

(** C10.  [Close] does nothing when the decorator holds no gzip writer.
    When it holds one, [Close] closes it, flushes the real writer if that
    is a flusher, puts the gzip writer back into the pool and forgets it.
    So closing again, any number of times, changes nothing more; and in
    the course of a request a gzip writer is put into the pool at most
    once, namely the one that was taken from it. *)
Theorem Close_idempotent :
  (forall g, z g = None -> Close g = g) /\
  (forall g zw,
     z g = Some zw ->
     z (Close g) = None /\
     journal (w (Close g)) =
       journal (w g) ++
       EvZClose zw :: (if isFlusher (w g) then [EvFlush] else []) ++
       [EvPoolPut zw] /\
     idle (pool (Close g)) = zw :: idle (pool g)) /\
  (forall g, Close (Close g) = Close g) /\
  (forall g n, Nat.iter (S n) Close g = Close g) /\
  (forall gh rw r,
     valid_level (level (gh_writerPool gh)) ->
     exists rw' gh' ev,
       ServeHTTP gh rw r = Ok (rw', gh') /\
       journal rw' = journal rw ++ ev /\
       (List.filter pool_event ev = [] \/
        exists zw, List.filter pool_event ev = [EvPoolGet zw; EvPoolPut zw])).
Proof.
  assert (Hnone : forall g, z g = None -> Close g = g).
  { intros g Hz. unfold Close. by rewrite Hz. }
  assert (Hz : forall g, z (Close g) = None).
  { intros g. unfold Close. by destruct (z g) eqn:E. }
  assert (Hidem : forall g, Close (Close g) = Close g).
  { intros g. by apply Hnone. }
  split; [done|]. split; [|split; [done|split]].
  - intros g zw Hg. split; [done|]. unfold Close. rewrite Hg.
    unfold flush_if_Flusher. simpl.
    destruct (isFlusher (w g)); simpl; by rewrite <- ?List.app_assoc.
  - intros g n. induction n as [|n IH]; [done|].
    change (Close (Nat.iter (S n) Close g) = Close g). by rewrite IH.
  - intros gh rw r Hv.
    destruct (ServeHTTP_spec gh rw r Hv)
      as (rw' & gh' & ev & Hs & _ & _ & _ & Hj & Hp & _).
    exists rw', gh', (EvHeaderAdd hdrVary hdrAcceptEncoding :: ev).
    split; [done|]. split; [done|]. exact Hp.
Qed.

(** * More about the calls of a handler *)

Lemma gRW_step_events (a : Action) (g : gRW) :
  coherent g -> valid_level (level (pool g)) ->
  exists g' ev,
    gRW_step a g = Ok g' /\ journal (w g') = journal (w g) ++ ev /\
    step_events a g ev g'.
Proof. forget_params.
  intros Hc Hv.
  destruct (pool_Get_valid _ Hv) as (zw & p' & Hget & Hl).
  assert (H200 : ~ bodiless StatusOK).
  { unfold bodiless, StatusOK, StatusNoContent, StatusNotModified,
      StatusPartialContent. lia. }
  destruct a as [k v|k v|k|code|b|].
  - eexists _, []. split; [reflexivity|]. clear Hget.
    destruct g as [[id fl hd j] zz p sk wh]. destruct sk, zz, wh; leaf_events.
  - eexists _, []. split; [reflexivity|]. clear Hget.
    destruct g as [[id fl hd j] zz p sk wh]. destruct sk, zz, wh; leaf_events.
  - eexists _, []. split; [reflexivity|]. clear Hget.
    destruct g as [[id fl hd j] zz p sk wh]. destruct sk, zz, wh; leaf_events.
  - cbn [gRW_step]. destruct (bodiless_dec code) as [Hb|Hb].
    { rewrite (WriteHeader_bodiless code g Hb). clear Hget.
      destruct g as [[id fl hd j] zz p sk wh].
      destruct sk, zz, wh; (eexists _, _; split; [reflexivity|]);
        leaf_events. }
    destruct (decision g) eqn:Hd.
    + rewrite (WriteHeader_deciding code g Hd Hb).
      rewrite (init_undecided (set_wroteHeader g)) by exact Hd.
      destruct (must_skip (set_wroteHeader g)).
      * clear Hget. destruct g as [[id fl hd j] zz p sk wh].
        destruct sk, zz, wh; (eexists _, _; split; [reflexivity|]);
          leaf_events.
      * simpl. simpl in Hget. rewrite Hget. clear Hget.
        destruct g as [[id fl hd j] zz p sk wh].
        destruct sk, zz, wh; (eexists _, _; split; [reflexivity|]);
          leaf_events.
    + rewrite (WriteHeader_decided code g) by (by rewrite Hd). clear Hget.
      destruct g as [[id fl hd j] zz p sk wh].
      destruct sk, zz, wh; (eexists _, _; split; [reflexivity|]);
        leaf_events.
    + rewrite (WriteHeader_decided code g) by (by rewrite Hd). clear Hget.
      destruct g as [[id fl hd j] zz p sk wh].
      destruct sk, zz, wh; (eexists _, _; split; [reflexivity|]);
        leaf_events.
  - cbn [gRW_step]. rewrite Write_eq. destruct (wroteHeader g) eqn:Hw.
    { simpl. clear Hget.
      destruct g as [[id fl hd j] zz p sk wh]. simpl in Hw. subst wh.
      destruct sk, zz; (eexists _, _; split; [reflexivity|]); leaf_events. }
    assert (Hd : decision g = Undecided).
    { destruct Hc as [_ Hc]. destruct (decision g); try done;
        rewrite Hc in Hw; done. }
    assert (Hds : decision (sniffed b g) = Undecided).
    { unfold sniffed. by destruct (String.eqb _ _). }
    rewrite (WriteHeader_deciding StatusOK (sniffed b g) Hds H200).
    rewrite (init_undecided (set_wroteHeader (sniffed b g))) by exact Hds.
    assert (Hp : pool (sniffed b g) = pool g).
    { unfold sniffed. by destruct (String.eqb _ _). }
    destruct (must_skip (set_wroteHeader (sniffed b g))).
    + simpl. clear Hget Hp Hds. unfold sniffed.
      destruct g as [[id fl hd j] zz p sk wh]. simpl in Hw. subst wh.
      destruct (String.eqb _ _), sk, zz;
        (eexists _, _; split; [reflexivity|]); leaf_events.
    + simpl. rewrite Hp, Hget. simpl. clear Hget Hp Hds. unfold sniffed.
      destruct g as [[id fl hd j] zz p sk wh]. simpl in Hw. subst wh.
      destruct (String.eqb _ _), sk, zz;
        (eexists _, _; split; [reflexivity|]); leaf_events.
  - cbn [gRW_step]. clear Hget. destruct g as [[id fl hd j] zz p sk wh].
    destruct zz as [zw0|], fl, sk, wh;
      (eexists _, _; split; [reflexivity|]); leaf_events.
Qed.

Lemma omap_written_cons (a : Action) (acts : Handler) :
  omap written (a :: acts) = option_list (written a) ++ omap written acts.
Proof. by destruct a. Qed.

Lemma commits_cons (wrote : bool) (a : Action) (acts : Handler) :
  commits wrote (a :: acts) =
  match a with
  | DoWriteHeader code => [code]
  | DoWrite _ => if wrote then [] else [StatusOK]
  | _ => []
  end ++ commits (wrote || is_commit a || is_write a) acts.
Proof. destruct a, wrote; try done. Qed.

(** What the journal of a run of calls holds, read entry by entry. *)
Lemma gRW_run_events (acts : Handler) :
  forall g,
    coherent g -> valid_level (level (pool g)) ->
    exists g' ev,
      gRW_run acts g = Ok g' /\ advances g ev g' /\
      omap payload ev = omap written acts /\
      omap commit_code ev = commits (wroteHeader g) acts /\
      List.length (List.filter is_EvFlush ev) =
        (if isFlusher (w g) then List.length (List.filter is_flush acts)
         else 0) /\
      Forall (fun zw => decision g' = Compressing zw) (omap names ev) /\
      List.filter is_EvZClose ev = [].
Proof. forget_params.
  induction acts as [|a acts IH]; intros g Hc Hv.
  - exists g, []. simpl. split; [done|]. split; [by apply advances_refl|].
    by destruct (isFlusher (w g)).
  - destruct (gRW_step_advances a g Hc Hv) as (g1 & ev1 & Hs & Ha1 & _).
    destruct (gRW_step_events a g Hc Hv)
      as (g1' & ev1' & Hs' & Hj' & Hpay & Hcom & Hwh & Hfl & Hnm & _ & _ & _
          & Hcl).
    rewrite Hs in Hs'. injection Hs' as <-.
    assert (ev1' = ev1) as ->.
    { destruct Ha1 as (Hj & _). rewrite Hj in Hj'.
      by apply List.app_inv_head in Hj'. }
    assert (Hc1 : coherent g1) by apply Ha1.
    assert (Hv1 : valid_level (level (pool g1))).
    { destruct Ha1 as (_ & _ & _ & -> & _). done. }
    destruct (IH g1 Hc1 Hv1)
      as (g' & ev & Hrun & Ha & Hpay' & Hcom' & Hfl' & Hnm' & Hcl').
    exists g', (ev1 ++ ev).
    split; [cbn [gRW_run]; rewrite Hs; exact Hrun|].
    split; [by eapply advances_trans|].
    split; [by rewrite omap_app, Hpay, Hpay', omap_written_cons|].
    split; [by rewrite omap_app, Hcom, Hcom', commits_cons, Hwh|].
    assert (Hfg : isFlusher (w g1) = isFlusher (w g)) by apply Ha1.
    split; [|split].
    + rewrite List.filter_app, List.length_app, Hfl, Hfl', Hfg.
      destruct a, (isFlusher (w g)); done.
    + rewrite omap_app. apply Forall_app. split; [|done].
      destruct Ha as (_ & _ & _ & _ & Hst & _).
      eapply Forall_impl; [exact Hnm|]. intros zw Hz. simpl in Hz.
      rewrite Hst; [done | by rewrite Hz].
    + by rewrite List.filter_app, Hcl, Hcl'.
Qed.

(** X1.  Whatever a handler writes leaves the decorator, in the order
    written and write by write: the byte strings of the writes the real
    writer and the gzip writer receive are those of the calls of [Write],
    none dropped, doubled, merged or reordered. *)
Theorem writes_forwarded_in_order
    (rw : ResponseWriter) (p : writerPool) (acts : Handler) :
  valid_level (level p) ->
  exists g ev,
    gRW_run acts (wrap rw p) = Ok g /\
    journal (w g) = journal rw ++ ev /\
    omap payload ev = omap written acts.
Proof.
  intros Hv.
  destruct (gRW_run_events acts (wrap rw p) (coherent_wrap rw p) Hv)
    as (g & ev & Hrun & Ha & Hpay & _).
  exists g, ev. split; [done|]. split; [apply Ha | done].
Qed.

(** X2.  The real writer is given exactly the status codes the handler
    commits, each as it is and in order, and in addition 200 before the
    first write of a handler that has committed no code by then. *)
Theorem status_codes_forwarded
    (rw : ResponseWriter) (p : writerPool) (acts : Handler) :
  valid_level (level p) ->
  exists g ev,
    gRW_run acts (wrap rw p) = Ok g /\
    journal (w g) = journal rw ++ ev /\
    omap commit_code ev = commits false acts.
Proof.
  intros Hv.
  destruct (gRW_run_events acts (wrap rw p) (coherent_wrap rw p) Hv)
    as (g & ev & Hrun & Ha & _ & Hcom & _).
  exists g, ev. split; [done|]. split; [apply Ha | done].
Qed.

(** X3.  Every [Flush] of the handler flushes the real writer when that is
    an [http.Flusher], and nothing else does while the handler runs: the
    real writer is flushed as many times as the handler calls [Flush], and
    never when it is no flusher. *)
Theorem flushes_forwarded
    (rw : ResponseWriter) (p : writerPool) (acts : Handler) :
  valid_level (level p) ->
  exists g ev,
    gRW_run acts (wrap rw p) = Ok g /\
    journal (w g) = journal rw ++ ev /\
    List.length (List.filter is_EvFlush ev) =
      (if isFlusher rw then List.length (List.filter is_flush acts) else 0).
Proof.
  intros Hv.
  destruct (gRW_run_events acts (wrap rw p) (coherent_wrap rw p) Hv)
    as (g & ev & Hrun & Ha & _ & _ & Hfl & _).
  exists g, ev. split; [done|]. split; [apply Ha | done].
Qed.

Lemma Decision_eq_dec (d d' : Decision) : {d = d'} + {d <> d'}.
Proof.
  decide equality. destruct zw as [i l], zw0 as [i0 l0].
  destruct (Nat.eq_dec i i0) as [->|Hi]; [|right; congruence].
  destruct (Z.eq_dec l l0) as [->|Hl]; [by left | right; congruence].
Qed.

Lemma raw_is_payload (ev : list Event) :
  existsb is_raw ev = true -> omap payload ev <> [].
Proof.
  induction ev as [|e ev IH]; simpl; [done|].
  destruct e; simpl; try done; exact IH.
Qed.

Lemma gRW_run_unmixed (acts : Handler) :
  forall (g : gRW) (evs : list Event),
    coherent g -> valid_level (level (pool g)) ->
    no_commit_after_write acts = true ->
    (existsb is_raw evs = true ->
     wroteHeader g = true /\ (forall zw, decision g <> Compressing zw) /\
     (decision g <> Undecided \/
      forallb (fun x => negb (is_commit x)) acts = true)) ->
    (existsb is_gz evs = true -> exists zw, decision g = Compressing zw) ->
    exists g' ev,
      gRW_run acts g = Ok g' /\ journal (w g') = journal (w g) ++ ev /\
      (existsb is_raw (evs ++ ev) = true ->
       forall zw, decision g' <> Compressing zw) /\
      (existsb is_gz (evs ++ ev) = true ->
       exists zw, decision g' = Compressing zw).
Proof. forget_params.
  induction acts as [|a acts IH]; intros g evs Hc Hv Hn Hraw Hgz.
  - exists g, []. rewrite !List.app_nil_r. simpl.
    split; [done|]. split; [done|]. split; [|done].
    intros H. by destruct (Hraw H) as (_ & ? & _).
  - destruct (gRW_step_advances a g Hc Hv) as (g1 & ev1 & Hs & Ha1 & _).
    destruct (gRW_step_events a g Hc Hv)
      as (g1' & ev1' & Hs' & Hj' & Hpay & _ & Hwh & _ & _ & Hr1 & Hg1 & Hch
          & _).
    rewrite Hs in Hs'. injection Hs' as <-.
    destruct Ha1 as (Hj & _ & _ & Hl & Hst & _ & _ & Hw & Hc1).
    assert (ev1' = ev1) as ->.
    { rewrite Hj in Hj'. by apply List.app_inv_head in Hj'. }
    assert (Hv1 : valid_level (level (pool g1))) by by rewrite Hl.
    simpl in Hn. apply andb_true_iff in Hn as [Hn1 Hn].
    destruct (IH g1 (evs ++ ev1) Hc1 Hv1 Hn) as (g' & ev & Hrun & Hjr & Hr & Hg).
    + rewrite existsb_app. intros [H|H]%orb_true_iff.
      * destruct (Hraw H) as (Hwt & Hnc & Hor).
        assert (Hsame : decision g1 = decision g).
        { destruct (Decision_eq_dec (decision g) Undecided) as [Hu|Hu];
            [|by apply Hst].
          destruct (Decision_eq_dec (decision g1) (decision g)) as [|Hne];
            [done|].
          destruct (Hch Hne) as [Hcm|Hwf]; [|congruence].
          destruct Hor as [|Hall]; [done|]. simpl in Hall.
          rewrite Hcm in Hall. done. }
        split; [by apply Hw|]. split; [by rewrite Hsame|].
        rewrite Hsame. destruct Hor as [|Hall]; [by left|right].
        simpl in Hall. by apply andb_true_iff in Hall as [_ ?].
      * assert (Hwa : is_write a = true).
        { apply raw_is_payload in H. rewrite Hpay in H.
          destruct a; simpl in H; done. }
        split; [by rewrite Hwh, Hwa, orb_true_r|]. split; [by apply Hr1|].
        right. by rewrite Hwa in Hn1.
    + rewrite existsb_app. intros [H|H]%orb_true_iff; [|by apply Hg1].
      destruct (Hgz H) as (zw & Hz). exists zw. rewrite Hst; [done|].
      by rewrite Hz.
    + exists g', (ev1 ++ ev). split; [cbn [gRW_run]; rewrite Hs; exact Hrun|].
      rewrite Hjr, Hj, !List.app_assoc. done.
Qed.

(** X4.  A handler that commits no status code after it has written body
    bytes gets a body that is of one kind: written to the real writer as it
    is when the decorator ends without a gzip writer, passed through the
    gzip writer when it ends compressing, and never some of each. *)
Theorem never_raw_and_gzip
    (rw : ResponseWriter) (p : writerPool) (acts : Handler) :
  valid_level (level p) -> no_commit_after_write acts = true ->
  exists g ev,
    gRW_run acts (wrap rw p) = Ok g /\
    journal (w g) = journal rw ++ ev /\
    (existsb is_raw ev = true -> forall zw, decision g <> Compressing zw) /\
    (existsb is_gz ev = true -> exists zw, decision g = Compressing zw) /\
    existsb is_raw ev && existsb is_gz ev = false.
Proof.
  intros Hv Hn.
  destruct (gRW_run_unmixed acts (wrap rw p) [] (coherent_wrap rw p) Hv Hn)
    as (g & ev & Hrun & Hj & Hr & Hg); [done | done |].
  exists g, ev. split; [done|]. split; [done|]. split; [done|].
  split; [done|]. simpl in Hr, Hg.
  destruct (existsb is_raw ev); [|done].
  destruct (existsb is_gz ev); [|done].
  destruct (Hg eq_refl) as (zw & Hz). by destruct (Hr eq_refl zw).
Qed.

(** X5.  The decision does not look at the status code: from the same
    state, two commits of status codes other than 204, 304 and 206 leave
    the same decision, the same headers and the same pool, so that an error
    page is compressed or not just as a page with status 200 would be. *)
Theorem decision_ignores_status (g : gRW) (c1 c2 : Z) :
  valid_level (level (pool g)) -> ~ bodiless c1 -> ~ bodiless c2 ->
  exists g1 g2 j,
    WriteHeader c1 g = Ok g1 /\ WriteHeader c2 g = Ok g2 /\
    decision g1 = decision g2 /\ header (w g1) = header (w g2) /\
    pool g1 = pool g2 /\
    journal (w g1) = j ++ [EvWriteHeader c1] /\
    journal (w g2) = j ++ [EvWriteHeader c2].
Proof.
  intros Hv H1 H2. destruct (decision g) eqn:Hd.
  - rewrite (WriteHeader_deciding c1 g Hd H1), (WriteHeader_deciding c2 g Hd H2).
    destruct (init_total (set_wroteHeader g) Hv) as (gi & -> & _).
    simpl. by exists (committed c1 gi), (committed c2 gi), (journal (w gi)).
  - rewrite !WriteHeader_decided by (by rewrite Hd).
    by eexists _, _, (journal (w g)).
  - rewrite !WriteHeader_decided by (by rewrite Hd).
    by eexists _, _, (journal (w g)).
Qed.

(** * What a decision does to the response *)

(** X6.  [init] always returns when the level of the pool is valid.  If it
    decides to skip, nothing of the response changes: headers, journal and
    pool are as before.  If it decides to compress, Content-Encoding then
    reads "gzip" whatever it held, Content-Length is gone with all its
    values, and every other header is as the handler left it. *)
Theorem init_header_effects (g : gRW) :
  valid_level (level (pool g)) -> decision g = Undecided ->
  exists g',
    init g = Ok g' /\
    (decision g' = Skipping -> g' = set_skip g) /\
    (forall zw,
       decision g' = Compressing zw ->
       Header_Values (header (w g')) hdrContentEncoding = ["gzip"] /\
       Header_Get (header (w g')) hdrContentEncoding = "gzip" /\
       header (w g') !! hdrContentLength = None /\
       Header_Get (header (w g')) hdrContentLength = "" /\
       forall k, k <> hdrContentEncoding -> k <> hdrContentLength ->
                 header (w g') !! k = header (w g) !! k).
Proof.
  intros Hv Hd. rewrite (init_undecided g Hd).
  apply decision_Undecided in Hd as [Hs Hz].
  destruct (must_skip g).
  - exists (set_skip g). split; [done|]. split; [done|].
    intros zw H. unfold decision in H. simpl in H. done.
  - destruct (pool_Get_valid _ Hv) as (zw & p' & -> & _). simpl.
    eexists. split; [reflexivity|]. split.
    + unfold decision. simpl. by rewrite Hs.
    + intros zw' _. simpl.
      unfold Header_Values, Header_Get, Header_Del, Header_Set.
      rewrite lookup_delete_eq.
      rewrite !lookup_delete_ne, !lookup_insert_eq by done.
      repeat split; try done.
      intros k Hce Hcl. by rewrite lookup_delete_ne, lookup_insert_ne.
Qed.

(** * Gzip writers and the pool *)

Lemma rw_run_names (acts : Handler) (rw : ResponseWriter) :
  exists ev,
    journal (rw_run acts rw) = journal rw ++ ev /\ omap names ev = [].
Proof.
  unfold rw_run. revert rw. induction acts as [|a acts IH]; intros rw; simpl.
  - exists []. by rewrite List.app_nil_r.
  - destruct (IH (rw_step a rw)) as (ev & Hj & Hn).
    assert (exists ev1, journal (rw_step a rw) = journal rw ++ ev1 /\
                        omap names ev1 = []) as (ev1 & Hj1 & Hn1).
    { destruct a; simpl; try (exists []; by rewrite List.app_nil_r);
        try (by eexists).
      unfold flush_if_Flusher. destruct (isFlusher rw).
      - by eexists.
      - exists []. by rewrite List.app_nil_r. }
    exists (ev1 ++ ev). by rewrite Hj, Hj1, List.app_assoc, omap_app, Hn, Hn1.
Qed.

(** X7.  A request uses at most one gzip writer, and gives it back last.
    Either no entry of the journal of the request is about a gzip writer,
    or the journal ends with the closing of a gzip writer, the flush of the
    real writer if that is a flusher, and the return of the gzip writer to
    the pool; before that, the pool was asked once, for this writer, every
    entry about a gzip writer is about this one, and it was not closed. *)
Theorem gzip_writer_released_last
    (gh : gzipHandler) (rw : ResponseWriter) (r : Request) :
  valid_level (level (gh_writerPool gh)) ->
  exists rw' gh' ev,
    ServeHTTP gh rw r = Ok (rw', gh') /\
    journal rw' = journal rw ++ ev /\
    (omap names ev = [] \/
     exists zw body,
       ev = body ++
            EvZClose zw :: (if isFlusher rw then [EvFlush] else []) ++
            [EvPoolPut zw] /\
       Forall (fun z => z = zw) (omap names body) /\
       List.filter pool_event body = [EvPoolGet zw] /\
       List.filter is_EvZClose body = []).
Proof.
  intros Hv. unfold ServeHTTP.
  set (rw1 := w_Header_Add hdrVary hdrAcceptEncoding rw).
  assert (Hj1 : journal rw1 =
                journal rw ++ [EvHeaderAdd hdrVary hdrAcceptEncoding]) by done.
  destruct (acceptsGzip r); simpl.
  - destruct (gRW_run_events (gh_h gh) (wrap rw1 (gh_writerPool gh))
                (coherent_wrap _ _) Hv)
      as (g & ev & -> & Ha & _ & _ & _ & Hnm & Hcl).
    simpl.
    destruct Ha as (Hj & _ & Hf & _ & _ & Hp & _ & _ & Hc).
    change (journal (w (wrap rw1 (gh_writerPool gh)))) with (journal rw1) in Hj.
    change (isFlusher (w (wrap rw1 (gh_writerPool gh))))
      with (isFlusher rw) in Hf.
    change (decision (wrap rw1 (gh_writerPool gh))) with Undecided in Hp.
    destruct (z g) as [zw|] eqn:Hz.
    + assert (Hs : skip g = false).
      { destruct Hc as [Hc _]. destruct (skip g) eqn:Hsk; [|done].
        specialize (Hc eq_refl). congruence. }
      assert (Hd : decision g = Compressing zw).
      { unfold decision. by rewrite Hs, Hz. }
      eexists _, _,
        ((EvHeaderAdd hdrVary hdrAcceptEncoding :: ev) ++
         EvZClose zw :: (if isFlusher rw then [EvFlush] else []) ++
         [EvPoolPut zw]).
      split; [reflexivity|]. split.
      { unfold Close. rewrite Hz. unfold flush_if_Flusher. simpl.
        rewrite Hf.
        destruct (isFlusher rw); simpl; rewrite Hj, Hj1;
          by rewrite <- !List.app_assoc. }
      right. exists zw, (EvHeaderAdd hdrVary hdrAcceptEncoding :: ev).
      split; [done|]. split; [|split].
      * simpl. eapply Forall_impl; [exact Hnm|].
        intros z0 H0. simpl in H0. congruence.
      * simpl. by rewrite Hp, Hd.
      * done.
    + assert (Hno : forall zw, decision g <> Compressing zw).
      { intros zw. unfold decision. rewrite Hz. by destruct (skip g). }
      eexists _, _, (EvHeaderAdd hdrVary hdrAcceptEncoding :: ev).
      split; [reflexivity|]. split.
      { unfold Close. rewrite Hz, Hj, Hj1. by rewrite <- List.app_assoc. }
      left. change (omap names ev = []).
      destruct (omap names ev) as [|zw l]; [done|].
      apply Forall_cons in Hnm as [H _]. by destruct (Hno zw).
  - destruct (rw_run_names (gh_h gh) rw1) as (ev & Hj & Hn).
    eexists _, _, (EvHeaderAdd hdrVary hdrAcceptEncoding :: ev).
    split; [reflexivity|]. split.
    + rewrite Hj, Hj1. by rewrite <- List.app_assoc.
    + by left.
Qed.

Lemma pool_Get_levels (p p' : writerPool) (zw : Writer) :
  pick_sound -> pool_levels p -> pool_Get p = Ok (zw, p') ->
  writer_level zw = level p /\ pool_levels p' /\ level p' = level p.
Proof.
  intros Hpick Hp. unfold pool_Get, pool_levels in *.
  destruct (pick (idle p)) as [[zw0 rest]|] eqn:Hpk.
  - intros [= <- <-]. destruct (Hpick _ _ _ Hpk) as [Hin Hincl].
    rewrite List.Forall_forall in Hp. simpl. split; [by apply Hp|].
    split; [|done]. apply List.Forall_forall. intros x Hx.
    apply Hp. by apply Hincl.
  - unfold NewWriterLevel. destruct (_ || _); [done|].
    intros [= <- <-]. done.
Qed.

(** A decorator whose pool and whose own gzip writer, if it holds one, are
    of the level of the pool stays so, call after call. *)
Lemma gRW_run_levels (acts : Handler) :
  forall g g',
    pick_sound -> gRW_run acts g = Ok g' ->
    pool_levels (pool g) ->
    (forall zw, z g = Some zw -> writer_level zw = level (pool g)) ->
    pool_levels (pool g') /\ level (pool g') = level (pool g) /\
    (forall zw, z g' = Some zw -> writer_level zw = level (pool g)).
Proof.
  intros g g' Hpick. revert g.
  assert (Hinit : forall g g1,
            init g = Ok g1 -> pool_levels (pool g) ->
            (forall zw, z g = Some zw -> writer_level zw = level (pool g)) ->
            pool_levels (pool g1) /\ level (pool g1) = level (pool g) /\
            (forall zw, z g1 = Some zw -> writer_level zw = level (pool g))).
  { intros g g1 Hi Hp Hz. destruct (decision g) eqn:Hd.
    - rewrite (init_undecided g Hd) in Hi. destruct (must_skip g).
      + by injection Hi as <-.
      + destruct (pool_Get (pool g)) as [[zw p']|] eqn:Hget; [|done].
        injection Hi as <-.
        destruct (pool_Get_levels _ _ _ Hpick Hp Hget) as (Hl & Hp' & Hlv).
        simpl. split; [done|]. split; [done|]. by intros ? [= <-].
    - rewrite init_decided in Hi by (by rewrite Hd). by injection Hi as <-.
    - rewrite init_decided in Hi by (by rewrite Hd). by injection Hi as <-. }
  assert (Hwh : forall code g g1,
            WriteHeader code g = Ok g1 -> pool_levels (pool g) ->
            (forall zw, z g = Some zw -> writer_level zw = level (pool g)) ->
            pool_levels (pool g1) /\ level (pool g1) = level (pool g) /\
            (forall zw, z g1 = Some zw -> writer_level zw = level (pool g))).
  { intros code g g1 H Hp Hz. unfold WriteHeader in H.
    destruct (_ && _) in H.
    - destruct (init (set_wroteHeader g)) as [gi|] eqn:Hi; [|done].
      injection H as <-. by apply (Hinit (set_wroteHeader g) gi).
    - by injection H as <-. }
  induction acts as [|a acts IH]; intros g Hrun Hp Hz; simpl in Hrun.
  - by injection Hrun as <-.
  - destruct (gRW_step a g) as [g1|] eqn:Hs; [|done]. simpl in Hrun.
    assert (pool_levels (pool g1) /\ level (pool g1) = level (pool g) /\
            (forall zw, z g1 = Some zw -> writer_level zw = level (pool g)))
      as (Hp1 & Hl1 & Hz1).
    { destruct a as [k v|k v|k|code|b|]; simpl in Hs.
      - by injection Hs as <-.
      - by injection Hs as <-.
      - by injection Hs as <-.
      - by apply (Hwh code).
      - rewrite Write_eq in Hs.
        assert (Hf : forall g2, pool (forwarded b g2) = pool g2 /\
                                z (forwarded b g2) = z g2).
        { intros g2. unfold forwarded. by destruct (decision g2). }
        destruct (wroteHeader g).
        + injection Hs as <-. by destruct (Hf g) as [-> ->].
        + destruct (WriteHeader StatusOK (sniffed b g)) as [g2|] eqn:Hw;
            [|done].
          injection Hs as <-. destruct (Hf g2) as [-> ->].
          assert (Hsn : pool (sniffed b g) = pool g /\
                        z (sniffed b g) = z g).
          { unfold sniffed. by destruct (String.eqb _ _). }
          destruct Hsn as [Hsp Hsz].
          destruct (Hwh _ _ _ Hw) as (? & ? & ?);
            rewrite ?Hsp, ?Hsz; try done.
          by rewrite Hsp in *.
      - injection Hs as <-.
        assert (pool (Flush g) = pool g /\ z (Flush g) = z g) as [-> ->];
          [|done].
        unfold Flush, flush_if_Flusher.
        destruct (z g) eqn:Hzg; simpl; by destruct (isFlusher (w g)). }
    destruct (IH g1 Hrun Hp1) as (Hp' & Hl' & Hz').
    { intros zw H. rewrite Hl1. by apply Hz1. }
    split; [done|]. split; [congruence|].
    intros zw H. rewrite <- Hl1. by apply Hz'.
Qed.

(** X8.  A pool hands out and takes back only gzip writers of its own
    level.  If the idle writers of the pool of a handler are all of its
    level before a request, and [sync.Pool] hands out only what was put
    in, then every gzip writer the request uses is of that level, and the
    idle writers are all of that level again after the request. *)
Theorem pool_keeps_level
    (gh : gzipHandler) (rw : ResponseWriter) (r : Request) :
  pick_sound -> valid_level (level (gh_writerPool gh)) ->
  pool_levels (gh_writerPool gh) ->
  exists rw' gh' ev,
    ServeHTTP gh rw r = Ok (rw', gh') /\
    journal rw' = journal rw ++ ev /\
    level (gh_writerPool gh') = level (gh_writerPool gh) /\
    pool_levels (gh_writerPool gh') /\
    Forall (fun zw => writer_level zw = level (gh_writerPool gh))
      (omap names ev).
Proof.
  intros Hpick Hv Hp. unfold ServeHTTP.
  set (rw1 := w_Header_Add hdrVary hdrAcceptEncoding rw).
  assert (Hj1 : journal rw1 =
                journal rw ++ [EvHeaderAdd hdrVary hdrAcceptEncoding]) by done.
  destruct (acceptsGzip r); simpl.
  - destruct (gRW_run_events (gh_h gh) (wrap rw1 (gh_writerPool gh))
                (coherent_wrap _ _) Hv)
      as (g & ev & Hrun & Ha & _ & _ & _ & Hnm & _).
    rewrite Hrun. simpl.
    destruct (gRW_run_levels _ _ _ Hpick Hrun Hp) as (Hpg & Hlg & Hzg);
      [done|].
    destruct Ha as (Hj & _ & Hf & _ & _ & _ & _ & _ & Hc).
    change (journal (w (wrap rw1 (gh_writerPool gh)))) with (journal rw1) in Hj.
    simpl in Hlg, Hzg.
    assert (Hnames : Forall (fun zw => writer_level zw =
                                        level (gh_writerPool gh))
                       (omap names ev)).
    { eapply Forall_impl; [exact Hnm|]. intros zw Hd. simpl in Hd.
      apply Hzg. unfold decision in Hd.
      destruct (skip g); [done|]. destruct (z g); [|done]. congruence. }
    destruct (z g) as [zw|] eqn:Hz.
    + eexists _, _,
        ((EvHeaderAdd hdrVary hdrAcceptEncoding :: ev) ++
         EvZClose zw :: (if isFlusher (w g) then [EvFlush] else []) ++
         [EvPoolPut zw]).
      split; [reflexivity|]. split.
      { unfold Close. rewrite Hz. unfold flush_if_Flusher. simpl.
        destruct (isFlusher (w g)); simpl; rewrite Hj, Hj1;
          by rewrite <- !List.app_assoc. }
      unfold Close. rewrite Hz. simpl. split; [done|]. split.
      * unfold pool_levels. simpl. constructor; [|exact Hpg].
        rewrite Hlg. by apply Hzg.
      * rewrite omap_app. apply Forall_app. split; [exact Hnames|].
        assert (Hzw : writer_level zw = level (gh_writerPool gh))
          by by apply Hzg.
        destruct (isFlusher (w g)); simpl; by repeat constructor.
    + eexists _, _, (EvHeaderAdd hdrVary hdrAcceptEncoding :: ev).
      split; [reflexivity|]. unfold Close. rewrite Hz. simpl.
      split; [by rewrite Hj, Hj1, <- List.app_assoc|]. done.
  - destruct (rw_run_names (gh_h gh) rw1) as (ev & Hj & Hn).
    eexists _, _, (EvHeaderAdd hdrVary hdrAcceptEncoding :: ev).
    split; [reflexivity|]. split; [by rewrite Hj, Hj1, <- List.app_assoc|].
    split; [done|]. split; [done|].
    change (Forall (fun zw => writer_level zw = level (gh_writerPool gh))
              (omap names ev)).
    rewrite Hn. constructor.
Qed.

(** X9.  [New] applies its options in the order given, and an option of
    [WithLevel] replaces the pool: after options that [WithLevel]
    returned, the handler is the one given and its pool is a new, empty
    pool of the level of the last option, or of [gzip.BestSpeed] when
    there is no option. *)
Theorem New_last_level_wins (h : Handler) (lvls : list Z) (opts : list Option) :
  Forall2 (fun lvl opt => WithLevel lvl = Ok opt) lvls opts ->
  gh_h (New h opts) = h /\
  gh_writerPool (New h opts) = newWriterPool (List.last lvls BestSpeed) /\
  pool_levels (gh_writerPool (New h opts)).
Proof.
  intros Hall. unfold New.
  assert (H : forall gh,
            let gh' := fold_left (fun g fn => fn g) opts gh in
            gh_h gh' = gh_h gh /\
            gh_writerPool gh' =
              match lvls with
              | [] => gh_writerPool gh
              | _ => newWriterPool (List.last lvls BestSpeed)
              end).
  { induction Hall as [|lvl opt lvls opts Hopt Hrest IH]; intros gh; [done|].
    cbn [fold_left]. cbv zeta.
    apply WithLevel_Ok in Hopt as [_ ->].
    destruct (IH (mkgzipHandler (gh_h gh) (newWriterPool lvl))) as [Hh Hp].
    split; [exact Hh|]. rewrite Hp. by destruct Hrest. }
  destruct (H (mkgzipHandler h (newWriterPool BestSpeed))) as [Hh Hp].
  split; [exact Hh|].
  assert (Hpool : gh_writerPool
                    (fold_left (fun g fn => fn g) opts
                       (mkgzipHandler h (newWriterPool BestSpeed))) =
                  newWriterPool (List.last lvls BestSpeed)).
  { rewrite Hp. by destruct lvls. }
  split; [exact Hpool|]. rewrite Hpool. constructor.
Qed.

(** * More about the negotiator and the classifier *)

Lemma Split_nonempty (s : string) (c : ascii) : strings.Split s c <> [].
Proof.
  destruct s as [|x s]; simpl; [done|].
  destruct (Ascii.eqb x c); [done|]. by destruct (strings.Split s c).
Qed.

Lemma Split_app (a b : string) (c : ascii) :
  strings.Split (a +:+ String c b) c = strings.Split a c ++ strings.Split b c.
Proof.
  induction a as [|x a IH]; simpl.
  - by rewrite Ascii.eqb_refl.
  - destruct (Ascii.eqb x c); [by rewrite IH|].
    rewrite IH. pose proof (Split_nonempty a c) as Hne.
    by destruct (strings.Split a c).
Qed.

Lemma allowsGzip_entry_decides (e : string) :
  entry_token e = "gzip" -> exists b, allowsGzip_entry e = Some b.
Proof.
  intros Ht. rewrite (allowsGzip_entry_gzip e Ht).
  destruct (entry_param e) as [p|]; [|by eexists]. cbv zeta.
  destruct (negb _); [|by eexists]. destruct (ParseFloat _); by eexists.
Qed.

Lemma allowsGzip_loop_stop (l1 l2 : list string) :
  Exists (fun x => entry_token x = "gzip") l1 ->
  allowsGzip_loop (l1 ++ l2) = allowsGzip_loop l1.
Proof.
  induction l1 as [|e l1 IH]; intros Hex; [by apply Exists_nil in Hex|].
  simpl. destruct (string_dec (entry_token e) "gzip") as [Ht|Ht].
  - by destruct (allowsGzip_entry_decides e Ht) as [b ->].
  - rewrite (allowsGzip_entry_other e Ht). apply IH.
    apply Exists_cons in Hex as [|]; done.
Qed.

(** X10.  [allowsGzip] reads the header entry by entry, from the left.
    Entries in front whose token is not "gzip" do not count: a header
    behind them is judged as it would be alone.  Once a header has an
    entry whose token is "gzip", nothing appended behind a further comma
    changes the verdict. *)
Theorem allowsGzip_entries_compose :
  (forall hdr1 hdr2,
     Forall (fun x => entry_token x <> "gzip") (strings.Split hdr1 ",") ->
     allowsGzip (hdr1 +:+ "," +:+ hdr2) = allowsGzip hdr2) /\
  (forall hdr1 hdr2,
     Exists (fun x => entry_token x = "gzip") (strings.Split hdr1 ",") ->
     allowsGzip (hdr1 +:+ "," +:+ hdr2) = allowsGzip hdr1).
Proof.
  split; intros hdr1 hdr2 H; rewrite !allowsGzip_is_loop;
    change (hdr1 +:+ "," +:+ hdr2) with (hdr1 +:+ String "," hdr2);
    rewrite Split_app.
  - by apply allowsGzip_loop_skip.
  - by apply allowsGzip_loop_stop.
Qed.

Lemma substring_of_app_r (t s u : string) :
  substring_of t s -> substring_of t (s +:+ u).
Proof.
  intros [a [b ->]]. exists a, (b +:+ u). by rewrite !append_assoc.
Qed.

Lemma Contains_app_r (s t u : string) :
  strings.Contains s t = true -> strings.Contains (s +:+ u) t = true.
Proof. rewrite !Contains_spec. apply substring_of_app_r. Qed.

Lemma HasPrefix_app_r (s p u : string) :
  strings.HasPrefix s p = true -> strings.HasPrefix (s +:+ u) p = true.
Proof.
  rewrite !HasPrefix_spec. intros [r ->]. exists (r +:+ u).
  by rewrite append_assoc.
Qed.

(** X11.  Parameters behind a media type do not take a supported type of
    the text or application kind out of the supported set: what is
    supported and is not one of the three listed types stays supported
    with anything appended.  The three listed types are matched whole:
    with anything appended they are not supported, but for "font/woff"
    with "2". *)
Theorem supportedContentType_parameters :
  (forall s t,
     supportedContentType s = true ->
     s <> "image/svg+xml" -> s <> "font/woff" -> s <> "font/woff2" ->
     supportedContentType (s +:+ t) = true) /\
  (forall t,
     t <> "" ->
     supportedContentType ("image/svg+xml" +:+ t) = false /\
     supportedContentType ("font/woff2" +:+ t) = false /\
     (t <> "2" -> supportedContentType ("font/woff" +:+ t) = false)).
Proof. forget_params.
  split.
  - intros s t Hs Hsvg Hwoff Hwoff2. unfold supportedContentType in *.
    destruct (String.eqb_spec s "") as [->|Hne]; [done|].
    rewrite (string_eqb_false s "image/svg+xml"),
      (string_eqb_false s "font/woff"), (string_eqb_false s "font/woff2")
      in Hs by done.
    cbn [orb] in Hs.
    assert (Hne' : String.eqb (s +:+ t) "" = false).
    { apply String.eqb_neq. destruct s; [done | discriminate]. }
    rewrite Hne'.
    destruct (String.eqb (s +:+ t) "image/svg+xml" ||
              String.eqb (s +:+ t) "font/woff" ||
              String.eqb (s +:+ t) "font/woff2"); [reflexivity|].
    destruct (strings.HasPrefix s "text/") eqn:Htext.
    { by rewrite (HasPrefix_app_r _ _ t Htext). }
    destruct (strings.HasPrefix (s +:+ t) "text/"); [reflexivity|].
    destruct (strings.HasPrefix s "application/") eqn:Happ; [|done].
    rewrite (HasPrefix_app_r _ _ t Happ). cbn [andb] in *.
    destruct (strings.Contains s "json") eqn:Hj.
    { by rewrite (Contains_app_r _ _ t Hj). }
    destruct (strings.Contains s "javascript") eqn:Hjs.
    { by rewrite (Contains_app_r _ _ t Hjs), orb_true_r. }
    destruct (strings.Contains s "xml") eqn:Hx; [|done].
    by rewrite (Contains_app_r _ _ t Hx), !orb_true_r.
  - intros t Ht. destruct t as [|c t]; [done|]. split; [done|].
    split; [done|]. intros H2. unfold supportedContentType. simpl.
    destruct (Ascii.eqb_spec c "2") as [->|Hc]; [|by destruct c].
    destruct t; [done|]. reflexivity.
Qed.

(** * The earlier iterations *)

Lemma gziphandler_entry_related (e : string) :
  gziphandler_allowsGzip_entry e = allowsGzip_entry e \/
  exists qv q,
    ParseFloat qv = Some q /\ allowsGzip_entry e = Some (gt0 q) /\
    gziphandler_allowsGzip_entry e = Some (ne0 q).
Proof.
  unfold gziphandler_allowsGzip_entry, allowsGzip_entry. cbv zeta.
  destruct (_ || _); [by left|]. destruct (Nat.eqb _ 1); [by left|].
  destruct (negb _); [|by left].
  destruct (ParseFloat _) as [q|] eqn:Hq; [|by left].
  right. by eexists _, q.
Qed.

Lemma gziphandler_loop_related (l : list string) :
  gziphandler_allowsGzip_loop l = allowsGzip_loop l \/
  exists qv q,
    ParseFloat qv = Some q /\ allowsGzip_loop l = gt0 q /\
    gziphandler_allowsGzip_loop l = ne0 q.
Proof.
  induction l as [|e l IH]; simpl; [by left|].
  destruct (gziphandler_entry_related e) as [->|(qv & q & Hq & -> & ->)].
  - destruct (allowsGzip_entry e); [by left | exact IH].
  - right. by exists qv, q.
Qed.

(** X12.  The negotiator of [gziphandler] tests the quality with [q != 0]
    where the one of [httpgzip] tests [q > 0], and is the same otherwise.
    The two give the same verdict on every header, but where the first
    entry with the token "gzip" has a quality that parses to a number on
    which the two tests differ; so they agree wherever the tests agree,
    and [gziphandler] accepts what [httpgzip] accepts wherever [q > 0]
    implies [q != 0]. *)
Theorem gziphandler_allowsGzip_differs_on_sign (hdr : string) :
  (gziphandler_allowsGzip hdr <> allowsGzip hdr ->
   exists qv q,
     ParseFloat qv = Some q /\ allowsGzip hdr = gt0 q /\
     gziphandler_allowsGzip hdr = ne0 q /\ gt0 q <> ne0 q) /\
  ((forall q, gt0 q = ne0 q) -> gziphandler_allowsGzip hdr = allowsGzip hdr) /\
  ((forall q, gt0 q = true -> ne0 q = true) ->
   allowsGzip hdr = true -> gziphandler_allowsGzip hdr = true).
Proof.
  assert (H : gziphandler_allowsGzip hdr = allowsGzip hdr \/
              exists qv q,
                ParseFloat qv = Some q /\ allowsGzip hdr = gt0 q /\
                gziphandler_allowsGzip hdr = ne0 q).
  { unfold gziphandler_allowsGzip, allowsGzip.
    destruct (negb _); [by left|]. apply gziphandler_loop_related. }
  split; [|split].
  - intros Hne. destruct H as [|(qv & q & Hq & Ha & Hg)]; [done|].
    exists qv, q. repeat split; try done. congruence.
  - intros Hsame. destruct H as [|(qv & q & Hq & Ha & Hg)]; [done|].
    by rewrite Ha, Hg, Hsame.
  - intros Himp Hacc. destruct H as [->|(qv & q & Hq & Ha & Hg)]; [done|].
    rewrite Hg. apply Himp. by rewrite <- Ha.
Qed.

(** X13.  The classifier of [httpgzip.go] supports what the one of
    [gzip.go] supports and, beyond that, exactly the three types
    "image/svg+xml", "font/woff" and "font/woff2". *)
Theorem supportedContentType_extends_gzipgo (s : string) :
  supportedContentType s =
  gzipgo_supportedContentType s ||
  (String.eqb s "image/svg+xml" || String.eqb s "font/woff" ||
   String.eqb s "font/woff2").
Proof. forget_params.
  unfold supportedContentType, gzipgo_supportedContentType.
  destruct (String.eqb_spec s "") as [->|Hne]; [done|].
  destruct (String.eqb_spec s "image/svg+xml") as [->|Hsvg]; [done|].
  destruct (String.eqb_spec s "font/woff") as [->|Hwoff]; [done|].
  destruct (String.eqb_spec s "font/woff2") as [->|Hwoff2]; [done|].
  cbn [orb]. rewrite orb_false_r. reflexivity.
Qed.

Lemma gzipgo_init_undeclared (g : gzipgo_gRW) :
  gzipgo_decision g = Undecided ->
  Header_Get (header (gg_w g)) hdrContentType = "" ->
  gzipgo_init g = gzipgo_set_skip g.
Proof.
  unfold gzipgo_decision, gzipgo_init. cbv zeta.
  destruct (gg_skip g); [done|]. destruct (gg_z g); [done|].
  intros _ ->. cbn [orb bool_decide].
  rewrite bool_decide_eq_false_2 by (intros H; by apply H).
  destruct (negb _); [done|]. destruct (negb _); [done|].
  destruct (_ && _); [done|]. done.
Qed.

(** X14.  [gzip.go] never compresses a response whose Content-Type is
    empty when the decision is taken: [init] asks the classifier about the
    empty string and skips.  A first write, or a commit of a status code
    other than 204, 304 and 206, in that state skips, leaves the headers as
    they are, so that no Content-Type is sniffed, and passes the bytes or
    the code on to the real writer. *)
Theorem gzipgo_skips_undeclared_type (g : gzipgo_gRW) (b : string) (code : Z) :
  gzipgo_decision g = Undecided ->
  Header_Get (header (gg_w g)) hdrContentType = "" ->
  gzipgo_Write b g =
    Ok (gzipgo_set_w (record [EvWrite b] (gg_w g)) (gzipgo_set_skip g)) /\
  (~ bodiless code ->
   gzipgo_WriteHeader code g =
     gzipgo_set_w (record [EvWriteHeader code] (gg_w g)) (gzipgo_set_skip g)).
Proof. forget_params.
  intros Hd Hct. pose proof (gzipgo_init_undeclared g Hd Hct) as Hi.
  assert (Hz : gg_z g = None).
  { unfold gzipgo_decision in Hd. destruct (gg_skip g); [done|].
    by destruct (gg_z g). }
  split.
  - unfold gzipgo_Write. rewrite Hz. cbn [bool_decide].
    rewrite bool_decide_eq_true_2 by done. by rewrite Hi.
  - intros Hb. unfold gzipgo_WriteHeader, bodiless in *. rewrite Hz.
    rewrite bool_decide_eq_true_2 by done.
    destruct (Z.eqb_spec code StatusNoContent); [tauto|].
    destruct (Z.eqb_spec code StatusNotModified); [tauto|].
    destruct (Z.eqb_spec code StatusPartialContent); [tauto|].
    simpl. by rewrite Hi.
Qed.

(** X15.  In [gzip.go] a commit of 204, 304 or 206 leaves the decision
    open and only passes the code on, and the first write after it takes
    the decision: it runs [init] on the state it finds, never panics, and
    leaves the decision [init] took, which is to skip or to compress. *)
Theorem gzipgo_write_decides (g : gzipgo_gRW) (code : Z) (b : string) :
  gzipgo_decision g = Undecided -> bodiless code ->
  let g1 := gzipgo_WriteHeader code g in
  g1 = gzipgo_set_w (record [EvWriteHeader code] (gg_w g)) g /\
  exists g2,
    gzipgo_Write b g1 = Ok g2 /\
    gzipgo_decision g2 = gzipgo_decision (gzipgo_init g1) /\
    gzipgo_decision g2 <> Undecided.
Proof.
  intros Hd Hb g1.
  assert (Hz : gg_z g = None).
  { unfold gzipgo_decision in Hd. destruct (gg_skip g); [done|].
    by destruct (gg_z g). }
  assert (Hs : gg_skip g = false).
  { unfold gzipgo_decision in Hd. by destruct (gg_skip g). }
  assert (Hg1 : g1 = gzipgo_set_w (record [EvWriteHeader code] (gg_w g)) g).
  { unfold g1, gzipgo_WriteHeader, bodiless, StatusNoContent,
      StatusNotModified, StatusPartialContent in *.
    destruct Hb as [-> | [-> | ->]]; simpl; by rewrite ?andb_false_r. }
  split; [exact Hg1|].
  assert (Hz1 : gg_z g1 = None) by by rewrite Hg1.
  assert (Hs1 : gg_skip g1 = false) by by rewrite Hg1.
  unfold gzipgo_Write. rewrite Hz1. rewrite bool_decide_eq_true_2 by done.
  cbv zeta.
  assert (Hi : gg_skip (gzipgo_init g1) = true \/
               exists zw, gg_skip (gzipgo_init g1) = false /\
                          gg_z (gzipgo_init g1) = Some zw).
  { unfold gzipgo_init. cbv zeta. rewrite Hs1, Hz1. cbn [orb].
    rewrite bool_decide_eq_false_2 by (intros H; by apply H).
    destruct (negb _); [by left|]. destruct (negb _); [by left|].
    destruct (_ && _); [by left|]. destruct (negb _); [by left|].
    right. by eexists. }
  destruct Hi as [Hsk|(zw & Hsk & Hzw)].
  - rewrite Hsk. eexists. split; [reflexivity|].
    unfold gzipgo_decision. simpl. by rewrite Hsk.
  - rewrite Hsk.
    destruct (negb (gg_ct (gzipgo_init g1)));
      [destruct (String.eqb _ _)|]; simpl; rewrite Hzw;
      (eexists; split; [reflexivity|]);
      unfold gzipgo_decision; simpl; by rewrite Hsk, Hzw.
Qed.

End Httpgzip.

(** The assumptions of C1 hold of the sample parser. *)
Lemma allowsGzip_first_gzip_entry_witness :
  let allows := allowsGzip Sample.float64 Sample.ParseFloat Sample.gt0 in
  allows "identity, gzip" = true /\
  allows "br, gzip ; q=0.8 , gzip;q=0" = true /\
  allows "gzip; q=zero, gzip" = false /\
  allows "gzip;level=9" = false /\
  allows "fgzip, gzipped" = false /\
  allows "compress;q=0.5, gzip;q=1.0" = true /\
  allows "gzip;q=0.0, *;q=0" = false /\
  allows "gzip;q=X" = false.
Proof.
  pose proof (allowsGzip_first_gzip_entry
                Sample.float64 Sample.ParseFloat Sample.gt0)
    as (Hfirst & _ & Hnone & _ & _ & _ & Hone & Hzero & _ & HX).
  cbv zeta.
  split.
  { assert (HF : Forall (fun x => entry_token x <> "gzip") ["identity"])
      by (repeat constructor; by vm_compute).
    destruct (Hfirst "identity, gzip" ["identity"] " gzip" []
                eq_refl HF eq_refl) as (H & _).
    exact (H eq_refl). }
  split.
  { assert (HF : Forall (fun x => entry_token x <> "gzip") ["br"])
      by (repeat constructor; by vm_compute).
    destruct (Hfirst "br, gzip ; q=0.8 , gzip;q=0" ["br"] " gzip ; q=0.8 "
                [" gzip;q=0"] eq_refl HF eq_refl) as (_ & H & _).
    exact (H " q=0.8 " "0.8" (8%Z, 1) eq_refl eq_refl eq_refl). }
  split.
  { destruct (Hfirst "gzip; q=zero, gzip" [] "gzip; q=zero" [" gzip"]
                eq_refl (List.Forall_nil _) eq_refl) as (_ & _ & H & _).
    exact (H " q=zero" "zero" eq_refl eq_refl eq_refl). }
  split.
  { destruct (Hfirst "gzip;level=9" [] "gzip;level=9" []
                eq_refl (List.Forall_nil _) eq_refl) as (_ & _ & _ & H).
    apply (H "level=9" eq_refl). intros qv. by vm_compute. }
  split.
  { apply Hnone. repeat constructor; by vm_compute. }
  split.
  { exact (proj1 (Hone (10%Z, 1) eq_refl eq_refl)). }
  split.
  { exact (Hzero (0%Z, 1) eq_refl eq_refl). }
  exact (HX eq_refl).
Defined.

(** * Closed instances *)

(** C3.  The code breaks the claim on a handler that commits 206, writes,
    commits 200 and writes again.  The first write finds a status code
    committed and the decision open, and goes to the real writer as it is;
    the second commit then runs [init], which takes a gzip writer, sets
    Content-Encoding to "gzip" and deletes Content-Length, after body
    bytes were forwarded; the second write goes through the gzip writer,
    so that the body is raw in part and compressed in part. *)
Theorem decision_made_after_body :
  exists g,
    gRW_run Sample.Atoi Sample.DetectContentType Sample.pick
      [DoWriteHeader 206; DoWrite "partial"; DoWriteHeader 200; DoWrite "rest"]
      (wrap (recorder ∅) (newWriterPool BestSpeed)) = Ok g /\
    journal (w g) =
      [EvWriteHeader 206; EvWrite "partial";
       EvPoolGet (GzipWriter 0 1); EvReset (GzipWriter 0 1);
       EvHeaderSet "Content-Encoding" "gzip"; EvHeaderDel "Content-Length";
       EvWriteHeader 200; EvZWrite (GzipWriter 0 1) "rest"] /\
    decision g = Compressing (GzipWriter 0 1) /\
    Header_Get (header (w g)) hdrContentEncoding = "gzip" /\
    ~ signals_before_body (journal (w g)).
Proof.
  eexists. split; [by vm_compute|]. split; [by vm_compute|].
  split; [by vm_compute|]. split; [by vm_compute|].
  intros H.
  specialize (H [EvWriteHeader 206; EvWrite "partial";
                 EvPoolGet (GzipWriter 0 1); EvReset (GzipWriter 0 1)]
                (EvHeaderSet "Content-Encoding" "gzip")
                [EvHeaderDel "Content-Length"; EvWriteHeader 200;
                 EvZWrite (GzipWriter 0 1) "rest"]
                eq_refl eq_refl).
  inversion H as [|? ? _ H1]. inversion H1 as [|? ? Hbody _].
  discriminate Hbody.
Qed.

Lemma decision_made_once_witness :
  (exists g gp ev,
     gRW_run Sample.Atoi Sample.DetectContentType Sample.pick
       [DoHeaderSet "Content-Length" "4096"; DoWrite "Hello, "; DoFlush;
        DoWriteHeader 500; DoWrite "world!"]
       (wrap (recorder ∅) (newWriterPool BestSpeed)) = Ok g /\
     gRW_run Sample.Atoi Sample.DetectContentType Sample.pick
       [DoHeaderSet "Content-Length" "4096"; DoWrite "Hello, "]
       (wrap (recorder ∅) (newWriterPool BestSpeed)) = Ok gp /\
     decision g = decision gp /\
     decision g = Compressing (GzipWriter 0 1) /\
     journal (w g) = ev /\
     List.filter signals ev =
       [EvHeaderSet "Content-Encoding" "gzip"; EvHeaderDel "Content-Length"] /\
     signals_before_body ev) /\
  (exists g ev,
     gRW_run Sample.Atoi Sample.DetectContentType Sample.pick
       [DoHeaderSet "Content-Type" "image/png"; DoWriteHeader 206;
        DoWrite "partial"; DoWriteHeader 200; DoWrite "rest"]
       (wrap (recorder ∅) (newWriterPool BestSpeed)) = Ok g /\
     journal (w g) = ev /\ decision g = Skipping /\
     signals_before_body ev) /\
  (exists g ev,
     gRW_run Sample.Atoi Sample.DetectContentType Sample.pick
       [DoWriteHeader 304; DoWrite "partial"; DoFlush; DoWriteHeader 404]
       (wrap (recorder ∅) (newWriterPool BestSpeed)) = Ok g /\
     journal (w g) = ev /\ ~ signals_before_body ev).
Proof.
  split; [|split].
  - destruct (decision_made_once
                Sample.Atoi Sample.DetectContentType Sample.pick
                (recorder ∅) (newWriterPool BestSpeed)
                [DoHeaderSet "Content-Length" "4096"; DoWrite "Hello, ";
                 DoFlush; DoWriteHeader 500; DoWrite "world!"])
      as (g & ev & Hrun & Hj & Hstable & Hsig & _ & Hord).
    { level_ok. }
    assert (Hd : decision g = Compressing (GzipWriter 0 1)).
    { vm_compute in Hrun. injection Hrun as <-. reflexivity. }
    eexists g, _, ev. split; [exact Hrun|]. split; [by vm_compute|].
    split.
    { apply (Hstable [DoHeaderSet "Content-Length" "4096"; DoWrite "Hello, "]
               [DoFlush; DoWriteHeader 500; DoWrite "world!"]);
        [reflexivity | by vm_compute | by vm_compute]. }
    split; [exact Hd|]. split; [exact Hj|]. split.
    + rewrite Hsig, Hd. reflexivity.
    + apply Hord. left. reflexivity.
  - destruct (decision_made_once
                Sample.Atoi Sample.DetectContentType Sample.pick
                (recorder ∅) (newWriterPool BestSpeed)
                [DoHeaderSet "Content-Type" "image/png"; DoWriteHeader 206;
                 DoWrite "partial"; DoWriteHeader 200; DoWrite "rest"])
      as (g & ev & Hrun & Hj & _ & _ & _ & Hord).
    { level_ok. }
    assert (Hd : decision g = Skipping).
    { vm_compute in Hrun. injection Hrun as <-. reflexivity. }
    exists g, ev. split; [exact Hrun|]. split; [exact Hj|].
    split; [exact Hd|]. apply Hord. right. intros zw. by rewrite Hd.
  - destruct (decision_made_once
                Sample.Atoi Sample.DetectContentType Sample.pick
                (recorder ∅) (newWriterPool BestSpeed)
                [DoWriteHeader 304; DoWrite "partial"; DoFlush;
                 DoWriteHeader 404])
      as (g & ev & Hrun & Hj & _ & _ & _ & Hord).
    { level_ok. }
    assert (Hd : decision g = Compressing (GzipWriter 0 1)).
    { vm_compute in Hrun. injection Hrun as <-. reflexivity. }
    exists g, ev. split; [exact Hrun|]. split; [exact Hj|].
    intros [Hlate|Hnc]%Hord; [discriminate Hlate|].
    by destruct (Hnc (GzipWriter 0 1)).
Defined.

(** C4 as the specification states it fails on the handler of
    [TestSkipOnStatusCode]: after a commit of 206 the body write leaves the
    decision open, where [init] on the same state would compress. *)
Lemma bodiless_commit_defers_counterexample :
  ~ evaluated_at_write Sample.Atoi Sample.DetectContentType Sample.pick
      (wrap (recorder (Header_Set ∅ "Content-Type" "text/plain"))
         (newWriterPool BestSpeed))
      StatusPartialContent "Hello, world!".
Proof.
  intros (g1 & g2 & gi & H1 & H2 & H3 & H4).
  vm_compute in H1. injection H1 as <-.
  vm_compute in H2. injection H2 as <-.
  vm_compute in H3. injection H3 as <-.
  vm_compute in H4. discriminate H4.
Qed.

Lemma bodiless_commit_defers_witness :
  let g := wrap (recorder (Header_Set ∅ "Content-Type" "text/plain"))
             (newWriterPool BestSpeed) in
  let g1 := committed StatusPartialContent (set_wroteHeader g) in
  WriteHeader Sample.Atoi Sample.pick StatusPartialContent g = Ok g1 /\
  Write Sample.Atoi Sample.DetectContentType Sample.pick "Hello, world!" g1 =
    Ok (forwarded "Hello, world!" g1) /\
  decision (forwarded "Hello, world!" g1) = Undecided /\
  journal (w (forwarded "Hello, world!" g1)) =
    [EvWriteHeader 206; EvWrite "Hello, world!"].
Proof.
  intros g g1.
  destruct (bodiless_commit_defers
              Sample.Atoi Sample.DetectContentType Sample.pick
              g StatusPartialContent "Hello, world!")
    as (Hwh & _ & _ & _ & Hw & Hd & _ & Hj).
  { reflexivity. }
  { right. right. reflexivity. }
  split; [exact Hwh|]. split; [exact Hw|]. split; [exact Hd|]. exact Hj.
Defined.

Lemma init_skip_predicate_witness :
  let init := init Sample.Atoi Sample.pick in
  let fresh := fun hd => wrap (recorder hd) (newWriterPool BestSpeed) in
  let ranged := fresh (Header_Set ∅ "Content-Range" "bytes 0-9/100") in
  let encoded := fresh (Header_Set ∅ "Content-Encoding" "br") in
  let small := fresh (Header_Set ∅ "Content-Length" "999") in
  let binary :=
    fresh (Header_Set (Header_Set ∅ "Content-Length" "1000")
             "Content-Type" "application/octet-stream") in
  let page :=
    fresh (Header_Set (Header_Set ∅ "Content-Length" "1000")
             "Content-Type" "text/html") in
  init ranged = Ok (set_skip ranged) /\
  init encoded = Ok (set_skip encoded) /\
  init small = Ok (set_skip small) /\
  init binary = Ok (set_skip binary) /\
  init page =
    Ok (compressing_state page (GzipWriter 0 1) (mkPool 1 [] 1)) /\
  init (set_skip page) = Ok (set_skip page) /\
  exists g,
    gRW_run Sample.Atoi Sample.DetectContentType Sample.pick
      [DoHeaderDel "Content-Range"; DoWriteHeader 200; DoWrite "<html>"]
      (set_skip (set_wroteHeader ranged)) = Ok g /\
    decision g = Skipping.
Proof.
  intros init fresh ranged encoded small binary page.
  pose proof (init_skip_predicate
                Sample.Atoi Sample.DetectContentType Sample.pick) as H.
  split.
  { destruct (H ranged) as (_ & _ & Hr & _).
    destruct (Hr eq_refl) as (H1 & _). apply H1. by vm_compute. }
  split.
  { destruct (H encoded) as (_ & _ & Hr & _).
    destruct (Hr eq_refl) as (_ & H2). destruct (H2 eq_refl) as (H3 & _).
    apply H3. by vm_compute. }
  split.
  { destruct (H small) as (_ & _ & Hr & _).
    destruct (Hr eq_refl) as (_ & H2). destruct (H2 eq_refl) as (_ & H3).
    destruct (H3 eq_refl) as (H4 & _).
    apply (H4 999%Z); [by vm_compute | reflexivity | lia]. }
  split.
  { destruct (H binary) as (_ & _ & Hr & _).
    destruct (Hr eq_refl) as (_ & H2). destruct (H2 eq_refl) as (_ & H3).
    destruct (H3 eq_refl) as (_ & H4).
    destruct H4 as (H5 & _).
    { right. right. exists 1000%Z. split; [reflexivity | lia]. }
    apply H5; [by vm_compute | reflexivity]. }
  split.
  { destruct (H page) as (_ & _ & Hr & _).
    destruct (Hr eq_refl) as (_ & H2). destruct (H2 eq_refl) as (_ & H3).
    destruct (H3 eq_refl) as (_ & H4).
    destruct H4 as (_ & H5).
    { right. right. exists 1000%Z. split; [reflexivity | lia]. }
    destruct H5 as (zw & p' & Hget & Hinit & _).
    { right. reflexivity. }
    { level_ok. }
    vm_compute in Hget. injection Hget as <- <-. exact Hinit. }
  split.
  { destruct (H (set_skip page)) as (Hd & _). apply Hd. by vm_compute. }
  destruct (H (set_skip (set_wroteHeader ranged))) as (_ & _ & _ & Hrun).
  destruct (Hrun [DoHeaderDel "Content-Range"; DoWriteHeader 200;
                  DoWrite "<html>"])
    as (g & ev & Hg & Hdg & _).
  { split; intros _; reflexivity. }
  { level_ok. }
  { by vm_compute. }
  exists g. split; [exact Hg | exact Hdg].
Defined.

Lemma first_write_sniffs_witness :
  let fresh := fun hd => wrap (recorder hd) (newWriterPool BestSpeed) in
  (exists gp,
     gRW_run Sample.Atoi Sample.DetectContentType Sample.pick
       [DoHeaderSet "Cache-Control" "no-store"; DoFlush] (fresh ∅) = Ok gp /\
     wroteHeader gp = false /\ decision gp = Undecided) /\
  (exists gi,
     Write Sample.Atoi Sample.DetectContentType Sample.pick
       "Hello, world!" (fresh ∅) =
       Ok (forwarded "Hello, world!" (committed StatusOK gi)) /\
     hget gi hdrContentType = "text/plain; charset=utf-8" /\
     decision gi = Compressing (GzipWriter 0 1)) /\
  (exists gi,
     Write Sample.Atoi Sample.DetectContentType Sample.pick
       "Hello, world!" (fresh (Header_Set ∅ "Content-Type" "image/png")) =
       Ok (forwarded "Hello, world!" (committed StatusOK gi)) /\
     header (w (forwarded "Hello, world!" (committed StatusOK gi)))
       !! hdrContentType = Some ["image/png"]).
Proof.
  intros fresh.
  pose proof (first_write_sniffs
                Sample.Atoi Sample.DetectContentType Sample.pick)
    as [Hpre Hwrite].
  assert (Hv : valid_level (level (newWriterPool BestSpeed))).
  { level_ok. }
  split.
  { destruct (Hpre (recorder ∅) (newWriterPool BestSpeed)
                [DoHeaderSet "Cache-Control" "no-store"; DoFlush])
      as (gp & Hrun & Hw & Hd & _).
    { repeat constructor. }
    by exists gp. }
  split.
  { destruct (Hwrite (fresh ∅) "Hello, world!" eq_refl eq_refl Hv)
      as (gi & Hi & Hw & _).
    exists gi. split; [exact Hw|].
    vm_compute in Hi. injection Hi as <-. split; by vm_compute. }
  destruct (Hwrite (fresh (Header_Set ∅ "Content-Type" "image/png"))
              "Hello, world!" eq_refl eq_refl Hv)
    as (gi & Hi & Hw & _ & Hkeep & _).
  exists gi. split; [exact Hw|].
  destruct Hkeep as [_ ->]; by vm_compute.
Defined.

Lemma Unwrap_recovers_writer_witness :
  Unwrap (wrap (recorder ∅) (newWriterPool BestSpeed)) = recorder ∅ /\
  exists g,
    gRW_run Sample.Atoi Sample.DetectContentType Sample.pick
      [DoHeaderSet "Content-Length" "4096"; DoWrite "Hello, world!"]
      (wrap (recorder ∅) (newWriterPool BestSpeed)) = Ok g /\
    ident (Unwrap g) = ident (recorder ∅) /\
    isFlusher (Unwrap g) = true.
Proof.
  destruct (Unwrap_recovers_writer
              Sample.Atoi Sample.DetectContentType Sample.pick
              (recorder ∅) (newWriterPool BestSpeed)
              [DoHeaderSet "Content-Length" "4096"; DoWrite "Hello, world!"])
    as (H0 & g & Hrun & Hi & Hf & _).
  { level_ok. }
  split; [exact H0|]. exists g. split; [exact Hrun|]. split; [exact Hi|].
  exact Hf.
Defined.

Lemma WithLevel_faults_at_setup_witness :
  (exists msg, WithLevel (BestCompression + 1) = Panic msg) /\
  (exists msg, WithLevel (HuffmanOnly - 1) = Panic msg) /\
  (exists opt, WithLevel HuffmanOnly = Ok opt) /\
  (exists opt,
     WithLevel BestCompression = Ok opt /\
     exists gh',
       serve_all Sample.float64 Sample.ParseFloat Sample.gt0 Sample.Atoi
         Sample.DetectContentType Sample.pick
         (New [DoWrite "Hello, world!"] [opt])
         [(recorder ∅, gzipRequest); (recorder ∅, plainRequest);
          (recorder ∅, gzipRequest)] = Ok gh').
Proof.
  pose proof (WithLevel_faults_at_setup
                Sample.float64 Sample.ParseFloat Sample.gt0 Sample.Atoi
                Sample.DetectContentType Sample.pick)
    as (Hbad & Hgood & Hserve).
  split.
  { apply Hbad. unfold valid_level, HuffmanOnly, BestCompression. lia. }
  split.
  { apply Hbad. unfold valid_level, HuffmanOnly, BestCompression. lia. }
  split.
  { destruct (Hgood HuffmanOnly) as (opt & Hopt & _).
    { unfold valid_level, HuffmanOnly, BestCompression. lia. }
    by exists opt. }
  destruct (Hgood BestCompression) as (opt & Hopt & _).
  { unfold valid_level, HuffmanOnly, BestCompression. lia. }
  exists opt. split; [exact Hopt|].
  apply (Hserve _ [BestCompression]). by repeat constructor.
Defined.

Lemma supportedContentType_exact_witness :
  supportedContentType "application/ld+json" = true /\
  supportedContentType "text/css" = true /\
  ~ (exists r, "image/png" = "text/" +:+ r).
Proof.
  destruct supportedContentType_exact as (H & _).
  split.
  { apply H. right. left. split.
    - by exists "ld+json".
    - left. by exists "application/ld+", "". }
  split.
  { apply H. left. by exists "css". }
  intros Hp.
  enough (supportedContentType "image/png" = true) by discriminate.
  apply H. by left.
Defined.

Lemma ServeHTTP_adds_Vary_witness :
  let serve :=
    ServeHTTP Sample.float64 Sample.ParseFloat Sample.gt0 Sample.Atoi
      Sample.DetectContentType Sample.pick in
  let gh := New [DoWrite "Hello, world!"] [] in
  let rw := recorder (Header_Set ∅ "Vary" "Origin") in
  (exists rw' gh',
     serve gh rw plainRequest = Ok (rw', gh') /\
     Header_Values (header rw') hdrVary = ["Origin"; "Accept-Encoding"] /\
     Header_Get (header rw') hdrContentEncoding = "") /\
  (exists rw' gh' ev,
     serve gh rw gzipRequest = Ok (rw', gh') /\
     journal rw' = EvHeaderAdd "Vary" "Accept-Encoding" :: ev /\
     Header_Values (header rw') hdrVary = ["Origin"; "Accept-Encoding"]).
Proof.
  intros serve gh rw.
  split.
  { destruct (ServeHTTP_adds_Vary
                Sample.float64 Sample.ParseFloat Sample.gt0 Sample.Atoi
                Sample.DetectContentType Sample.pick gh rw plainRequest)
      as (Hplain & _).
    eexists _, _. split; [exact (Hplain eq_refl)|]. split; by vm_compute. }
  destruct (ServeHTTP_adds_Vary
              Sample.float64 Sample.ParseFloat Sample.gt0 Sample.Atoi
              Sample.DetectContentType Sample.pick gh rw gzipRequest)
    as (_ & Hany).
  destruct Hany as (rw' & gh' & ev & Hs & Hj & Hvary).
  { left. level_ok. }
  exists rw', gh', ev. split; [exact Hs|]. split; [exact Hj|].
  rewrite (Hvary eq_refl). reflexivity.
Defined.

Lemma Close_idempotent_witness :
  let idle_g := wrap (recorder ∅) (newWriterPool BestSpeed) in
  let busy_g :=
    mkgRW (recorder ∅) (Some (GzipWriter 0 1)) (mkPool 1 [] 1) false true in
  Close idle_g = idle_g /\
  journal (w (Close busy_g)) =
    [EvZClose (GzipWriter 0 1); EvFlush; EvPoolPut (GzipWriter 0 1)] /\
  idle (pool (Close busy_g)) = [GzipWriter 0 1] /\
  Close (Close busy_g) = Close busy_g /\
  Nat.iter 3 Close busy_g = Close busy_g /\
  exists rw' gh' ev,
    ServeHTTP Sample.float64 Sample.ParseFloat Sample.gt0 Sample.Atoi
      Sample.DetectContentType Sample.pick
      (New [DoWrite "Hello, world!"] []) (recorder ∅) gzipRequest =
      Ok (rw', gh') /\
    journal rw' = ev /\
    List.filter pool_event ev =
      [EvPoolGet (GzipWriter 0 1); EvPoolPut (GzipWriter 0 1)] /\
    idle (gh_writerPool gh') = [GzipWriter 0 1].
Proof.
  intros idle_g busy_g.
  pose proof (Close_idempotent
                Sample.float64 Sample.ParseFloat Sample.gt0 Sample.Atoi
                Sample.DetectContentType Sample.pick)
    as (Hnone & Hsome & Hidem & Hiter & Hserve).
  split; [exact (Hnone idle_g eq_refl)|].
  destruct (Hsome busy_g (GzipWriter 0 1) eq_refl) as (_ & Hj & Hidle).
  split; [exact Hj|]. split; [exact Hidle|].
  split; [exact (Hidem busy_g)|]. split; [exact (Hiter busy_g 2)|].
  destruct (Hserve (New [DoWrite "Hello, world!"] []) (recorder ∅) gzipRequest)
    as (rw' & gh' & ev & Hs & Hj' & _).
  { level_ok. }
  exists rw', gh', ev. split; [exact Hs|].
  vm_compute in Hs. injection Hs as <- <-.
  split; [exact Hj'|]. simpl in Hj'. subst ev. split; by vm_compute.
Defined.

(** * Closed instances of the further properties *)

Lemma writes_forwarded_in_order_witness :
  exists g ev,
    gRW_run Sample.Atoi Sample.DetectContentType Sample.pick
      [DoWriteHeader 206; DoWrite "Hello, "; DoFlush; DoWriteHeader 200;
       DoWrite "world"; DoWrite "!"]
      (wrap (recorder ∅) (newWriterPool BestSpeed)) = Ok g /\
    journal (w g) = ev /\
    omap payload ev = ["Hello, "; "world"; "!"].
Proof.
  destruct (writes_forwarded_in_order
              Sample.Atoi Sample.DetectContentType Sample.pick
              (recorder ∅) (newWriterPool BestSpeed)
              [DoWriteHeader 206; DoWrite "Hello, "; DoFlush;
               DoWriteHeader 200; DoWrite "world"; DoWrite "!"])
    as (g & ev & Hrun & Hj & Hpay).
  { level_ok. }
  exists g, ev. split; [exact Hrun|]. split; [exact Hj | exact Hpay].
Defined.

Lemma status_codes_forwarded_witness :
  (exists g ev,
     gRW_run Sample.Atoi Sample.DetectContentType Sample.pick
       [DoHeaderSet "Content-Type" "text/html"; DoWrite "<p>"; DoWrite "</p>"]
       (wrap (recorder ∅) (newWriterPool BestSpeed)) = Ok g /\
     journal (w g) = ev /\ omap commit_code ev = [200%Z]) /\
  (exists g ev,
     gRW_run Sample.Atoi Sample.DetectContentType Sample.pick
       [DoWriteHeader 103; DoWriteHeader 404; DoWrite "not found"]
       (wrap (recorder ∅) (newWriterPool BestSpeed)) = Ok g /\
     journal (w g) = ev /\ omap commit_code ev = [103%Z; 404%Z]).
Proof.
  split.
  - destruct (status_codes_forwarded
                Sample.Atoi Sample.DetectContentType Sample.pick
                (recorder ∅) (newWriterPool BestSpeed)
                [DoHeaderSet "Content-Type" "text/html"; DoWrite "<p>";
                 DoWrite "</p>"])
      as (g & ev & Hrun & Hj & Hc).
    { level_ok. }
    exists g, ev. split; [exact Hrun|]. split; [exact Hj | exact Hc].
  - destruct (status_codes_forwarded
                Sample.Atoi Sample.DetectContentType Sample.pick
                (recorder ∅) (newWriterPool BestSpeed)
                [DoWriteHeader 103; DoWriteHeader 404; DoWrite "not found"])
      as (g & ev & Hrun & Hj & Hc).
    { level_ok. }
    exists g, ev. split; [exact Hrun|]. split; [exact Hj | exact Hc].
Defined.

Lemma flushes_forwarded_witness :
  (exists g ev,
     gRW_run Sample.Atoi Sample.DetectContentType Sample.pick
       [DoFlush; DoWrite "tick"; DoFlush; DoWrite "tock"; DoFlush]
       (wrap (recorder ∅) (newWriterPool BestSpeed)) = Ok g /\
     journal (w g) = ev /\ List.length (List.filter is_EvFlush ev) = 3) /\
  (exists g ev,
     gRW_run Sample.Atoi Sample.DetectContentType Sample.pick
       [DoFlush; DoWrite "tick"; DoFlush]
       (wrap (mkResponseWriter 1 false ∅ []) (newWriterPool BestSpeed)) =
       Ok g /\
     journal (w g) = ev /\ List.length (List.filter is_EvFlush ev) = 0).
Proof.
  split.
  - destruct (flushes_forwarded
                Sample.Atoi Sample.DetectContentType Sample.pick
                (recorder ∅) (newWriterPool BestSpeed)
                [DoFlush; DoWrite "tick"; DoFlush; DoWrite "tock"; DoFlush])
      as (g & ev & Hrun & Hj & Hf).
    { level_ok. }
    exists g, ev. split; [exact Hrun|]. split; [exact Hj | exact Hf].
  - destruct (flushes_forwarded
                Sample.Atoi Sample.DetectContentType Sample.pick
                (mkResponseWriter 1 false ∅ []) (newWriterPool BestSpeed)
                [DoFlush; DoWrite "tick"; DoFlush])
      as (g & ev & Hrun & Hj & Hf).
    { level_ok. }
    exists g, ev. split; [exact Hrun|]. split; [exact Hj | exact Hf].
Defined.

Lemma never_raw_and_gzip_witness :
  (exists g ev,
     gRW_run Sample.Atoi Sample.DetectContentType Sample.pick
       [DoWriteHeader 206; DoWrite "part"; DoWrite "ial"]
       (wrap (recorder ∅) (newWriterPool BestSpeed)) = Ok g /\
     journal (w g) = ev /\
     existsb is_raw ev = true /\ existsb is_gz ev = false) /\
  (exists g ev,
     gRW_run Sample.Atoi Sample.DetectContentType Sample.pick
       [DoWrite "Hello, "; DoFlush; DoWrite "world!"]
       (wrap (recorder ∅) (newWriterPool BestSpeed)) = Ok g /\
     journal (w g) = ev /\
     existsb is_gz ev = true /\ existsb is_raw ev = false).
Proof.
  split.
  - destruct (never_raw_and_gzip
                Sample.Atoi Sample.DetectContentType Sample.pick
                (recorder ∅) (newWriterPool BestSpeed)
                [DoWriteHeader 206; DoWrite "part"; DoWrite "ial"])
      as (g & ev & Hrun & Hj & _ & _ & Hone).
    { level_ok. }
    { reflexivity. }
    exists g, ev. split; [exact Hrun|]. split; [exact Hj|].
    assert (Hraw : existsb is_raw ev = true).
    { vm_compute in Hrun. injection Hrun as <-. simpl in Hj. by subst ev. }
    split; [exact Hraw|]. rewrite Hraw in Hone. exact Hone.
  - destruct (never_raw_and_gzip
                Sample.Atoi Sample.DetectContentType Sample.pick
                (recorder ∅) (newWriterPool BestSpeed)
                [DoWrite "Hello, "; DoFlush; DoWrite "world!"])
      as (g & ev & Hrun & Hj & _ & _ & Hone).
    { level_ok. }
    { reflexivity. }
    exists g, ev. split; [exact Hrun|]. split; [exact Hj|].
    assert (Hgz : existsb is_gz ev = true).
    { vm_compute in Hrun. injection Hrun as <-. simpl in Hj. by subst ev. }
    split; [exact Hgz|]. rewrite Hgz, andb_true_r in Hone. exact Hone.
Defined.

Lemma decision_ignores_status_witness :
  let g := wrap (recorder (Header_Set ∅ "Content-Type" "text/html"))
             (newWriterPool BestSpeed) in
  exists g1 g2,
    WriteHeader Sample.Atoi Sample.pick 200 g = Ok g1 /\
    WriteHeader Sample.Atoi Sample.pick 500 g = Ok g2 /\
    decision g1 = decision g2 /\ header (w g1) = header (w g2).
Proof.
  intros g.
  destruct (decision_ignores_status Sample.Atoi Sample.pick g 200 500)
    as (g1 & g2 & j & H1 & H2 & Hd & Hh & _).
  { level_ok. }
  { unfold bodiless, StatusNoContent, StatusNotModified,
      StatusPartialContent. lia. }
  { unfold bodiless, StatusNoContent, StatusNotModified,
      StatusPartialContent. lia. }
  exists g1, g2. split; [exact H1|]. split; [exact H2|].
  split; [exact Hd | exact Hh].
Defined.

Lemma init_header_effects_witness :
  let fresh := fun hd => wrap (recorder hd) (newWriterPool BestSpeed) in
  let page :=
    fresh (Header_Set
             (Header_Add
                (Header_Set (Header_Set ∅ "Content-Type" "text/html")
                   "Content-Length" "4096")
                "Content-Length" "4096")
             "ETag" "abc") in
  let image := fresh (Header_Set ∅ "Content-Type" "image/png") in
  (exists g',
     init Sample.Atoi Sample.pick page = Ok g' /\
     Header_Values (header (w g')) hdrContentEncoding = ["gzip"] /\
     header (w g') !! hdrContentLength = None /\
     header (w g') !! "ETag" = Some ["abc"]) /\
  init Sample.Atoi Sample.pick image = Ok (set_skip image).
Proof.
  intros fresh page image. split.
  - destruct (init_header_effects Sample.Atoi Sample.pick page)
      as (g' & Hi & _ & Hc).
    { level_ok. }
    { reflexivity. }
    exists g'. split; [exact Hi|].
    destruct (Hc (GzipWriter 0 1)) as (Hv & _ & Hcl & _ & Hother).
    { vm_compute in Hi. injection Hi as <-. reflexivity. }
    split; [exact Hv|]. split; [exact Hcl|].
    rewrite (Hother "ETag") by discriminate. by vm_compute.
  - destruct (init_header_effects Sample.Atoi Sample.pick image)
      as (g' & Hi & Hs & _).
    { level_ok. }
    { reflexivity. }
    rewrite Hi. f_equal. apply Hs.
    vm_compute in Hi. injection Hi as <-. reflexivity.
Defined.

Lemma gzip_writer_released_last_witness :
  exists rw' gh' body,
    ServeHTTP Sample.float64 Sample.ParseFloat Sample.gt0 Sample.Atoi
      Sample.DetectContentType Sample.pick
      (New [DoWrite "Hello, "; DoFlush; DoWrite "world!"] [])
      (recorder ∅) gzipRequest = Ok (rw', gh') /\
    journal rw' =
      body ++
      [EvZClose (GzipWriter 0 1); EvFlush; EvPoolPut (GzipWriter 0 1)] /\
    Forall (fun z => z = GzipWriter 0 1) (omap names body) /\
    List.filter is_EvZClose body = [].
Proof.
  destruct (gzip_writer_released_last
              Sample.float64 Sample.ParseFloat Sample.gt0 Sample.Atoi
              Sample.DetectContentType Sample.pick
              (New [DoWrite "Hello, "; DoFlush; DoWrite "world!"] [])
              (recorder ∅) gzipRequest)
    as (rw' & gh' & ev & Hs & Hj & Hcases).
  { level_ok. }
  assert (Hev : omap names ev <> [] /\
                List.filter pool_event ev =
                  [EvPoolGet (GzipWriter 0 1); EvPoolPut (GzipWriter 0 1)]).
  { vm_compute in Hs. injection Hs as <- <-. simpl in Hj. subst ev.
    split; [discriminate | reflexivity]. }
  destruct Hev as [Hne Hpool].
  destruct Hcases as [Hnil|(zw & body & Hev & Hall & Hget & Hcl)];
    [by destruct Hne|].
  assert (zw = GzipWriter 0 1) as ->.
  { rewrite Hev, List.filter_app, Hget in Hpool. simpl in Hpool.
    by injection Hpool as <-. }
  exists rw', gh', body. split; [exact Hs|].
  split; [by rewrite Hj, Hev|]. split; [exact Hall | exact Hcl].
Defined.

Lemma pool_keeps_level_witness :
  pick_sound Sample.pick /\
  exists opt rw' gh' ev,
    WithLevel BestCompression = Ok opt /\
    ServeHTTP Sample.float64 Sample.ParseFloat Sample.gt0 Sample.Atoi
      Sample.DetectContentType Sample.pick
      (New [DoWrite "Hello, world!"] [opt]) (recorder ∅) gzipRequest =
      Ok (rw', gh') /\
    journal rw' = ev /\
    omap names ev <> [] /\
    Forall (fun zw => writer_level zw = BestCompression) (omap names ev) /\
    pool_levels (gh_writerPool gh').
Proof.
  assert (Hpick : pick_sound Sample.pick).
  { intros l zw rest. destruct l as [|x l]; [done|]. simpl.
    intros [= <- <-]. split; [by left|]. intros y Hy. by right. }
  split; [exact Hpick|].
  exists (fun g => mkgzipHandler (gh_h g) (newWriterPool BestCompression)).
  destruct (pool_keeps_level
              Sample.float64 Sample.ParseFloat Sample.gt0 Sample.Atoi
              Sample.DetectContentType Sample.pick
              (New [DoWrite "Hello, world!"]
                 [fun g => mkgzipHandler (gh_h g)
                             (newWriterPool BestCompression)])
              (recorder ∅) gzipRequest Hpick)
    as (rw' & gh' & ev & Hs & Hj & _ & Hp & Hall).
  { level_ok. }
  { constructor. }
  exists rw', gh', ev. split; [reflexivity|]. split; [exact Hs|].
  split; [exact Hj|]. split; [|split; [exact Hall | exact Hp]].
  vm_compute in Hs. injection Hs as <- <-. simpl in Hj. by subst ev.
Defined.

Lemma New_last_level_wins_witness :
  exists o1 o2,
    WithLevel 3 = Ok o1 /\ WithLevel BestCompression = Ok o2 /\
    gh_writerPool (New [DoWrite "x"] [o1; o2]) =
      newWriterPool BestCompression /\
    gh_h (New [DoWrite "x"] [o1; o2]) = [DoWrite "x"].
Proof.
  exists (fun g => mkgzipHandler (gh_h g) (newWriterPool 3)),
    (fun g => mkgzipHandler (gh_h g) (newWriterPool BestCompression)).
  destruct (New_last_level_wins [DoWrite "x"] [3%Z; BestCompression]
              [fun g => mkgzipHandler (gh_h g) (newWriterPool 3);
               fun g => mkgzipHandler (gh_h g)
                          (newWriterPool BestCompression)])
    as (Hh & Hp & _).
  { repeat constructor. }
  split; [reflexivity|]. split; [reflexivity|].
  split; [exact Hp | exact Hh].
Defined.

Lemma allowsGzip_entries_compose_witness :
  let allows := allowsGzip Sample.float64 Sample.ParseFloat Sample.gt0 in
  allows ("identity;q=0.5, br" +:+ "," +:+ " gzip;q=0") =
    allows " gzip;q=0" /\
  allows ("br, gzip;q=0.0" +:+ "," +:+ "gzip") = allows "br, gzip;q=0.0".
Proof.
  destruct (allowsGzip_entries_compose
              Sample.float64 Sample.ParseFloat Sample.gt0)
    as (Hfront & Hback).
  split.
  - apply Hfront. repeat constructor; by vm_compute.
  - apply Hback. apply List.Exists_cons_tl. apply List.Exists_cons_hd.
    reflexivity.
Defined.

Lemma supportedContentType_parameters_witness :
  supportedContentType ("text/html" +:+ "; charset=utf-8") = true /\
  supportedContentType ("application/json" +:+ ";q=1") = true /\
  supportedContentType ("image/svg+xml" +:+ "; charset=utf-8") = false /\
  supportedContentType ("font/woff" +:+ "; v=1") = false.
Proof.
  destruct supportedContentType_parameters as (Hkeep & Hexact).
  split; [by apply Hkeep|]. split; [by apply Hkeep|].
  split.
  - by destruct (Hexact "; charset=utf-8") as (H & _).
  - destruct (Hexact "; v=1") as (_ & _ & H); [done|]. by apply H.
Defined.

Lemma gziphandler_allowsGzip_differs_on_sign_witness :
  let parse := fun s : string =>
    if String.eqb s "-1" then Some (-1)%Z
    else if String.eqb s "1" then Some 1%Z else None in
  let pos := fun q : Z => (0 <? q)%Z in
  let nonzero := fun q : Z => negb (q =? 0)%Z in
  (exists qv q,
     parse qv = Some q /\ allowsGzip Z parse pos "gzip;q=-1" = pos q /\
     gziphandler_allowsGzip Z parse nonzero "gzip;q=-1" = nonzero q /\
     pos q <> nonzero q) /\
  gziphandler_allowsGzip Z parse nonzero "br, gzip;q=1" = true.
Proof.
  intros parse pos nonzero. split.
  - destruct (gziphandler_allowsGzip_differs_on_sign
                Z parse pos nonzero "gzip;q=-1") as (Hdiff & _).
    apply Hdiff. by vm_compute.
  - destruct (gziphandler_allowsGzip_differs_on_sign
                Z parse pos nonzero "br, gzip;q=1") as (_ & _ & Himp).
    apply Himp; [|reflexivity].
    intros q Hq. unfold pos, nonzero in *.
    destruct (Z.ltb_spec 0 q); [|done].
    destruct (Z.eqb_spec q 0); [lia | done].
Defined.

Lemma gzipgo_skips_undeclared_type_witness :
  let g := mk_gzipgo_gRW (recorder ∅) None false false
             (newWriterPool DefaultCompression) in
  gzipgo_Write Sample.Atoi Sample.DetectContentType Sample.pick
    "Hello, world!" g =
    Ok (gzipgo_set_w (record [EvWrite "Hello, world!"] (recorder ∅))
          (gzipgo_set_skip g)) /\
  gzipgo_WriteHeader Sample.Atoi Sample.pick 200 g =
    gzipgo_set_w (record [EvWriteHeader 200] (recorder ∅))
      (gzipgo_set_skip g).
Proof.
  intros g.
  destruct (gzipgo_skips_undeclared_type
              Sample.Atoi Sample.DetectContentType Sample.pick
              g "Hello, world!" 200 eq_refl eq_refl) as (Hw & Hh).
  split; [exact Hw|]. apply Hh.
  unfold bodiless, StatusNoContent, StatusNotModified, StatusPartialContent.
  lia.
Defined.

Lemma gzipgo_write_decides_witness :
  let g := mk_gzipgo_gRW
             (recorder (Header_Set ∅ "Content-Type" "text/plain"))
             None false false (newWriterPool DefaultCompression) in
  exists g2,
    gzipgo_Write Sample.Atoi Sample.DetectContentType Sample.pick
      "Hello, world!"
      (gzipgo_WriteHeader Sample.Atoi Sample.pick StatusPartialContent g) =
      Ok g2 /\
    gzipgo_decision g2 = Compressing (GzipWriter 0 DefaultCompression).
Proof.
  intros g.
  destruct (gzipgo_write_decides
              Sample.Atoi Sample.DetectContentType Sample.pick
              g StatusPartialContent "Hello, world!")
    as (_ & g2 & Hw & Hd & _).
  { reflexivity. }
  { right. right. reflexivity. }
  exists g2. split; [exact Hw|]. rewrite Hd. by vm_compute.
Defined.
